(** * Batch record generator: the data pipeline of [WebDocumentGenerator]

    A shallow embedding of [src/document_generator.py] and [src/config.py]:
    header cleaning, column resolution, value normalisation (dates and
    percentages), product listing, batch lookup, batch sorting and the
    loading of the workbook; then the generation of a document and the
    bulk loop of [src/app.py] that calls it.

    Text is modelled as [string] over 8-bit characters.  The character
    classes and the case mapping below are those of Python on the ASCII
    range (code points 0..127); characters above 127 are kept as caseless
    characters that are neither word characters, digits nor white space.
    Module [Wide] reads the header cleaning once more over ASCII extended
    with two code points of Unicode, where its behaviour differs. *)

From Stdlib Require Import ZArith NArith Ascii String List Bool Lia.
From Stdlib Require Import Sorting.Sorted Sorting.Permutation.
From Stdlib Require Import Numbers.DecimalString Numbers.DecimalN.
From stdpp Require Import base option list gmap strings.

Local Open Scope char_scope.
Local Open Scope list_scope.
Local Open Scope string_scope.

(** ** Python [str] methods *)

Module Str.

Definition between (lo hi c : ascii) : bool :=
  (Ascii.leb lo c && Ascii.leb c hi)%bool.

(** [str.isspace] on one character, also the class [\s] of [re]:
    TAB..CR, FS..US and the space. *)
Definition isspace (c : ascii) : bool :=
  (between "009" "013" c || between "028" "032" c)%bool.

(** The class [\d] of [re]. *)
Definition isdigit (c : ascii) : bool := between "0" "9" c.

Definition isupper (c : ascii) : bool := between "A" "Z" c.
Definition islower (c : ascii) : bool := between "a" "z" c.

(** The class [\w] of [re]: letters, digits and the underscore. *)
Definition isword (c : ascii) : bool :=
  (isupper c || islower c || isdigit c || Ascii.eqb c "_")%bool.

Definition lower_char (c : ascii) : ascii :=
  if isupper c then ascii_of_N (N_of_ascii c + 32) else c.

Definition upper_char (c : ascii) : ascii :=
  if islower c then ascii_of_N (N_of_ascii c - 32) else c.

Fixpoint map (f : ascii -> ascii) (s : string) : string :=
  match s with
  | EmptyString => EmptyString
  | String c r => String (f c) (map f r)
  end.

Fixpoint filter (p : ascii -> bool) (s : string) : string :=
  match s with
  | EmptyString => EmptyString
  | String c r => if p c then String c (filter p r) else filter p r
  end.

Fixpoint forallb (p : ascii -> bool) (s : string) : bool :=
  match s with
  | EmptyString => true
  | String c r => (p c && forallb p r)%bool
  end.

(** [s.lower()] and [s.upper()]. *)
Definition lower : string -> string := map lower_char.
Definition upper : string -> string := map upper_char.

Fixpoint lstrip (s : string) : string :=
  match s with
  | EmptyString => EmptyString
  | String c r => if isspace c then lstrip r else s
  end.

Fixpoint rstrip (s : string) : string :=
  match s with
  | EmptyString => EmptyString
  | String c r =>
      match rstrip r with
      | EmptyString => if isspace c then EmptyString else String c EmptyString
      | r' => String c r'
      end
  end.

(** [s.strip()]. *)
Definition strip (s : string) : string := rstrip (lstrip s).

Fixpoint startswith (p s : string) : bool :=
  match p, s with
  | EmptyString, _ => true
  | String a p', String b s' => (Ascii.eqb a b && startswith p' s')%bool
  | String _ _, EmptyString => false
  end.

(** [p in s]: [p] occurs in [s] as a contiguous substring. *)
Fixpoint contains (p s : string) : bool :=
  (startswith p s ||
   match s with
   | EmptyString => false
   | String _ r => contains p r
   end)%bool.

(** [s.replace(a, b)] for one-character [a] and [b]. *)
Definition replace_char (a b : ascii) : string -> string :=
  map (fun c => if Ascii.eqb c a then b else c).

(** [s.split(sep)[0]] for a one-character separator: the text before the
    first [sep] (all of [s] when there is none). *)
Fixpoint split_head (sep : ascii) (s : string) : string :=
  match s with
  | EmptyString => EmptyString
  | String c r => if Ascii.eqb c sep then EmptyString else String c (split_head sep r)
  end.

(** The truth value of a string: [not s] holds exactly for the empty one. *)
Definition truthy (s : string) : bool :=
  match s with EmptyString => false | _ => true end.

(** A maximal leading run of digits and what follows it. *)
Fixpoint span_digits (s : string) : string * string :=
  match s with
  | EmptyString => (EmptyString, EmptyString)
  | String c r =>
      if isdigit c
      then let '(d, rest) := span_digits r in (String c d, rest)
      else (EmptyString, s)
  end.

Definition digit_val (c : ascii) : N := N_of_ascii c - 48.

(** [int(s)] for a string of decimal digits (arbitrary precision). *)
Definition int_of_digits (s : string) : N :=
  let fix go (acc : N) (s : string) : N :=
    match s with
    | EmptyString => acc
    | String c r => go (acc * 10 + digit_val c)%N r
    end in
  go 0%N s.

(** [str(n)] for a natural number. *)
Definition of_N (n : N) : string := NilEmpty.string_of_uint (N.to_uint n).

(** [str(n).zfill(w)]: decimal digits padded with zeros on the left. *)
Fixpoint zeros (k : nat) : string :=
  match k with O => EmptyString | S k' => String "0" (zeros k') end.

Definition zfill (w : nat) (n : N) : string :=
  let d := of_N n in zeros (w - String.length d) ++ d.

(** The first and the last character of a string. *)
Definition head (s : string) : option ascii :=
  match s with
  | EmptyString => None
  | String c _ => Some c
  end.

Fixpoint last (s : string) : option ascii :=
  match s with
  | EmptyString => None
  | String c EmptyString => Some c
  | String _ r => last r
  end.

End Str.

(** ** The regular expressions of the module, one function each *)

Module Re.

(** [re.sub(r'[^\w\s]', '', s)]. *)
Definition sub_nonword_nonspace (s : string) : string :=
  Str.filter (fun c => (Str.isword c || Str.isspace c)%bool) s.

(** [re.sub(r'_+', '_', s)]: every maximal run of underscores becomes one
    underscore; an underscore is dropped when another one follows it. *)
Fixpoint sub_underscores (s : string) : string :=
  match s with
  | EmptyString => EmptyString
  | String c r =>
      match r with
      | String c' _ =>
          if (Ascii.eqb c "_" && Ascii.eqb c' "_")%bool
          then sub_underscores r
          else String c (sub_underscores r)
      | EmptyString => String c EmptyString
      end
  end.

(** [re.sub(r'[%\s]', '', s)]. *)
Definition sub_percent_space (s : string) : string :=
  Str.filter (fun c => negb (Ascii.eqb c "%" || Str.isspace c)) s.

(** One pass for [re.findall(r'\d+', s)]: the digit run that starts at the
    head of [s] (empty when [s] does not start with a digit) and the runs
    after it. *)
Fixpoint digit_runs (s : string) : string * list string :=
  match s with
  | EmptyString => (EmptyString, nil)
  | String c r =>
      let '(h, t) := digit_runs r in
      if Str.isdigit c then (String c h, t)
      else (EmptyString, if Str.truthy h then h :: t else t)
  end.

(** [re.findall(r'\d+', s)]: the maximal runs of decimal digits, left to
    right. *)
Definition findall_digits (s : string) : list string :=
  let '(h, t) := digit_runs s in
  if Str.truthy h then h :: t else t.

End Re.

(** ** [datetime.strptime] and [strftime] for the formats of the module *)

Module Datetime.

(** A match of a regular expression at the head of a string: the matched
    text and the rest.  A matcher lists its matches in the order in which
    a backtracking engine tries them. *)
Definition matcher := string -> list (string * string).

Definition cls (p : ascii -> bool) : matcher := fun s =>
  match s with
  | String c r => if p c then [(String c EmptyString, r)] else []
  | EmptyString => []
  end.

Definition chr (c : ascii) : matcher := cls (Ascii.eqb c).

Definition cat (p q : matcher) : matcher := fun s =>
  flat_map (fun '(a, r) => List.map (fun '(b, r') => ((a ++ b)%string, r')) (q r)) (p s).

Definition alt (p q : matcher) : matcher := fun s => (p s ++ q s)%list.

(** The regular expressions [_strptime] substitutes for the directives:
    [%d] is [3[0-1]|[1-2]\d|0[1-9]|[1-9]| [1-9]],
    [%m] is [1[0-2]|0[1-9]|[1-9]] and [%Y] is [\d\d\d\d]. *)
Definition re_d : matcher :=
  alt (cat (chr "3") (cls (Str.between "0" "1")))
 (alt (cat (cls (Str.between "1" "2")) (cls Str.isdigit))
 (alt (cat (chr "0") (cls (Str.between "1" "9")))
 (alt (cls (Str.between "1" "9"))
      (cat (chr " ") (cls (Str.between "1" "9")))))).

Definition re_m : matcher :=
  alt (cat (chr "1") (cls (Str.between "0" "2")))
 (alt (cat (chr "0") (cls (Str.between "1" "9")))
      (cls (Str.between "1" "9"))).

Definition re_Y : matcher :=
  cat (cls Str.isdigit) (cat (cls Str.isdigit) (cat (cls Str.isdigit) (cls Str.isdigit))).

Inductive item := Dir_Y | Dir_m | Dir_d | Lit (c : ascii).

Record date := mkdate { year : N; month : N; day : N }.

(** [int(found_dict[...])]; [int] ignores surrounding white space. *)
Definition int (s : string) : N := Str.int_of_digits (Str.strip s).

Definition item_match (it : item) (acc : date) (s : string) : list (date * string) :=
  match it with
  | Dir_Y => List.map (fun '(t, r) => (mkdate (int t) (month acc) (day acc), r)) (re_Y s)
  | Dir_m => List.map (fun '(t, r) => (mkdate (year acc) (int t) (day acc), r)) (re_m s)
  | Dir_d => List.map (fun '(t, r) => (mkdate (year acc) (month acc) (int t), r)) (re_d s)
  | Lit c => List.map (fun '(_, r) => (acc, r)) (chr c s)
  end.

Fixpoint format_match (f : list item) (acc : date) (s : string) : list (date * string) :=
  match f with
  | [] => [(acc, s)]
  | it :: f' => flat_map (fun '(acc', r) => format_match f' acc' r) (item_match it acc s)
  end.

Definition is_leap (y : N) : bool :=
  ((y mod 4 =? 0) && (negb (y mod 100 =? 0) || (y mod 400 =? 0)))%N.

Definition days_in_month (y m : N) : N :=
  match m with
  | 2 => if is_leap y then 29 else 28
  | 4 | 6 | 9 | 11 => 30
  | _ => 31
  end%N.

(** The check of the [datetime] constructor. *)
Definition valid (d : date) : bool :=
  ((1 <=? year d) && (year d <=? 9999) && (1 <=? month d) && (month d <=? 12)
   && (1 <=? day d) && (day d <=? days_in_month (year d) (month d)))%N.

(** [datetime.strptime(s, f)]: [None] stands for [ValueError].  The first
    match of the regular expression is taken; it must consume all of [s]
    and denote a date of the calendar. *)
Definition strptime (s : string) (f : list item) : option date :=
  match format_match f (mkdate 1900 1 1) s with
  | [] => None
  | (d, rest) :: _ =>
      if Str.truthy rest then None
      else if valid d then Some d else None
  end.

(** [d.strftime('%d.%m.%Y')], as the C library of Linux writes it: the day
    and the month with two digits, the year in decimal without padding, so
    with four digits from the year 1000 on and with fewer before. *)
Definition strftime_dmY (d : date) : string :=
  Str.zfill 2 (day d) ++ "." ++ Str.zfill 2 (month d) ++ "." ++ Str.of_N (year d).

End Datetime.

(** ** [float] and the format [.2f] *)

Module Float.

Local Open Scope Z_scope.

(** A binary64 value: [(-1)^neg * m * 2^e], an infinity or a NaN. *)
Inductive float :=
| Fin (neg : bool) (m : Z) (e : Z)
| Inf (neg : bool)
| NaN.

(** Nearest integer to [num / den], ties to the even one ([0 < den]). *)
Definition round_half_even (num den : Z) : Z :=
  let q := num / den in
  let r := num mod den in
  match 2 * r ?= den with
  | Lt => q
  | Gt => q + 1
  | Eq => if Z.even q then q else q + 1
  end.

(** [2^k <= num / den], for positive [num] and [den]. *)
Definition ge_pow2 (num den k : Z) : bool :=
  if 0 <=? k then den * 2 ^ k <=? num else den <=? num * 2 ^ (- k).

(** The binary64 value nearest to [num / den] (round to nearest, ties to
    even), with gradual underflow and overflow to infinity. *)
Definition of_ratio (neg : bool) (num den : Z) : float :=
  if num =? 0 then Fin neg 0 0
  else
    let e0 := Z.log2 num - Z.log2 den in
    let e := if ge_pow2 num den e0 then e0 else e0 - 1 in
    let p := Z.max (e - 52) (-1074) in
    let m := if p <? 0 then round_half_even (num * 2 ^ (- p)) den
             else round_half_even num (den * 2 ^ p) in
    if (0 <=? p) && (2 ^ 1024 <=? m * 2 ^ p) then Inf neg else Fin neg m p.

Definition parse_sign (s : string) : bool * string :=
  match s with
  | String "-" r => (true, r)
  | String "+" r => (false, r)
  | _ => (false, s)
  end.

(** The underscore rule of numeric literals: an underscore stands only
    between two digits.  [prev] is the character before the head. *)
Fixpoint underscores_ok (prev : ascii) (s : string) : bool :=
  match s with
  | EmptyString => negb (Ascii.eqb prev "_")
  | String c r =>
      (if Ascii.eqb c "_" then Str.isdigit prev
       else negb (Ascii.eqb prev "_") || Str.isdigit c)
      && underscores_ok c r
  end.

Definition strip_underscores (s : string) : option string :=
  if Str.contains "_" s
  then if underscores_ok "000" s
       then Some (Str.filter (fun c => negb (Ascii.eqb c "_")) s)
       else None
  else Some s.

Definition is_e (c : ascii) : bool := (Ascii.eqb c "e" || Ascii.eqb c "E")%bool.

(** A decimal literal [digits [. digits] [e [sign] digits]] with at least
    one digit before the exponent: the digits as an integer and the power
    of ten they are scaled by. *)
Definition parse_decimal (s : string) : option (Z * Z) :=
  let '(ip, s2) := Str.span_digits s in
  let '(fp, s3) :=
    match s2 with
    | String "." r => Str.span_digits r
    | _ => (EmptyString, s2)
    end in
  if negb (Str.truthy (ip ++ fp)%string) then None
  else
    let n := Z.of_N (Str.int_of_digits (ip ++ fp)%string) in
    let k := Z.of_nat (String.length fp) in
    match s3 with
    | EmptyString => Some (n, - k)
    | String c r =>
        if is_e c then
          let '(eneg, s4) := parse_sign r in
          let '(ed, s5) := Str.span_digits s4 in
          if (Str.truthy ed && negb (Str.truthy s5))%bool
          then let x := Z.of_N (Str.int_of_digits ed) in
               Some (n, (if eneg then - x else x) - k)
          else None
        else None
    end.

Definition of_decimal (neg : bool) (n k : Z) : float :=
  if 0 <=? k then of_ratio neg (n * 10 ^ k) 1 else of_ratio neg n (10 ^ (- k)).

(** [float(s)]: [None] stands for [ValueError]. *)
Definition of_string (s : string) : option float :=
  match strip_underscores (Str.strip s) with
  | None => None
  | Some t =>
      let '(neg, body) := parse_sign t in
      let l := Str.lower body in
      if String.eqb l "inf" || String.eqb l "infinity" then Some (Inf neg)
      else if String.eqb l "nan" then Some NaN
      else match parse_decimal body with
           | Some (n, k) => Some (of_decimal neg n k)
           | None => None
           end
  end.

Definition sign_text (neg : bool) : string := if neg then "-" else "".

(** [f"{x:.2f}"]: the value rounded to two decimals, ties to even. *)
Definition format_2f (x : float) : string :=
  match x with
  | NaN => "nan"
  | Inf neg => sign_text neg ++ "inf"
  | Fin neg m e =>
      let r := if e <? 0 then round_half_even (m * 100) (2 ^ (- e))
               else m * 100 * 2 ^ e in
      sign_text neg ++ Str.of_N (Z.to_N (r / 100)) ++ "."
        ++ Str.zfill 2 (Z.to_N (r mod 100))
  end.

End Float.

(** ** Exceptions and the log *)

Inductive exn_kind := KeyError | AttributeError | ValueError | IndexError | OSError.

(** An exception: its class and its text ([str(e)]). *)
Record exn := mkexn { kind : exn_kind; text : string }.

Inductive result (A : Type) :=
| Ok (a : A)
| Raise (e : exn).
Arguments Ok {A} a.
Arguments Raise {A} e.

(** The exception monad: [x ← m; k] runs [k] unless [m] raised. *)
#[export] Instance result_ret : MRet result := @Ok.
#[export] Instance result_bind : MBind result := fun A B k m =>
  match m with
  | Ok a => k a
  | Raise e => Raise e
  end.

Inductive level := ERROR | WARNING | INFO.

Definition log_entry : Type := level * string.

(** ** The data frame that [pandas.read_excel] returns *)

Module Pandas.

(** A cell read with [dtype=str]: its text, or [None] for NaN (an empty
    cell or one of the [na_values]). *)
Definition cell := option string.

(** Column labels and the rows under them; a cell that a row does not
    have is NaN. *)
Record DataFrame := mkdf { columns : list string; rows : list (list cell) }.

(** [df.empty]: one of the two axes has length zero. *)
Definition empty (d : DataFrame) : bool :=
  match columns d, rows d with
  | [], _ | _, [] => true
  | _, _ => false
  end.

Definition at_ (r : list cell) (i : nat) : cell := mjoin (r !! i).

(** The positions of the columns labelled [c]. *)
Fixpoint positions (c : string) (cols : list string) (i : nat) : list nat :=
  match cols with
  | [] => []
  | h :: t => if String.eqb h c then i :: positions c t (S i) else positions c t (S i)
  end.

(** [c in df.columns]. *)
Definition has_column (c : string) (cols : list string) : bool :=
  existsb (String.eqb c) cols.

(** What indexing by a label gives: one column (a Series), or a frame of
    all the columns that carry the label when it is repeated. *)
Inductive selection (A : Type) :=
| One (a : A)
| Many.
Arguments One {A} a.
Arguments Many {A}.

(** The [KeyError] of a missing label; its text is the label between
    quotes (the [repr] of a label that holds no quote and no backslash). *)
Definition key_error (c : string) : exn := mkexn KeyError ("'" ++ c ++ "'").

(** [df[c]]. *)
Definition getitem (d : DataFrame) (c : string) : result (selection (list cell)) :=
  match positions c (columns d) 0 with
  | [] => Raise (key_error c)
  | [i] => Ok (One (List.map (fun r => at_ r i) (rows d)))
  | _ => Ok Many
  end.

(** [row[c]] for a row of the frame (a Series indexed by the labels). *)
Definition row_getitem (cols : list string) (r : list cell) (c : string)
  : result (selection cell) :=
  match positions c cols 0 with
  | [] => Raise (key_error c)
  | [i] => Ok (One (at_ r i))
  | _ => Ok Many
  end.

(** [str(v)] of a cell, as [astype(str)] does it: NaN reads [nan]. *)
Definition astype_str (v : cell) : string :=
  match v with
  | Some s => s
  | None => "nan"
  end.

(** [series.dropna()]. *)
Definition dropna (vals : list cell) : list string := omap id vals.

End Pandas.

Import Pandas.

(** ** Sorting

    [sorted] and [list.sort] are stable: elements that compare equal keep
    their order.  The result of a stable sort is determined by the list and
    the order, here it is computed by insertion. *)

Section Sorting.
Context {A : Type} (le : A -> A -> bool).

Fixpoint insert_sorted (x : A) (l : list A) : list A :=
  match l with
  | [] => [x]
  | y :: l' => if le x y then x :: l else y :: insert_sorted x l'
  end.

Definition stable_sort (l : list A) : list A := foldr insert_sorted [] l.
End Sorting.

(** The order [sorted(l, key=key)] sorts by, for a key in the naturals. *)
Definition key_le {A : Type} (key : A -> N) (a b : A) : bool := (key a <=? key b)%N.

(** ** [config.py] *)

Record WebConfig := mkconfig {
  excel_file : string;
  template_file : string;
  sheet_name : string;
  output_folder : string;
  column_mappings : list (string * list string)
}.

Definition default_column_mappings : list (string * list string) :=
  [ ("product", ["product_name"; "productname"; "product"; "name"; "product_description"]);
    ("batch_no", ["batch_no"; "batch_no."; "batchno"; "batch"; "batch_number"]);
    ("mfg_date", ["mfg_date"; "manufacturing_date"; "mfgdate"; "manufacture_date"]);
    ("expiry_date", ["expiry_date"; "exp_date"; "expirydate"; "expiration_date"]);
    ("yield", ["total_batch_yield_%"; "total_batch_yield"; "batch_yield_%"; "yield_%";
               "yield"; "total_yield"]);
    ("accountability", ["total_batch_accountability_%"; "total_batch_accountability";
                        "batch_accountability_%"; "accountability_%"; "accountability"]);
    ("location", ["location_rack_shelf"; "location"; "rack_shelf"; "storage_location";
                  "location_rack"; "rack"]);
    ("remarks", ["remarks"; "remark"; "comments"; "note"; "notes"]);
    ("sent_to_doc", ["sent_to_document_room_by_date"; "sent_to_document_room";
                     "document_room_date"; "sent_to_doc"; "doc_room_date"]) ].

(** [x or default] on an optional string argument. *)
Definition or_default (x : option string) (dflt : string) : string :=
  match x with
  | Some s => if Str.truthy s then s else dflt
  | None => dflt
  end.

(** [WebConfig.__init__]. *)
Definition WebConfig_init (excel template : option string) (sheet : string) : WebConfig :=
  {| excel_file := or_default excel "data/Batch_Local_2025_09_07.xlsx";
     template_file := or_default template "data/Batch Record Register_template.docx";
     sheet_name := sheet;
     output_folder := "generated";
     column_mappings := default_column_mappings |}.

(** ** [WebDocumentGenerator]: the methods that only read the instance *)

(** The dictionary that [process_batch_data] builds for one row. *)
Record BatchRecord := mkbatch {
  batch_no : string;
  mfg_date : string;
  expiry_date : string;
  total_batch_yield : string;
  total_batch_accountability : string;
  location_rack_shelf : string;
  remarks : string;
  sent_to_document_room : string
}.

(** The body of the loop of [clean_column_names]. *)
Definition clean_column_name (col : string) : string :=
  let col_clean := Re.sub_nonword_nonspace col in
  let col_clean := Str.replace_char " " "_" (Str.lower (Str.strip col_clean)) in
  Re.sub_underscores col_clean.

Definition clean_column_names (columns : list string) : list string :=
  List.map clean_column_name columns.

(** The first loop of [find_column_name]: the first candidate that is a
    column label. *)
Fixpoint first_exact (cols possible_names : list string) : option string :=
  match possible_names with
  | [] => None
  | name :: rest => if has_column name cols then Some name else first_exact cols rest
  end.

(** The inner loop of the partial matching: the first candidate whose
    lower-cased text occurs in [col_lower]. *)
Fixpoint first_contained (col_lower : string) (possible_names : list string) : option string :=
  match possible_names with
  | [] => None
  | name :: rest =>
      if Str.contains (Str.lower name) col_lower then Some name
      else first_contained col_lower rest
  end.

(** The outer loop of the partial matching: the first column, with the
    candidate found in it. *)
Fixpoint first_partial (cols possible_names : list string) : option (string * string) :=
  match cols with
  | [] => None
  | col :: rest =>
      match first_contained (Str.lower col) possible_names with
      | Some name => Some (col, name)
      | None => first_partial rest possible_names
      end
  end.

(** [find_column_name]: the column found and the lines logged. *)
Definition find_column_name (df : option DataFrame) (possible_names : list string)
    (description : string) (silent : bool) : option string * list log_entry :=
  match df with
  | None => (None, [])
  | Some d =>
      if empty d then (None, [])
      else
        match first_exact (columns d) possible_names with
        | Some name =>
            (Some name,
             if silent then []
             else [(INFO, "Found " ++ description ++ " column: '" ++ name ++ "'")])
        | None =>
            match first_partial (columns d) possible_names with
            | Some (col, name) =>
                (Some col,
                 if silent then []
                 else [(INFO, "Found partial match for " ++ description ++ ": '" ++ col
                              ++ "' contains '" ++ name ++ "'")])
            | None =>
                (None,
                 if silent then []
                 else [(WARNING, "Could not find " ++ description ++ " column")])
            end
        end
  end.

(** [self.column_cache.get(field)], with [None] and the empty string taken
    together as [if not column_name] does. *)
Definition cached_column (column_cache : gmap string (option string)) (field : string)
  : option string :=
  match mjoin (column_cache !! field) with
  | Some c => if Str.truthy c then Some c else None
  | None => None
  end.

Definition na_tokens : list string := ["#N/A"; "#NA"; "N/A"; "NA"].

(** [any(na_val in s for na_val in ['#N/A', '#NA', 'N/A', 'NA'])]. *)
Definition has_na_token (s : string) : bool :=
  existsb (fun na_val => Str.contains na_val s) na_tokens.

(** [if not value or str(value).strip() == '']. *)
Definition blank (value : string) : bool :=
  (negb (Str.truthy value) || String.eqb (Str.strip value) "")%bool.

Definition date_formats : list (list Datetime.item) :=
  let Y := Datetime.Dir_Y in
  let m := Datetime.Dir_m in
  let d := Datetime.Dir_d in
  let dash := Datetime.Lit "-" in
  let slash := Datetime.Lit "/" in
  let dot := Datetime.Lit "." in
  [ [Y; dash; m; dash; d];
    [d; dash; m; dash; Y];
    [d; slash; m; slash; Y];
    [m; slash; d; slash; Y];
    [d; dot; m; dot; Y];
    [Y; dot; m; dot; d] ].

(** The loop over [date_formats]: the first format that parses. *)
Fixpoint first_parse (date_str : string) (formats : list (list Datetime.item))
  : option Datetime.date :=
  match formats with
  | [] => None
  | fmt :: rest =>
      match Datetime.strptime date_str fmt with
      | Some parsed_date => Some parsed_date
      | None => first_parse date_str rest
      end
  end.

(** [format_date_properly] on a string (a string has no [strftime]). *)
Definition format_date_properly (date_value : string) : string :=
  if blank date_value then ""
  else
    let date_str := Str.upper (Str.strip date_value) in
    if has_na_token date_str then date_str
    else
      let date_str := Str.split_head " " date_str in
      match first_parse date_str date_formats with
      | Some parsed_date => Datetime.strftime_dmY parsed_date
      | None => date_str
      end.

(** [format_percentage]. *)
Definition format_percentage (value : string) : string :=
  if blank value then ""
  else
    let value_str := Str.upper (Str.strip value) in
    if has_na_token value_str then value_str
    else
      let clean_value := Re.sub_percent_space value_str in
      if (Str.truthy clean_value && negb (String.eqb clean_value "nan"))%bool then
        match Float.of_string clean_value with
        | Some num_value => Float.format_2f num_value ++ "%"
        | None => value_str
        end
      else "".

(** [get_formatted_value] on a row of a frame with labels [cols]. *)
Definition get_formatted_value (column_cache : gmap string (option string))
    (cols : list string) (batch : list cell) (field : string) : result string :=
  match cached_column column_cache field with
  | None => Ok ""
  | Some column_name =>
      if negb (has_column column_name cols) then Ok ""
      else
        value ← row_getitem cols batch column_name;
        match value with
        | One None => Ok ""
        | One (Some v) => if String.eqb v "" then Ok "" else Ok (Str.strip v)
        | Many =>
            Raise (mkexn ValueError
                     ("The truth value of a Series is ambiguous. "
                      ++ "Use a.empty, a.bool(), a.item(), a.any() or a.all()."))
        end
  end.

(** [process_batch_data]. *)
Definition process_batch_data (column_cache : gmap string (option string))
    (cols : list string) (product_batches : list (list cell)) : result (list BatchRecord) :=
  mapM (fun batch =>
    let get := get_formatted_value column_cache cols batch in
    v_batch_no ← get "batch_no";
    v_mfg ← get "mfg_date";
    v_exp ← get "expiry_date";
    v_yield ← get "yield";
    v_acc ← get "accountability";
    v_loc ← get "location";
    v_rem ← get "remarks";
    v_sent ← get "sent_to_doc";
    mret {| batch_no := v_batch_no;
            mfg_date := format_date_properly v_mfg;
            expiry_date := format_date_properly v_exp;
            total_batch_yield := format_percentage v_yield;
            total_batch_accountability := format_percentage v_acc;
            location_rack_shelf := v_loc;
            remarks := v_rem;
            sent_to_document_room := format_date_properly v_sent |})
    product_batches.

(** [int(s)] for a run of decimal digits.  Integers are unbounded, but the
    interpreter refuses to convert a text of more than 4300 digits
    ([sys.get_int_max_str_digits()], leading zeros counted). *)
Definition int_max_str_digits : nat := 4300.

Definition int_of_run (s : string) : result N :=
  if (String.length s <=? int_max_str_digits)%nat then Ok (Str.int_of_digits s)
  else Raise (mkexn ValueError
                ("Exceeds the limit (4300 digits) for integer string conversion: "
                 ++ "value has " ++ Str.of_N (N.of_nat (String.length s))
                 ++ " digits; use sys.set_int_max_str_digits() to increase the limit")).

(** [get_batch_key]: the first run of digits as an integer, else 0. *)
Definition get_batch_key (batch : BatchRecord) : result N :=
  match Re.findall_digits (batch_no batch) with
  | numbers0 :: _ => int_of_run numbers0
  | [] => Ok 0%N
  end.

(** The key of a record whose key is computed. *)
Definition batch_num (batch : BatchRecord) : N :=
  match get_batch_key batch with
  | Ok n => n
  | Raise _ => 0%N
  end.

(** [sort_batches]: the list returned and the lines logged.  [sorted]
    computes the key of every record, in order, before it compares any
    two; when a key raises, the handler logs the error and returns the
    list as it came. *)
Definition sort_batches (batches : list BatchRecord)
  : list BatchRecord * list log_entry :=
  match mapM get_batch_key batches with
  | Ok _ => (stable_sort (key_le batch_num) batches, [])
  | Raise e => (batches, [(ERROR, "Error sorting batches: " ++ text e)])
  end.

(** The loop of [get_unique_products] over the kept values: [seen] and
    [result] after one more value. *)
Definition unique_step (acc : gset string * list string) (product : string)
  : gset string * list string :=
  let '(seen, result) := acc in
  let product_str := Str.strip product in
  if (Str.truthy product_str && negb (bool_decide (product_str ∈ seen)))%bool
  then ({[product_str]} ∪ seen, (result ++ [product_str])%list)
  else (seen, result).

Definition get_unique_products_try (d : DataFrame)
    (column_cache : gmap string (option string)) : result (list string) :=
  match cached_column column_cache "product" with
  | None => Ok []
  | Some product_column =>
      col ← getitem d product_column;
      match col with
      | Many => Raise (mkexn AttributeError "'DataFrame' object has no attribute 'str'")
      | One vals =>
          let unique_products := dropna vals in
          let unique_products :=
            List.filter (fun v => negb (String.eqb (Str.strip v) "")) unique_products in
          let '(_, result) := fold_left unique_step unique_products (∅, []) in
          Ok (stable_sort String.leb result)
      end
  end.

(** [get_unique_products]: the list returned and the lines logged. *)
Definition get_unique_products (df : option DataFrame)
    (column_cache : gmap string (option string)) : list string * list log_entry :=
  match df with
  | None => ([], [])
  | Some d =>
      if empty d then ([], [])
      else
        match get_unique_products_try d column_cache with
        | Ok r => (r, [])
        | Raise e => ([], [(ERROR, "Error getting unique products: " ++ text e)])
        end
  end.

(** The comparison behind [mask]: the cell as text, lower-cased, against
    the lower-cased query. *)
Definition product_matches (product_name : string) (v : cell) : bool :=
  String.eqb (Str.lower (astype_str v)) (Str.lower product_name).

(** [df[mask]]: the rows whose entry of [mask] is true. *)
Fixpoint select_rows (rs : list (list cell)) (mask : list bool) : list (list cell) :=
  match rs, mask with
  | r :: rs', b :: mask' => if b then r :: select_rows rs' mask' else select_rows rs' mask'
  | _, _ => []
  end.

Definition search_product_batches_try (d : DataFrame)
    (column_cache : gmap string (option string)) (product_name : string)
  : result (option (list BatchRecord) * list log_entry) :=
  match cached_column column_cache "product" with
  | None => Ok (None, [])
  | Some product_column =>
      col ← getitem d product_column;
      match col with
      | Many => Raise (mkexn AttributeError "'DataFrame' object has no attribute 'str'")
      | One vals =>
          let mask := List.map (product_matches product_name) vals in
          let product_batches := select_rows (rows d) mask in
          match product_batches with
          | [] => Ok (None, [])
          | _ =>
              batches ← process_batch_data column_cache (columns d) product_batches;
              let '(sorted_batches, lg) := sort_batches batches in
              Ok (Some sorted_batches, lg)
          end
      end
  end.

(** [search_product_batches]: the batches found and the lines logged. *)
Definition search_product_batches (df : option DataFrame)
    (column_cache : gmap string (option string)) (product_name : string)
  : option (list BatchRecord) * list log_entry :=
  match df with
  | None => (None, [])
  | Some d =>
      if empty d then (None, [])
      else
        match search_product_batches_try d column_cache product_name with
        | Ok (r, lg) => (r, lg)
        | Raise e => (None, [(ERROR, "Error searching batches: " ++ text e)])
        end
  end.

(** [preview_product_data]. *)
Definition preview_product_data := search_product_batches.

(** ** Loading the workbook: the methods that change the instance *)

(** A file of the file system as [pandas] sees it: one that cannot be
    opened as a workbook, or a workbook with its sheets in order, each
    sheet parsing to a data frame or failing to parse. *)
Inductive file :=
| Unreadable (e : exn)
| Workbook (sheets : list (string * result DataFrame)).

(** The instance together with the configuration object it refers to.
    [self.config] is a reference to the object the caller built, so the
    configuration lives in the state and outlives every call. *)
Record state := mkstate {
  config : WebConfig;
  df : option DataFrame;
  column_cache : gmap string (option string);
  logged : list log_entry
}.

(** State and exceptions: what a statement sequence of a method does. *)
Definition M (A : Type) : Type := state -> state * result A.

#[export] Instance M_ret : MRet M := fun A a σ => (σ, Ok a).
#[export] Instance M_bind : MBind M := fun A B k m σ =>
  match m σ with
  | (σ', Ok a) => k a σ'
  | (σ', Raise e) => (σ', Raise e)
  end.

Definition raise {A} (e : exn) : M A := fun σ => (σ, Raise e).
Definition lift {A} (r : result A) : M A := fun σ => (σ, r).
Definition get_config : M WebConfig := fun σ => (σ, Ok (config σ)).
Definition get_df : M (option DataFrame) := fun σ => (σ, Ok (df σ)).

Definition log_line (l : level) (msg : string) : M unit := fun σ =>
  (mkstate (config σ) (df σ) (column_cache σ) (logged σ ++ [(l, msg)])%list, Ok tt).

(** [self.config.sheet_name = name]. *)
Definition set_sheet_name (name : string) : M unit := fun σ =>
  let c := config σ in
  (mkstate (mkconfig (excel_file c) (template_file c) name (output_folder c)
              (column_mappings c))
           (df σ) (column_cache σ) (logged σ), Ok tt).

(** [self.df = d]. *)
Definition set_df (d : DataFrame) : M unit := fun σ =>
  (mkstate (config σ) (Some d) (column_cache σ) (logged σ), Ok tt).

(** [self.column_cache[field] = v]. *)
Definition set_cached (field : string) (v : option string) : M unit := fun σ =>
  (mkstate (config σ) (df σ) (<[field := v]> (column_cache σ)) (logged σ), Ok tt).

(** [os.path.exists(path)]. *)
Definition path_exists (fs : gmap string file) (path : string) : bool :=
  bool_decide (is_Some (fs !! path)).

(** [pd.ExcelFile(path)]: the sheets of the workbook. *)
Definition ExcelFile (fs : gmap string file) (path : string)
  : result (list (string * result DataFrame)) :=
  match fs !! path with
  | None => Raise (mkexn OSError ("No such file or directory: " ++ path))
  | Some (Unreadable e) => Raise e
  | Some (Workbook sheets) => Ok sheets
  end.

Definition sheet_names (sheets : list (string * result DataFrame)) : list string :=
  List.map fst sheets.

(** [pd.read_excel(path, sheet_name=name, ...)]. *)
Definition read_excel (fs : gmap string file) (path name : string) : result DataFrame :=
  sheets ← ExcelFile fs path;
  match List.find (fun s => String.eqb (fst s) name) sheets with
  | Some (_, parsed) => parsed
  | None => Raise (mkexn ValueError ("Worksheet named '" ++ name ++ "' not found"))
  end.

(** [names[0]]. *)
Definition first_name (names : list string) : result string :=
  match names with
  | name :: _ => Ok name
  | [] => Raise (mkexn IndexError "list index out of range")
  end.

(** The loop of [cache_column_mappings]. *)
Fixpoint cache_fields (mappings : list (string * list string)) : M unit :=
  match mappings with
  | [] => mret tt
  | (field, possible_names) :: rest =>
      d ← get_df;
      set_cached field (fst (find_column_name d possible_names field true));;
      cache_fields rest
  end.

Definition cache_column_mappings : M unit :=
  c ← get_config;
  cache_fields (column_mappings c).

(** The statements of [load_excel_data] under its [try]. *)
Definition load_excel_data_try (fs : gmap string file) : M bool :=
  c ← get_config;
  if negb (path_exists fs (excel_file c)) then
    log_line ERROR ("Excel file not found: " ++ excel_file c);;
    mret false
  else
    excel_data ← lift (ExcelFile fs (excel_file c));
    (if negb (bool_decide (sheet_name c ∈ sheet_names excel_data)) then
       log_line WARNING ("Sheet '" ++ sheet_name c ++ "' not found. Using first sheet.");;
       name ← lift (first_name (sheet_names excel_data));
       set_sheet_name name
     else mret tt);;
    c ← get_config;
    d ← lift (read_excel fs (excel_file c) (sheet_name c));
    set_df d;;
    set_df (mkdf (clean_column_names (columns d)) (rows d));;
    cache_column_mappings;;
    d ← get_df;
    log_line INFO ("Loaded " ++ Str.of_N (N.of_nat (length (from_option rows [] d)))
                   ++ " records");;
    mret true.

(** [load_excel_data]: the value returned and the state it leaves. *)
Definition load_excel_data (fs : gmap string file) (σ : state) : bool * state :=
  match load_excel_data_try fs σ with
  | (σ', Ok b) => (b, σ')
  | (σ', Raise e) =>
      (false, fst (log_line ERROR ("Error loading Excel: " ++ text e) σ'))
  end.

(** [WebDocumentGenerator.__init__]. *)
Definition WebDocumentGenerator_init (fs : gmap string file) (c : WebConfig) : state :=
  snd (load_excel_data fs (mkstate c None ∅ [])).

(** [WebConfig.to_dict]: what a reader of the configuration sees. *)
Definition to_dict (c : WebConfig)
  : string * string * string * string * list (string * list string) :=
  (excel_file c, template_file c, sheet_name c, output_folder c, column_mappings c).

(** ** Header cleaning on text beyond ASCII

    Python strings hold any Unicode code point.  To see how
    [clean_column_names] treats one that ASCII lacks, the same statements
    are read here over ASCII extended with two code points: U+0130, the
    capital letter I with a dot above, and U+0307, the combining dot above.
    The Unicode character database gives their properties: U+0130 is an
    upper-case letter (a word character for [re]) whose lower-case mapping
    is the two code points U+0069 U+0307; U+0307 is a nonspacing mark,
    which is neither a word character nor white space, and has no case. *)

Module Wide.

Inductive char :=
| Plain (c : ascii)
| Capital_I_dot
| Combining_dot.

Definition text := list char.

(** A string of the ASCII model as wide text. *)
Fixpoint of_string (s : string) : text :=
  match s with
  | EmptyString => []
  | String c r => Plain c :: of_string r
  end.

Definition isspace (c : char) : bool :=
  match c with
  | Plain a => Str.isspace a
  | Capital_I_dot | Combining_dot => false
  end.

Definition isword (c : char) : bool :=
  match c with
  | Plain a => Str.isword a
  | Capital_I_dot => true
  | Combining_dot => false
  end.

(** The lower-case mapping of one character; it may be longer than one
    character. *)
Definition lower_char (c : char) : text :=
  match c with
  | Plain a => [Plain (Str.lower_char a)]
  | Capital_I_dot => [Plain "i"; Combining_dot]
  | Combining_dot => [Combining_dot]
  end.

Definition lower (s : text) : text := flat_map lower_char s.

Fixpoint lstrip (s : text) : text :=
  match s with
  | [] => []
  | c :: r => if isspace c then lstrip r else s
  end.

Fixpoint rstrip (s : text) : text :=
  match s with
  | [] => []
  | c :: r =>
      match rstrip r with
      | [] => if isspace c then [] else [c]
      | r' => c :: r'
      end
  end.

Definition strip (s : text) : text := rstrip (lstrip s).

Definition is_plain (a : ascii) (c : char) : bool :=
  match c with
  | Plain b => Ascii.eqb b a
  | Capital_I_dot | Combining_dot => false
  end.

Definition replace_char (a b : ascii) (s : text) : text :=
  List.map (fun c => if is_plain a c then Plain b else c) s.

Definition sub_nonword_nonspace (s : text) : text :=
  List.filter (fun c => (isword c || isspace c)%bool) s.

Fixpoint sub_underscores (s : text) : text :=
  match s with
  | [] => []
  | c :: r =>
      match r with
      | c' :: _ =>
          if (is_plain "_" c && is_plain "_" c')%bool
          then sub_underscores r
          else c :: sub_underscores r
      | [] => [c]
      end
  end.

(** The body of the loop of [clean_column_names], on wide text. *)
Definition clean_column_name (col : text) : text :=
  let col_clean := sub_nonword_nonspace col in
  let col_clean := replace_char " " "_" (lower (strip col_clean)) in
  sub_underscores col_clean.

End Wide.

(** ** Notions the statements use *)

(** The characters a cleaned header is made of: word characters and white
    space other than the space, none of them an upper-case letter. *)
Definition clean_char (c : ascii) : bool :=
  ((Str.isword c || Str.isspace c) && negb (Ascii.eqb c " ")
   && Ascii.eqb (Str.lower_char c) c)%bool.

(** The number the specification sorts by: scanning [s] from the left, the
    integer value of the maximal run of digits that starts at the first
    digit, and 0 when [s] has no digit. *)
Fixpoint first_number (s : string) : N :=
  match s with
  | EmptyString => 0%N
  | String c r =>
      if Str.isdigit c then Str.int_of_digits (fst (Str.span_digits s))
      else first_number r
  end.

(** The first run of digits of [s]: the maximal run that starts at the
    first digit, empty when [s] has no digit. *)
Fixpoint first_run (s : string) : string :=
  match s with
  | EmptyString => EmptyString
  | String c r =>
      if Str.isdigit c then fst (Str.span_digits s)
      else first_run r
  end.

(** [int(s)] with the digits read so far in [acc]. *)
Fixpoint digits_value (acc : N) (s : string) : N :=
  match s with
  | EmptyString => acc
  | String c r => digits_value (acc * 10 + Str.digit_val c)%N r
  end.

(** A batch number of 4301 digits. *)
Definition long_number : string := String "3" (Str.zeros int_max_str_digits).

(** A record with the given [batch_no] and nothing else. *)
Definition batch_numbered (no : string) : BatchRecord :=
  mkbatch no "" "" "" "" "" "" "".

(** What the loop of [get_unique_products] maintains: [result] has no
    repeated entry, [seen] is the set of its entries, and every entry is a
    trimmed, non-empty string. *)
Definition unique_inv (acc : gset string * list string) : Prop :=
  NoDup (snd acc) /\
  (forall x, x ∈ fst acc <-> In x (snd acc)) /\
  Forall (fun p => p <> "" /\ Str.strip p = p) (snd acc).

(** A frame of one row whose product cell is [stored], and the cache that
    resolves its two columns. *)
Definition aspirin_frame (stored : string) : DataFrame :=
  mkdf ["product_name"; "batch_no"] [[Some stored; Some "B-1"]].

Definition aspirin_cache : gmap string (option string) :=
  <["product" := Some "product_name"]> (<["batch_no" := Some "batch_no"]> ∅).

(** The text the formats are tried on: the trimmed upper-cased value up
    to its first space. *)
Definition date_token (v : string) : string :=
  Str.split_head " " (Str.upper (Str.strip v)).

(** The shape DD.MM.YYYY: two digits, a dot, two digits, a dot, four
    digits. *)
Definition dmY_shape (s : string) : bool :=
  match s with
  | String d1 (String d2 (String "." (String m1 (String m2 (String "."
      (String y1 (String y2 (String y3 (String y4 EmptyString))))))))) =>
      forallb Str.isdigit [d1; d2; m1; m2; y1; y2; y3; y4]
  | _ => false
  end.

(** The numbers below [n], and a string of exactly [n] digits. *)
Definition below (n : N) : list N := List.map N.of_nat (seq 0 (N.to_nat n)).

Definition all_digits (n : nat) (s : string) : bool :=
  (Nat.eqb (String.length s) n && Str.forallb Str.isdigit s)%bool.

(** A percentage with exactly two decimals: an optional minus sign, at
    least one digit, a point, two digits and the percent sign. *)
Definition two_decimals (s : string) : Prop :=
  exists sign ip fp,
    s = sign ++ ip ++ "." ++ fp ++ "%" /\ (sign = "" \/ sign = "-") /\
    ip <> "" /\ Str.forallb Str.isdigit ip = true /\ all_digits 2 fp = true.

(** [h] is the integer nearest to [m * 2^e * 100], the even one when two
    integers are equally near. *)
Definition nearest_hundredths (m e h : Z) : Prop :=
  if (0 <=? e)%Z then h = (m * 2 ^ e * 100)%Z
  else (2 * Z.abs (h * 2 ^ (- e) - m * 100) <= 2 ^ (- e))%Z /\
       ((2 * Z.abs (h * 2 ^ (- e) - m * 100) = 2 ^ (- e))%Z -> Z.even h = true).

(** A number of [h] hundredths written with two decimals, a minus sign
    before it when [neg]. *)
Definition two_decimal_text (neg : bool) (h : Z) : string :=
  Float.sign_text neg ++ Str.of_N (Z.to_N (h / 100)) ++ "."
  ++ Str.zfill 2 (Z.to_N (h mod 100)).

(** The sheet [load_excel_data] reads: the one of the requested name, or
    the first sheet when no sheet has that name. *)
Definition selected_sheet (sheets : list (string * result DataFrame)) (name : string)
  : option (string * result DataFrame) :=
  if bool_decide (name ∈ sheet_names sheets)
  then List.find (fun s => String.eqb (fst s) name) sheets
  else List.head sheets.

(** The sheet name the configuration holds after a load. *)
Definition loaded_sheet_name (fs : gmap string file) (c : WebConfig) : string :=
  match fs !! excel_file c with
  | Some (Workbook ((first, _) :: rest)) =>
      if bool_decide (sheet_name c ∈ first :: sheet_names rest) then sheet_name c else first
  | _ => sheet_name c
  end.

(** ** Notions the further statements use *)

(** The cells of the product column, when the product field resolves to a
    label that exactly one column carries. *)
Definition product_cells (d : DataFrame) (column_cache : gmap string (option string))
  : option (list cell) :=
  match cached_column column_cache "product" with
  | None => None
  | Some product_column =>
      match getitem d product_column with
      | Ok (One vals) => Some vals
      | _ => None
      end
  end.

(** The fields [process_batch_data] reads for every row. *)
Definition record_fields : list string :=
  ["batch_no"; "mfg_date"; "expiry_date"; "yield"; "accountability"; "location"; "remarks";
   "sent_to_doc"].

(** How many columns of a frame carry the label [c]. *)
Definition occurrences (c : string) (d : DataFrame) : nat :=
  length (positions c (columns d) 0).

(** A small frame with distinct labels, and the cache that resolves them. *)
Definition sample_frame : DataFrame :=
  mkdf ["product_name"; "batch_no"; "mfg_date"; "yield"]
    [ [Some "Aspirin"; Some " B-12 "; Some "2024-03-05"; Some "98.5"];
      [Some "Zinc"; Some "Z-1"; None; Some "97"];
      [Some "aspirin"; Some "B-2"; Some "05/03/2024"];
      [None; Some "B-7"];
      [Some "Zinc"; Some "Z-3"] ].

Definition sample_cache : gmap string (option string) :=
  <["product" := Some "product_name"]>
    (<["batch_no" := Some "batch_no"]>
       (<["mfg_date" := Some "mfg_date"]>
          (<["yield" := Some "yield"]> (<["remarks" := None]> ∅)))).

(** [str.isascii] on one character. *)
Definition isascii (c : ascii) : bool := (N_of_ascii c <? 128)%N.

(** A character a cleaned header may hold: a lower-case letter, a digit,
    the underscore, or white space other than the space. *)
Definition header_char (c : ascii) : bool :=
  (Str.islower c || Str.isdigit c || Ascii.eqb c "_"
   || (Str.isspace c && negb (Ascii.eqb c " ")))%bool.

(** The cache [cache_column_mappings] leaves: every configured field, in
    order, is set to what silent resolution gives on the frame. *)
Definition cache_after (d : option DataFrame) (mappings : list (string * list string))
    (column_cache : gmap string (option string)) : gmap string (option string) :=
  fold_left (fun m '(field, possible_names) =>
               <[field := fst (find_column_name d possible_names field true)]> m)
            mappings column_cache.

(** The frame [load_excel_data] stores for a parsed sheet. *)
Definition cleaned_frame (d : DataFrame) : DataFrame :=
  mkdf (clean_column_names (columns d)) (rows d).

(** A sheet with the headers Batch No and Batch_No, as it is stored. *)
Definition repeated_frame : DataFrame :=
  cleaned_frame (mkdf ["Product Name"; "Batch No"; "Batch_No"]
                      [[Some "Zinc"; Some "Z-1"; Some "Z-1"]]).

(** A file system with one workbook of two sheets, the second one broken. *)
Definition sample_fs : gmap string file :=
  {[ "data/a.xlsx" :=
       Workbook [ ("Sheet1", Ok (mkdf ["Product Name"; "Batch No."; "Mfg Date"]
                                   [[Some "Zinc"; Some "Z-1"; Some "2024-03-05"]]));
                  ("Broken", Raise (mkexn ValueError "cannot parse")) ] ]}.

Definition sample_state (path sheet : string) : state :=
  mkstate (WebConfig_init (Some path) None sheet) None ∅ [].

(** The widest text a directive can match. *)
Definition item_width (it : Datetime.item) : nat :=
  match it with
  | Datetime.Dir_Y => 4
  | Datetime.Dir_m | Datetime.Dir_d => 2
  | Datetime.Lit _ => 1
  end.

Definition format_width (f : list Datetime.item) : nat :=
  fold_right (fun it n => item_width it + n) 0 f.

(** The six layouts of [date_formats], as writers of a date: every field
    with leading zeros. *)
Inductive layout := Ymd_dash | Dmy_dash | Dmy_slash | Mdy_slash | Dmy_dot | Ymd_dot.

Definition render (l : layout) (d : Datetime.date) : string :=
  let Y := Str.zfill 4 (Datetime.year d) in
  let M := Str.zfill 2 (Datetime.month d) in
  let D := Str.zfill 2 (Datetime.day d) in
  match l with
  | Ymd_dash => Y ++ "-" ++ M ++ "-" ++ D
  | Dmy_dash => D ++ "-" ++ M ++ "-" ++ Y
  | Dmy_slash => D ++ "/" ++ M ++ "/" ++ Y
  | Mdy_slash => M ++ "/" ++ D ++ "/" ++ Y
  | Dmy_dot => D ++ "." ++ M ++ "." ++ Y
  | Ymd_dot => Y ++ "." ++ M ++ "." ++ D
  end.

(** The characters of a rendered date. *)
Definition date_char (c : ascii) : bool :=
  (Str.isdigit c || Ascii.eqb c "-" || Ascii.eqb c "/" || Ascii.eqb c ".")%bool.

(** The accumulator [strptime] starts from. *)
Definition epoch : Datetime.date := Datetime.mkdate 1900 1 1.

(** No match at all, and exactly one match that consumes the whole text. *)
Definition no_match (g : list Datetime.item) (P : string) : bool :=
  match Datetime.format_match g epoch P with
  | [] => true
  | _ => false
  end.

Definition date_eqb (a b : Datetime.date) : bool :=
  ((Datetime.year a =? Datetime.year b) && (Datetime.month a =? Datetime.month b)
   && (Datetime.day a =? Datetime.day b))%N.

Definition one_match (g : list Datetime.item) (P : string) (a : Datetime.date) : bool :=
  match Datetime.format_match g epoch P with
  | [(x, EmptyString)] => date_eqb x a
  | _ => false
  end.

(** A match with [T] put behind what it left. *)
Definition push (T : string) {A} (x : A * string) : A * string := (fst x, snd x ++ T).

(** A matcher is local to [k] characters when it never looks past the
    first [k] characters of its input and never consumes more. *)
Definition local {A} (k : nat) (p : string -> list (A * string)) : Prop :=
  forall s,
    Forall (fun x => String.length s <= String.length (snd x) + k) (p s) /\
    forall T, k <= String.length s -> p (s ++ T) = List.map (push T) (p s).

(** Parts of a written date: two two-digit fields, each followed by the
    separator; a year followed by the separator; two two-digit fields
    with the separator between them. *)
Definition head2 (c : ascii) (a b : N) : string :=
  Str.zfill 2 a ++ String c (Str.zfill 2 b ++ String c "").

Definition year_sep (c : ascii) (y : N) : string := Str.zfill 4 y ++ String c "".

Definition tail2 (c : ascii) (a b : N) : string := Str.zfill 2 a ++ String c (Str.zfill 2 b).

(** The leading items [g] of a format find no match in [P], and find
    exactly one, with all that they can look at inside [P]. *)
Definition fails_on (g : list Datetime.item) (P : string) : bool :=
  ((format_width g <=? String.length P)%nat && no_match g P)%bool.

Definition reads (g : list Datetime.item) (P : string) (a : Datetime.date) : bool :=
  ((format_width g <=? String.length P)%nat && one_match g P a)%bool.

(** The first match of the items [g] takes all of the text and gives [a]. *)
Definition first_match (g : list Datetime.item) (T : string) (a : Datetime.date) : bool :=
  match Datetime.format_match g epoch T with
  | (x, EmptyString) :: _ => date_eqb x a
  | _ => false
  end.

(** A match with its year replaced. *)
Definition with_year (y : N) (x : Datetime.date * string) : Datetime.date * string :=
  (Datetime.mkdate y (Datetime.month (fst x)) (Datetime.day (fst x)), snd x).

Definition in_range (lo hi k : N) : bool := ((lo <=? k) && (k <=? hi))%N.

(** The ten digits, and a test on every pair and every triple of them. *)
Definition digit_chars : list ascii := ["0"; "1"; "2"; "3"; "4"; "5"; "6"; "7"; "8"; "9"]%char.

Definition all_digits2 (p : ascii -> ascii -> bool) : bool :=
  List.forallb (fun x => List.forallb (p x) digit_chars) digit_chars.

Definition all_digits3 (p : ascii -> ascii -> ascii -> bool) : bool :=
  List.forallb (fun x => all_digits2 (p x)) digit_chars.

(** A test on every number of a range, and on every pair of two ranges. *)
Definition all_within (lo hi : N) (p : N -> bool) : bool :=
  List.forallb (fun a => if in_range lo hi a then p a else true) (below (hi + 1)).

Definition all_within2 (lo1 hi1 lo2 hi2 : N) (p : N -> N -> bool) : bool :=
  all_within lo1 hi1 (fun a => all_within lo2 hi2 (p a)).

(** ** Generating documents: [generate_single_document] and the bulk loop *)

(** A value of a result dictionary. *)
Inductive pyval :=
| VBool (b : bool)
| VInt (n : N)
| VStr (s : string).

Definition dict : Type := gmap string pyval.

(** [d[k]]; the text of a [KeyError] is the key between quotes. *)
Definition dict_getitem (d : dict) (k : string) : result pyval :=
  match d !! k with
  | Some v => Ok v
  | None => Raise (key_error k)
  end.

(** The truth value of a value, and its text in an f-string. *)
Definition pyval_truthy (v : pyval) : bool :=
  match v with
  | VBool b => b
  | VInt n => negb (n =? 0)%N
  | VStr s => Str.truthy s
  end.

Definition pyval_str (v : pyval) : string :=
  match v with
  | VBool true => "True"
  | VBool false => "False"
  | VInt n => Str.of_N n
  | VStr s => s
  end.

(** [re.sub(r'[^\w\s-]', '', s)]. *)
Definition sub_nonword_nonspace_nonhyphen (s : string) : string :=
  Str.filter (fun c => (Str.isword c || Str.isspace c || Ascii.eqb c "-")%bool) s.

(** [d.strftime("%Y-%m-%d")], the year written as in [strftime_dmY]. *)
Definition strftime_Ymd (d : Datetime.date) : string :=
  Str.of_N (Datetime.year d) ++ "-" ++ Str.zfill 2 (Datetime.month d) ++ "-"
  ++ Str.zfill 2 (Datetime.day d).

(** [s.endswith(c)] for one character. *)
Definition endswith_char (c : ascii) (s : string) : bool :=
  match Str.last s with
  | Some x => Ascii.eqb x c
  | None => false
  end.

(** [os.path.join(a, b)] of [posixpath]. *)
Definition os_path_join (a b : string) : string :=
  if Str.startswith "/" b then b
  else if (negb (Str.truthy a) || endswith_char "/" a)%bool then a ++ b
  else a ++ "/" ++ b.

(** The name of the document of a product generated on the day [today]. *)
Definition document_filename (product_name : string) (today : Datetime.date) : string :=
  let current_date := strftime_Ymd today in
  let safe_name := Str.strip (sub_nonword_nonspace_nonhyphen product_name) in
  safe_name ++ "_" ++ current_date ++ ".docx".

(** What the generation takes from outside the class: the file system and
    the clock ([world]), and the document library ([document]).  The two
    methods that edit the template through the library,
    [fill_product_name_in_header] and [fill_batch_table_with_formatting],
    are taken as they present themselves to their caller: they catch
    every exception, log it, and return a truth value, and they change
    nothing but the document they are given.  Reading the clock does not
    fail; [mkdir], [Document] and [save] can raise. *)
Record Environment := {
  world : Type;
  document : Type;
  mkdir : string -> world -> world * result unit;
  os_path_exists : string -> world -> bool;
  now : world -> world * Datetime.date;
  Document : string -> world -> result document;
  fill_product_name_in_header : document -> string -> document * bool * list log_entry;
  fill_batch_table_with_formatting :
    document -> list BatchRecord -> document * bool * list log_entry;
  save : document -> string -> world -> world * result unit
}.

(** The two dictionaries [generate_single_document] returns. *)
Definition failure (error : string) : dict :=
  <["success" := VBool false]> (<["error" := VStr error]> (<["batch_count" := VInt 0]> ∅)).

Definition generated (filename filepath : string) (batch_count : nat) (product : string)
  : dict :=
  <["success" := VBool true]>
    (<["filename" := VStr filename]>
       (<["filepath" := VStr filepath]>
          (<["batch_count" := VInt (N.of_nat batch_count)]>
             (<["product" := VStr product]> ∅)))).

(** The body of the [try] of [generate_single_document]: the world it
    leaves, the lines logged, and the dictionary returned or the exception
    raised. *)
Definition generate_single_document_try (E : Environment) (σ : state) (w : world E)
    (product_name : string) : world E * list log_entry * result dict :=
  let c := config σ in
  match mkdir E (output_folder c) w with
  | (w, Raise e) => (w, [], Raise e)
  | (w, Ok _) =>
      let '(batches, lg) := search_product_batches (df σ) (column_cache σ) product_name in
      match batches with
      | None | Some [] =>
          (w, lg, Ok (failure ("No batches found for product: " ++ product_name)))
      | Some batches =>
          let '(w, today) := now E w in
          let filename := document_filename product_name today in
          let filepath := os_path_join (output_folder c) filename in
          if negb (os_path_exists E (template_file c) w)
          then (w, lg, Ok (failure ("Template file not found: " ++ template_file c)))
          else
            match Document E (template_file c) w with
            | Raise e => (w, lg, Raise e)
            | Ok doc =>
                let '(doc, _, lg1) := fill_product_name_in_header E doc product_name in
                let '(doc, success, lg2) :=
                  fill_batch_table_with_formatting E doc batches in
                let lg := (lg ++ lg1 ++ lg2)%list in
                if success then
                  match save E doc filepath w with
                  | (w, Raise e) => (w, lg, Raise e)
                  | (w, Ok _) =>
                      (w, lg, Ok (generated filename filepath (length batches) product_name))
                  end
                else (w, lg, Ok (failure "Failed to fill document template"))
            end
      end
  end.

Definition log_lines (σ : state) (lg : list log_entry) : state :=
  mkstate (config σ) (df σ) (column_cache σ) (logged σ ++ lg)%list.

(** [generate_single_document]: the instance and the world after the call,
    and the dictionary returned. *)
Definition generate_single_document (E : Environment) (σ : state) (w : world E)
    (product_name : string) : state * world E * dict :=
  match generate_single_document_try E σ w product_name with
  | (w, lg, Ok r) => (log_lines σ lg, w, r)
  | (w, lg, Raise e) =>
      (log_lines σ (lg ++ [(ERROR, ("Error generating document: " ++ text e)%string)])%list, w,
       failure (text e))
  end.

(** An entry of the generation history; the time of day of its time stamp
    is left out. *)
Record history_entry := mkentry {
  timestamp : Datetime.date;
  entry_product : string;
  entry_batches : pyval;
  entry_filename : pyval;
  entry_type : string
}.

(** The session a bulk generation runs in. *)
Record session (E : Environment) := mksession {
  doc_generator : state;
  outside : world E;
  results : list dict;
  generation_history : list history_entry
}.
Arguments mksession {E} _ _ _ _.
Arguments doc_generator {E} _.
Arguments outside {E} _.
Arguments results {E} _.
Arguments generation_history {E} _.

(** One turn of the loop over the selected products.  The progress display
    is left out.  The result is appended before the history is written, so
    the handler of the loop adds a second dictionary when the history
    cannot be written. *)
Definition bulk_step (E : Environment) (s : session E) (product : string) : session E :=
  let '(σ, w, result) := generate_single_document E (doc_generator s) (outside s) product in
  let results1 := (results s ++ [result])%list in
  match dict_getitem result "success" with
  | Raise e =>
      mksession σ w
        (results1 ++ [<["success" := VBool false]>
                        (<["product" := VStr product]> (<["error" := VStr (text e)]> ∅))])%list
        (generation_history s)
  | Ok success =>
      if pyval_truthy success then
        let '(w, t) := now E w in
        match (batches ← dict_getitem result "batch_count";
               filename ← dict_getitem result "filename";
               mret (mkentry t product batches filename "bulk")) with
        | Ok entry => mksession σ w results1 (generation_history s ++ [entry])%list
        | Raise e =>
            mksession σ w
              (results1 ++ [<["success" := VBool false]>
                              (<["product" := VStr product]>
                                 (<["error" := VStr (text e)]> ∅))])%list
              (generation_history s)
        end
      else mksession σ w results1 (generation_history s)
  end.

(** The loop of the bulk generation, from an empty list of results. *)
Definition bulk_generate (E : Environment) (σ : state) (w : world E)
    (history : list history_entry) (selected_products : list string) : session E :=
  fold_left (bulk_step E) selected_products (mksession σ w [] history).

(** [[r for r in results if r['success']]] and its complement. *)
Definition successful (results : list dict) : result (list dict) :=
  rs ← mapM (fun r => s ← dict_getitem r "success"; mret (r, pyval_truthy s)) results;
  mret (List.map fst (List.filter snd rs)).

Definition failed (results : list dict) : result (list dict) :=
  rs ← mapM (fun r => s ← dict_getitem r "success"; mret (r, negb (pyval_truthy s))) results;
  mret (List.map fst (List.filter snd rs)).

(** The lines written under Show failed generations. *)
Definition failed_lines (failed : list dict) : result (list string) :=
  mapM (fun fail =>
          product ← dict_getitem fail "product";
          error ← dict_getitem fail "error";
          mret ("- " ++ pyval_str product ++ ": " ++ pyval_str error))
       failed.

(** An environment for examples: the world is the list of the files saved,
    a document is the rows of its table, the template [t.docx] exists and
    the clock shows the 7th of September 2025. *)
Definition sample_environment : Environment :=
  {| world := list (string * list BatchRecord);
     document := list BatchRecord;
     mkdir := fun _ w => (w, Ok tt);
     os_path_exists := fun p _ => String.eqb p "t.docx";
     now := fun w => (w, Datetime.mkdate 2025 9 7);
     Document := fun _ _ => Ok [];
     fill_product_name_in_header := fun doc _ => (doc, true, []);
     fill_batch_table_with_formatting := fun _ batches => (batches, true, []);
     save := fun doc p w => ((w ++ [(p, doc)])%list, Ok tt) |}.

Definition sample_generator : state :=
  mkstate (mkconfig "a.xlsx" "t.docx" "Sheet1" "generated" default_column_mappings)
          (Some sample_frame) sample_cache [].

(** A character of a document file name. *)
Definition filename_char (c : ascii) : bool :=
  (Str.isword c || Str.isspace c || Ascii.eqb c "-" || Ascii.eqb c ".")%bool.

(** The dictionary reports a success. *)
Definition is_generated (r : dict) : bool :=
  match r !! "success" with
  | Some v => pyval_truthy v
  | None => false
  end.

(** The characters of a whole-number percentage, of a time of day, and of
    a date followed by a time of day. *)
Definition percent_char (c : ascii) : bool := (Str.isdigit c || Ascii.eqb c "%")%bool.

Definition time_char (c : ascii) : bool :=
  (Str.isdigit c || Ascii.eqb c ":" || Ascii.eqb c ".")%bool.

Definition stamp_char (c : ascii) : bool :=
  (date_char c || Ascii.eqb c " " || Ascii.eqb c ":")%bool.

(** * Properties *)

(** ** Characters and strings *)

(** Case analysis over the 256 characters. *)
Ltac each_char c :=
  destruct c as [[|] [|] [|] [|] [|] [|] [|] [|]]; vm_compute; try reflexivity;
  try discriminate; try tauto.

Module StrFacts.

Lemma ascii_eqb_eq a b : Ascii.eqb a b = true <-> a = b.
Proof. apply Ascii.eqb_eq. Qed.

Lemma lower_char_idem c : Str.lower_char (Str.lower_char c) = Str.lower_char c.
Proof. each_char c. Qed.

Lemma lower_char_space c : Str.isspace (Str.lower_char c) = Str.isspace c.
Proof. each_char c. Qed.

Lemma lower_char_word c : Str.isword (Str.lower_char c) = Str.isword c.
Proof. each_char c. Qed.

Lemma upper_char_space c : Str.isspace (Str.upper_char c) = Str.isspace c.
Proof. each_char c. Qed.

Lemma underscore_not_space : Str.isspace "_" = false.
Proof. reflexivity. Qed.

Lemma map_id f s : Str.forallb (fun c => Ascii.eqb (f c) c) s = true -> Str.map f s = s.
Proof.
  induction s as [|c r IH]; simpl; [reflexivity|].
  intros [Hc Hr]%andb_prop. apply ascii_eqb_eq in Hc. rewrite Hc, IH; auto.
Qed.

Lemma forallb_map p f s : Str.forallb p (Str.map f s) = Str.forallb (fun c => p (f c)) s.
Proof. induction s as [|c r IH]; simpl; [reflexivity|]. now rewrite IH. Qed.

Lemma forallb_impl (p q : ascii -> bool) s :
  (forall c, p c = true -> q c = true) ->
  Str.forallb p s = true -> Str.forallb q s = true.
Proof.
  intros Hpq. induction s as [|c r IH]; simpl; [reflexivity|].
  intros [Hc Hr]%andb_prop. rewrite (Hpq _ Hc), IH; auto.
Qed.

Lemma forallb_filter p s : Str.forallb p (Str.filter p s) = true.
Proof.
  induction s as [|c r IH]; simpl; [reflexivity|].
  destruct (p c) eqn:E; simpl; [rewrite E|]; auto.
Qed.

Lemma filter_id p s : Str.forallb p s = true -> Str.filter p s = s.
Proof.
  induction s as [|c r IH]; simpl; [reflexivity|].
  intros [Hc Hr]%andb_prop. rewrite Hc, IH; auto.
Qed.

Lemma forallb_lstrip p s : Str.forallb p s = true -> Str.forallb p (Str.lstrip s) = true.
Proof.
  induction s as [|c r IH]; simpl; [reflexivity|].
  intros H. destruct (Str.isspace c); [|exact H].
  apply andb_prop in H as [_ H]. auto.
Qed.

Lemma forallb_rstrip p s : Str.forallb p s = true -> Str.forallb p (Str.rstrip s) = true.
Proof.
  induction s as [|c r IH]; simpl; [reflexivity|].
  intros [Hc Hr]%andb_prop. specialize (IH Hr).
  destruct (Str.rstrip r) as [|a b].
  - destruct (Str.isspace c); simpl; [reflexivity|]. now rewrite Hc.
  - change (Str.forallb p (String c (String a b)) = true).
    simpl. simpl in IH. now rewrite Hc, IH.
Qed.

Lemma forallb_strip p s : Str.forallb p s = true -> Str.forallb p (Str.strip s) = true.
Proof. intros H. apply forallb_rstrip, forallb_lstrip, H. Qed.

(** What [lstrip] and [rstrip] leave at the two ends. *)
Lemma head_lstrip s c : Str.head (Str.lstrip s) = Some c -> Str.isspace c = false.
Proof.
  induction s as [|a r IH]; simpl; [discriminate|].
  destruct (Str.isspace a) eqn:E; [exact IH|].
  simpl. intros [= <-]. exact E.
Qed.

Lemma rstrip_cons c r :
  Str.rstrip (String c r) =
    match Str.rstrip r with
    | EmptyString => if Str.isspace c then EmptyString else String c EmptyString
    | r' => String c r'
    end.
Proof. reflexivity. Qed.

Lemma last_rstrip s c : Str.last (Str.rstrip s) = Some c -> Str.isspace c = false.
Proof.
  induction s as [|a r IH]; [discriminate|].
  rewrite rstrip_cons. destruct (Str.rstrip r) as [|x y].
  - destruct (Str.isspace a) eqn:E; [discriminate|].
    simpl. intros [= <-]. exact E.
  - intros H. apply IH. exact H.
Qed.

Lemma head_rstrip s c :
  Str.head s = Some c -> Str.isspace c = false -> Str.head (Str.rstrip s) = Some c.
Proof.
  destruct s as [|a r]; [discriminate|].
  intros H Hc. simpl in H. injection H as ->. rewrite rstrip_cons.
  destruct (Str.rstrip r); [rewrite Hc|]; reflexivity.
Qed.

Lemma rstrip_empty_lstrip s : Str.rstrip s = EmptyString -> Str.lstrip s = EmptyString.
Proof.
  induction s as [|a r IH]; [reflexivity|].
  rewrite rstrip_cons. destruct (Str.rstrip r) eqn:E; [|discriminate].
  simpl. destruct (Str.isspace a); [|discriminate]. intros _. now apply IH.
Qed.

Lemma lstrip_fixed s :
  (forall c, Str.head s = Some c -> Str.isspace c = false) -> Str.lstrip s = s.
Proof.
  destruct s as [|a r]; [reflexivity|]. simpl. intros H.
  now rewrite (H a eq_refl).
Qed.

Lemma rstrip_fixed s :
  (forall c, Str.last s = Some c -> Str.isspace c = false) -> Str.rstrip s = s.
Proof.
  induction s as [|a r IH]; [reflexivity|].
  intros H. rewrite rstrip_cons. destruct r as [|x y].
  - simpl. now rewrite (H a eq_refl).
  - rewrite IH; [reflexivity|]. intros c Hc. apply H. exact Hc.
Qed.

Lemma strip_fixed s :
  (forall c, Str.head s = Some c -> Str.isspace c = false) ->
  (forall c, Str.last s = Some c -> Str.isspace c = false) ->
  Str.strip s = s.
Proof.
  intros Hh Hl. unfold Str.strip. rewrite (lstrip_fixed s Hh). now apply rstrip_fixed.
Qed.

Lemma head_strip s c : Str.head (Str.strip s) = Some c -> Str.isspace c = false.
Proof.
  unfold Str.strip. intros H.
  destruct (Str.lstrip s) as [|a r] eqn:E; [discriminate|].
  assert (Ha : Str.isspace a = false) by (apply (head_lstrip s); now rewrite E).
  rewrite (head_rstrip (String a r) a eq_refl Ha) in H.
  now injection H as <-.
Qed.

Lemma last_strip s c : Str.last (Str.strip s) = Some c -> Str.isspace c = false.
Proof. apply last_rstrip. Qed.

Lemma strip_idem s : Str.strip (Str.strip s) = Str.strip s.
Proof. apply strip_fixed; [apply head_strip | apply last_strip]. Qed.

Lemma head_map f s : Str.head (Str.map f s) = option_map f (Str.head s).
Proof. destruct s; reflexivity. Qed.

Lemma last_map f s : Str.last (Str.map f s) = option_map f (Str.last s).
Proof.
  induction s as [|a r IH]; [reflexivity|].
  destruct r as [|x y]; [reflexivity|]. exact IH.
Qed.

Lemma sub_underscores_cons c r :
  Re.sub_underscores (String c r) =
    match r with
    | String c' _ =>
        if (Ascii.eqb c "_" && Ascii.eqb c' "_")%bool
        then Re.sub_underscores r
        else String c (Re.sub_underscores r)
    | EmptyString => String c EmptyString
    end.
Proof. reflexivity. Qed.

Lemma head_sub_underscores s : Str.head (Re.sub_underscores s) = Str.head s.
Proof.
  induction s as [|c r IH]; [reflexivity|].
  rewrite sub_underscores_cons. destruct r as [|c' r']; [reflexivity|].
  destruct (Ascii.eqb c "_" && Ascii.eqb c' "_")%bool eqn:E; [|reflexivity].
  apply andb_prop in E as [->%ascii_eqb_eq ->%ascii_eqb_eq]. exact IH.
Qed.

Lemma last_sub_underscores s : Str.last (Re.sub_underscores s) = Str.last s.
Proof.
  induction s as [|c r IH]; [reflexivity|].
  rewrite sub_underscores_cons. destruct r as [|c' r']; [reflexivity|].
  assert (Hne : exists a b, Re.sub_underscores (String c' r') = String a b).
  { pose proof (head_sub_underscores (String c' r')) as H.
    destruct (Re.sub_underscores (String c' r')); [discriminate|eauto]. }
  destruct (Ascii.eqb c "_" && Ascii.eqb c' "_")%bool; [exact IH|].
  destruct Hne as (a & b & Hab). rewrite Hab in *. exact IH.
Qed.

Lemma forallb_sub_underscores p s :
  Str.forallb p s = true -> Str.forallb p (Re.sub_underscores s) = true.
Proof.
  induction s as [|c r IH]; [reflexivity|].
  rewrite sub_underscores_cons. intros [Hc Hr]%andb_prop. specialize (IH Hr).
  destruct r as [|c' r']; [simpl; now rewrite Hc|].
  destruct (Ascii.eqb c "_" && Ascii.eqb c' "_")%bool; [exact IH|].
  change (p c && Str.forallb p (Re.sub_underscores (String c' r')) = true)%bool.
  now rewrite Hc, IH.
Qed.

Lemma sub_underscores_idem s :
  Re.sub_underscores (Re.sub_underscores s) = Re.sub_underscores s.
Proof.
  induction s as [|c r IH]; [reflexivity|].
  rewrite sub_underscores_cons. destruct r as [|c' r']; [reflexivity|].
  destruct (Ascii.eqb c "_" && Ascii.eqb c' "_")%bool eqn:E; [exact IH|].
  pose proof (head_sub_underscores (String c' r')) as H.
  destruct (Re.sub_underscores (String c' r')) as [|a b] eqn:Hs; [discriminate|].
  simpl in H. injection H as ->.
  rewrite sub_underscores_cons, E, IH. reflexivity.
Qed.

End StrFacts.

(** ** Header cleaning *)

Lemma clean_char_after c :
  (Str.isword c || Str.isspace c)%bool = true ->
  clean_char (if Ascii.eqb (Str.lower_char c) " " then "_" else Str.lower_char c) = true.
Proof. each_char c. Qed.

Lemma replace_keeps_nonspace c :
  Str.isspace c = false ->
  Str.isspace (if Ascii.eqb (Str.lower_char c) " " then "_" else Str.lower_char c) = false.
Proof. each_char c. Qed.

Lemma clean_column_name_chars col : Str.forallb clean_char (clean_column_name col) = true.
Proof.
  unfold clean_column_name, Str.replace_char, Str.lower.
  apply StrFacts.forallb_sub_underscores.
  rewrite !StrFacts.forallb_map.
  apply StrFacts.forallb_impl with (p := fun c => (Str.isword c || Str.isspace c)%bool).
  - apply clean_char_after.
  - apply StrFacts.forallb_strip, StrFacts.forallb_filter.
Qed.

Lemma clean_column_name_ends col :
  (forall c, Str.head (clean_column_name col) = Some c -> Str.isspace c = false) /\
  (forall c, Str.last (clean_column_name col) = Some c -> Str.isspace c = false).
Proof.
  unfold clean_column_name, Str.replace_char, Str.lower.
  set (t := Str.strip (Re.sub_nonword_nonspace col)).
  split; intros c.
  - rewrite StrFacts.head_sub_underscores, !StrFacts.head_map.
    destruct (Str.head t) as [a|] eqn:E; [|discriminate].
    simpl. intros [= <-]. apply replace_keeps_nonspace.
    apply (StrFacts.head_strip (Re.sub_nonword_nonspace col)). exact E.
  - rewrite StrFacts.last_sub_underscores, !StrFacts.last_map.
    destruct (Str.last t) as [a|] eqn:E; [|discriminate].
    simpl. intros [= <-]. apply replace_keeps_nonspace.
    apply (StrFacts.last_strip (Re.sub_nonword_nonspace col)). exact E.
Qed.

(** A string already in cleaned form is left as it is. *)
Lemma clean_column_name_fixed s :
  Str.forallb clean_char s = true ->
  (forall c, Str.head s = Some c -> Str.isspace c = false) ->
  (forall c, Str.last s = Some c -> Str.isspace c = false) ->
  Re.sub_underscores s = s ->
  clean_column_name s = s.
Proof.
  intros Hc Hh Hl Hu. unfold clean_column_name, Re.sub_nonword_nonspace.
  rewrite StrFacts.filter_id.
  2:{ revert Hc. apply StrFacts.forallb_impl. intros c. unfold clean_char.
      intros [[H _]%andb_prop _]%andb_prop. exact H. }
  rewrite (StrFacts.strip_fixed s Hh Hl).
  unfold Str.lower. rewrite (StrFacts.map_id Str.lower_char).
  2:{ revert Hc. apply StrFacts.forallb_impl. intros c. unfold clean_char.
      intros [_ H]%andb_prop. exact H. }
  unfold Str.replace_char. rewrite StrFacts.map_id; [exact Hu|].
  revert Hc. apply StrFacts.forallb_impl. intros c. unfold clean_char.
  intros [[_ H]%andb_prop _]%andb_prop.
  destruct (Ascii.eqb c " "); [discriminate|]. apply Ascii.eqb_refl.
Qed.

(** *** Beyond ASCII *)

Lemma wide_of_string_nil s : Wide.of_string s = [] -> s = "".
Proof. destruct s; [reflexivity | discriminate]. Qed.

Lemma wide_filter s :
  Wide.sub_nonword_nonspace (Wide.of_string s) = Wide.of_string (Re.sub_nonword_nonspace s).
Proof.
  unfold Wide.sub_nonword_nonspace, Re.sub_nonword_nonspace.
  induction s as [|c r IH]; [reflexivity|]. simpl.
  destruct (Str.isword c || Str.isspace c)%bool; simpl; now rewrite IH.
Qed.

Lemma wide_lstrip s : Wide.lstrip (Wide.of_string s) = Wide.of_string (Str.lstrip s).
Proof.
  induction s as [|c r IH]; [reflexivity|]. simpl.
  destruct (Str.isspace c); [exact IH | reflexivity].
Qed.

Lemma wide_rstrip s : Wide.rstrip (Wide.of_string s) = Wide.of_string (Str.rstrip s).
Proof.
  induction s as [|c r IH]; [reflexivity|].
  rewrite StrFacts.rstrip_cons. simpl. rewrite IH.
  destruct (Str.rstrip r) as [|x y]; simpl; [|reflexivity].
  now destruct (Str.isspace c).
Qed.

Lemma wide_lower s : Wide.lower (Wide.of_string s) = Wide.of_string (Str.lower s).
Proof.
  unfold Wide.lower, Str.lower.
  induction s as [|c r IH]; [reflexivity|]. simpl. now rewrite IH.
Qed.

Lemma wide_replace a b s :
  Wide.replace_char a b (Wide.of_string s) = Wide.of_string (Str.replace_char a b s).
Proof.
  unfold Wide.replace_char, Str.replace_char.
  induction s as [|c r IH]; [reflexivity|]. simpl. rewrite IH.
  now destruct (Ascii.eqb c a).
Qed.

Lemma wide_sub_underscores s :
  Wide.sub_underscores (Wide.of_string s) = Wide.of_string (Re.sub_underscores s).
Proof.
  induction s as [|c r IH]; [reflexivity|].
  rewrite StrFacts.sub_underscores_cons. destruct r as [|c' r']; [reflexivity|].
  change (Wide.sub_underscores (Wide.of_string (String c (String c' r'))))
    with (if (Ascii.eqb c "_" && Ascii.eqb c' "_")%bool
          then Wide.sub_underscores (Wide.of_string (String c' r'))
          else Wide.Plain c :: Wide.sub_underscores (Wide.of_string (String c' r'))).
  rewrite IH. now destruct (Ascii.eqb c "_" && Ascii.eqb c' "_")%bool.
Qed.

(** On ASCII text the wide reading of the cleaning is the ASCII one. *)
Lemma wide_clean_column_name s :
  Wide.clean_column_name (Wide.of_string s) = Wide.of_string (clean_column_name s).
Proof.
  unfold Wide.clean_column_name, clean_column_name, Wide.strip, Str.strip.
  now rewrite wide_filter, wide_lstrip, wide_rstrip, wide_lower, wide_replace,
    wide_sub_underscores.
Qed.

(** C8, on ASCII text.  Cleaning a cleaned header gives the same string:
    for one header, for the list [clean_column_names] maps over, and for
    the wide reading of the cleaning on ASCII text. *)
Theorem clean_column_names_idempotent :
  (forall col : string, clean_column_name (clean_column_name col) = clean_column_name col) /\
  (forall cols : list string,
      clean_column_names (clean_column_names cols) = clean_column_names cols) /\
  (forall col : string,
      Wide.clean_column_name (Wide.clean_column_name (Wide.of_string col))
      = Wide.clean_column_name (Wide.of_string col)).
Proof.
  assert (H : forall col, clean_column_name (clean_column_name col) = clean_column_name col).
  { intros col. apply clean_column_name_fixed.
    - apply clean_column_name_chars.
    - apply clean_column_name_ends.
    - apply clean_column_name_ends.
    - unfold clean_column_name. apply StrFacts.sub_underscores_idem. }
  split; [exact H|]. split.
  - intros cols. unfold clean_column_names. rewrite List.map_map.
    apply List.map_ext. exact H.
  - intros col. now rewrite !wide_clean_column_name, H.
Qed.

(** C8 as the specification words it, for every string, fails on the
    header made of the one letter U+0130: the first cleaning lower-cases it
    to the letter i followed by the combining dot, and the second cleaning
    strips the combining dot, which is not a word character. *)
Lemma clean_column_name_capital_i_dot :
  Wide.clean_column_name [Wide.Capital_I_dot] = [Wide.Plain "i"; Wide.Combining_dot] /\
  Wide.clean_column_name (Wide.clean_column_name [Wide.Capital_I_dot]) = [Wide.Plain "i"] /\
  Wide.clean_column_name (Wide.clean_column_name [Wide.Capital_I_dot])
  <> Wide.clean_column_name [Wide.Capital_I_dot].
Proof. repeat split. discriminate. Qed.

(** ** Column resolution *)

Lemma has_column_In c cols : has_column c cols = true <-> In c cols.
Proof.
  unfold has_column. rewrite existsb_exists. split.
  - intros (x & Hx & ->%String.eqb_eq). exact Hx.
  - intros H. exists c. split; [exact H | apply String.eqb_refl].
Qed.

Lemma first_exact_some cols names name :
  first_exact cols names = Some name ->
  exists pre post, names = (pre ++ name :: post)%list /\ In name cols /\
                   Forall (fun n => ~ In n cols) pre.
Proof.
  induction names as [|n rest IH]; simpl; [discriminate|].
  destruct (has_column n cols) eqn:E.
  - intros [= ->]. exists [], rest. apply has_column_In in E. auto.
  - intros H. destruct (IH H) as (pre & post & -> & Hin & Hpre).
    exists (n :: pre), post. repeat split; auto.
    constructor; [|exact Hpre]. rewrite <- has_column_In, E. discriminate.
Qed.

Lemma first_exact_none cols names :
  first_exact cols names = None -> Forall (fun n => ~ In n cols) names.
Proof.
  induction names as [|n rest IH]; simpl; [constructor|].
  destruct (has_column n cols) eqn:E; [discriminate|].
  intros H. constructor; [|auto]. rewrite <- has_column_In, E. discriminate.
Qed.

Lemma first_contained_some col_lower names name :
  first_contained col_lower names = Some name ->
  In name names /\ Str.contains (Str.lower name) col_lower = true.
Proof.
  induction names as [|n rest IH]; simpl; [discriminate|].
  destruct (Str.contains (Str.lower n) col_lower) eqn:E.
  - intros [= <-]. auto.
  - intros H. destruct (IH H). auto.
Qed.

Lemma first_contained_none col_lower names :
  first_contained col_lower names = None ->
  Forall (fun n => Str.contains (Str.lower n) col_lower = false) names.
Proof.
  induction names as [|n rest IH]; simpl; [constructor|].
  destruct (Str.contains (Str.lower n) col_lower) eqn:E; [discriminate|].
  intros H. constructor; auto.
Qed.

Lemma first_partial_some cols names col name :
  first_partial cols names = Some (col, name) ->
  exists pre post, cols = (pre ++ col :: post)%list /\ In name names /\
    Str.contains (Str.lower name) (Str.lower col) = true /\
    Forall (fun h => Forall (fun n => Str.contains (Str.lower n) (Str.lower h) = false) names)
           pre.
Proof.
  induction cols as [|h rest IH]; simpl; [discriminate|].
  destruct (first_contained (Str.lower h) names) as [n|] eqn:E.
  - intros [= -> ->]. apply first_contained_some in E as [Hin Hc].
    exists [], rest. auto.
  - intros H. destruct (IH H) as (pre & post & -> & Hin & Hc & Hpre).
    exists (h :: pre), post. repeat split; auto.
    constructor; [|exact Hpre]. now apply first_contained_none.
Qed.

Lemma first_partial_none cols names :
  first_partial cols names = None ->
  Forall (fun h => Forall (fun n => Str.contains (Str.lower n) (Str.lower h) = false) names)
         cols.
Proof.
  induction cols as [|h rest IH]; simpl; [constructor|].
  destruct (first_contained (Str.lower h) names) as [n|] eqn:E; [discriminate|].
  intros H. constructor; [now apply first_contained_none | auto].
Qed.

(** C7, as the code has it.  Without a loaded frame, or on a frame with no
    row or no column, nothing is resolved.  Otherwise exactly one of three
    cases holds: the result is the first candidate (in priority order) that
    is a column label; or no candidate is a label and the result is the
    first column (in frame order) whose lower-cased label contains the
    lower-cased text of some candidate; or neither exists and the result is
    absent. *)
Theorem find_column_name_resolution
    (df : option DataFrame) (names : list string) (description : string) (silent : bool) :
  let r := fst (find_column_name df names description silent) in
  match df with
  | None => r = None
  | Some d =>
      if empty d then r = None
      else
        (exists pre name post,
            names = (pre ++ name :: post)%list /\ In name (columns d) /\
            Forall (fun n => ~ In n (columns d)) pre /\ r = Some name)
        \/ (Forall (fun n => ~ In n (columns d)) names /\
            exists pre col post name,
              columns d = (pre ++ col :: post)%list /\ In name names /\
              Str.contains (Str.lower name) (Str.lower col) = true /\
              Forall (fun h => Forall (fun n =>
                        Str.contains (Str.lower n) (Str.lower h) = false) names) pre /\
              r = Some col)
        \/ (Forall (fun n => ~ In n (columns d)) names /\
            Forall (fun h => Forall (fun n =>
                      Str.contains (Str.lower n) (Str.lower h) = false) names) (columns d) /\
            r = None)
  end.
Proof.
  cbv zeta. unfold find_column_name. destruct df as [d|]; [|reflexivity].
  destruct (empty d); [reflexivity|].
  destruct (first_exact (columns d) names) as [name|] eqn:E1.
  - left. apply first_exact_some in E1 as (pre & post & Hn & Hin & Hpre).
    exists pre, name, post. auto.
  - right. apply first_exact_none in E1.
    destruct (first_partial (columns d) names) as [[col name]|] eqn:E2.
    + left. split; [exact E1|].
      apply first_partial_some in E2 as (pre & post & Hc & Hin & Hsub & Hpre).
      exists pre, col, post, name. auto.
    + right. split; [exact E1|]. split; [|reflexivity].
      now apply first_partial_none.
Qed.

(** C7 as the specification words it fails on a frame that has the column
    but no row: the candidate is a column label and nothing is returned. *)
Lemma find_column_name_no_rows :
  In "product" (columns (mkdf ["product"] [])) /\
  fst (find_column_name (Some (mkdf ["product"] [])) ["product"] "product" true) = None.
Proof. split; [left; reflexivity | reflexivity]. Qed.

(** ** Sorting *)

Section SortingFacts.
Context {A : Type} (le : A -> A -> bool).

Lemma insert_sorted_perm x l : Permutation (insert_sorted le x l) (x :: l).
Proof.
  induction l as [|y l IH]; simpl; [reflexivity|].
  destruct (le x y); [reflexivity|].
  rewrite IH. apply perm_swap.
Qed.

Lemma stable_sort_perm l : Permutation (stable_sort le l) l.
Proof.
  induction l as [|x l IH]; simpl; [reflexivity|].
  unfold stable_sort in *. simpl. rewrite insert_sorted_perm. now constructor.
Qed.

Hypothesis le_total : forall a b, le a b = true \/ le b a = true.

Lemma insert_sorted_HdRel a x l :
  le a x = true -> HdRel (fun u v => le u v = true) a l ->
  HdRel (fun u v => le u v = true) a (insert_sorted le x l).
Proof.
  intros Hax Hl. destruct l as [|y l]; simpl; [now constructor|].
  destruct (le x y); constructor; [exact Hax|].
  now inversion Hl.
Qed.

Lemma insert_sorted_Sorted x l :
  Sorted (fun u v => le u v = true) l ->
  Sorted (fun u v => le u v = true) (insert_sorted le x l).
Proof.
  induction 1 as [|y l Hs IH Hd]; simpl; [repeat constructor|].
  destruct (le x y) eqn:E.
  - constructor; [now constructor | now constructor].
  - constructor; [exact IH|].
    apply insert_sorted_HdRel; [|exact Hd].
    destruct (le_total x y) as [H|H]; [congruence | exact H].
Qed.

Lemma stable_sort_Sorted l : Sorted (fun u v => le u v = true) (stable_sort le l).
Proof.
  induction l as [|x l IH]; [constructor|].
  unfold stable_sort in *. simpl. now apply insert_sorted_Sorted.
Qed.

End SortingFacts.

(** Stability for an order that compares keys: the elements of one key
    come out in the order they went in. *)
Section KeyedSort.
Context {A : Type} (key : A -> N).

Lemma insert_sorted_key_filter k x l :
  List.filter (fun b => (key b =? k)%N) (insert_sorted (key_le key) x l) =
  List.filter (fun b => (key b =? k)%N) (x :: l).
Proof.
  induction l as [|y l IH]; [reflexivity|].
  simpl insert_sorted. unfold key_le at 1.
  destruct (key x <=? key y)%N eqn:E; [reflexivity|].
  apply N.leb_gt in E.
  change (List.filter (fun b => (key b =? k)%N) (y :: insert_sorted (key_le key) x l))
    with (if (key y =? k)%N
          then y :: List.filter (fun b => (key b =? k)%N) (insert_sorted (key_le key) x l)
          else List.filter (fun b => (key b =? k)%N) (insert_sorted (key_le key) x l)).
  rewrite IH. simpl.
  destruct (key y =? k)%N eqn:Ey, (key x =? k)%N eqn:Ex; try reflexivity.
  apply N.eqb_eq in Ey, Ex. lia.
Qed.

Lemma stable_sort_key_filter k l :
  List.filter (fun b => (key b =? k)%N) (stable_sort (key_le key) l) =
  List.filter (fun b => (key b =? k)%N) l.
Proof.
  induction l as [|x l IH]; [reflexivity|].
  unfold stable_sort in *. simpl foldr.
  rewrite insert_sorted_key_filter. simpl. now rewrite IH.
Qed.

Lemma key_le_total a b : (key_le key) a b = true \/ (key_le key) b a = true.
Proof. unfold key_le. rewrite !N.leb_le. lia. Qed.

(** A list sorted by key that keeps, for every key, the elements of that
    key in their order in [l] is the stable sort of [l]: the result does
    not depend on the sorting algorithm. *)
Lemma sorted_filter_determined l1 l2 :
  Sorted (fun u v => (key_le key) u v = true) l1 ->
  Sorted (fun u v => (key_le key) u v = true) l2 ->
  (forall k, List.filter (fun b => (key b =? k)%N) l1 =
             List.filter (fun b => (key b =? k)%N) l2) ->
  l1 = l2.
Proof.
  intros H1%Sorted_StronglySorted H2%Sorted_StronglySorted.
  2,3: (intros a b c; unfold key_le; rewrite !N.leb_le; lia).
  revert l2 H2. induction H1 as [|x l1 Hs1 IH Hx]; intros l2 H2 Hf.
  - destruct l2 as [|y l2]; [reflexivity|].
    specialize (Hf (key y)). simpl in Hf. rewrite N.eqb_refl in Hf. discriminate.
  - destruct l2 as [|y l2].
    { specialize (Hf (key x)). simpl in Hf. rewrite N.eqb_refl in Hf. discriminate. }
    inversion H2 as [|? ? Hs2 Hy]; subst.
    assert (Hxy : key x = key y).
    { pose proof (Hf (key x)) as Fx. pose proof (Hf (key y)) as Fy.
      simpl in Fx, Fy. rewrite N.eqb_refl in Fx, Fy.
      destruct (key y =? key x)%N eqn:E1; [apply N.eqb_eq in E1; congruence|].
      destruct (key x =? key y)%N eqn:E2; [apply N.eqb_eq in E2; congruence|].
      assert (In x l2).
      { apply (proj1 (filter_In (fun b => (key b =? key x)%N) x l2)).
        rewrite <- Fx. now left. }
      assert (In y l1).
      { apply (proj1 (filter_In (fun b => (key b =? key y)%N) y l1)).
        rewrite Fy. now left. }
      rewrite List.Forall_forall in Hx, Hy.
      pose proof (Hx y H0) as Lxy. pose proof (Hy x H) as Lyx.
      unfold key_le in Lxy, Lyx. apply N.leb_le in Lxy, Lyx. lia. }
    pose proof (Hf (key x)) as Fx. simpl in Fx.
    rewrite N.eqb_refl, <- Hxy, N.eqb_refl in Fx. injection Fx as -> Fx.
    f_equal. apply IH; [exact Hs2|].
    intros k. specialize (Hf k). simpl in Hf.
    destruct (key y =? k)%N; [now injection Hf | exact Hf].
Qed.

End KeyedSort.

(** ** Batch sort *)

Lemma digit_runs_head s : fst (Re.digit_runs s) = fst (Str.span_digits s).
Proof.
  induction s as [|c r IH]; [reflexivity|]. simpl.
  destruct (Re.digit_runs r) as [h t], (Str.span_digits r) as [d rest].
  simpl in IH. subst. now destruct (Str.isdigit c).
Qed.

(** The first match of [re.findall(r'\d+', s)] is the first run of digits;
    there is no match when [s] has no digit. *)
Lemma findall_digits_first_run s :
  match Re.findall_digits s with
  | numbers0 :: _ => numbers0
  | [] => ""
  end = first_run s.
Proof.
  induction s as [|c r IH]; [reflexivity|].
  pose proof (digit_runs_head r) as Hh.
  unfold Re.findall_digits in *. simpl.
  destruct (Re.digit_runs r) as [h t], (Str.span_digits r) as [d rest].
  simpl in Hh. subst d.
  destruct (Str.isdigit c); [reflexivity|]. simpl. exact IH.
Qed.

Lemma first_number_first_run s : first_number s = Str.int_of_digits (first_run s).
Proof.
  induction s as [|c r IH]; [reflexivity|]. simpl.
  destruct (Str.isdigit c); [reflexivity | exact IH].
Qed.

(** The key of a record: the number of its first run of digits, unless the
    run is longer than [int] converts. *)
Lemma get_batch_key_first_number b :
  get_batch_key b =
    if (String.length (first_run (batch_no b)) <=? int_max_str_digits)%nat
    then Ok (first_number (batch_no b))
    else int_of_run (first_run (batch_no b)).
Proof.
  unfold get_batch_key. rewrite first_number_first_run.
  pose proof (findall_digits_first_run (batch_no b)) as H.
  destruct (Re.findall_digits (batch_no b)) as [|numbers0 l].
  - rewrite <- H. reflexivity.
  - rewrite <- H. unfold int_of_run.
    now destruct (String.length numbers0 <=? int_max_str_digits)%nat.
Qed.

Lemma get_batch_key_short b :
  String.length (first_run (batch_no b)) <= int_max_str_digits ->
  get_batch_key b = Ok (first_number (batch_no b)) /\
  batch_num b = first_number (batch_no b).
Proof.
  intros H%Nat.leb_le. unfold batch_num. rewrite get_batch_key_first_number, H. auto.
Qed.

Lemma get_batch_key_long b :
  int_max_str_digits < String.length (first_run (batch_no b)) ->
  exists e, get_batch_key b = Raise e.
Proof.
  intros H%Nat.leb_gt. rewrite get_batch_key_first_number, H. unfold int_of_run.
  rewrite H. eauto.
Qed.

Lemma mapM_get_batch_key_short batches :
  Forall (fun b => String.length (first_run (batch_no b)) <= int_max_str_digits) batches ->
  mapM get_batch_key batches = Ok (List.map batch_num batches).
Proof.
  induction 1 as [|b l Hb _ IH]; [reflexivity|].
  destruct (get_batch_key_short b Hb) as [Hk Hn].
  change (mapM get_batch_key (b :: l))
    with (match get_batch_key b with
          | Ok y => match mapM get_batch_key l with
                    | Ok ys => Ok (y :: ys)
                    | Raise e => Raise e
                    end
          | Raise e => Raise e
          end).
  rewrite Hk, IH. simpl. now rewrite Hn.
Qed.

Lemma mapM_get_batch_key_long batches :
  Exists (fun b => int_max_str_digits < String.length (first_run (batch_no b))) batches ->
  exists e, mapM get_batch_key batches = Raise e.
Proof.
  induction 1 as [b l Hb|b l _ [e IH]];
    change (mapM get_batch_key (b :: l))
      with (match get_batch_key b with
            | Ok y => match mapM get_batch_key l with
                      | Ok ys => Ok (y :: ys)
                      | Raise e => Raise e
                      end
            | Raise e => Raise e
            end).
  - destruct (get_batch_key_long b Hb) as [e ->]. eauto.
  - rewrite IH. destruct (get_batch_key b); eauto.
Qed.

(** What [sort_batches] returns: the records sorted by their keys when
    every key is computed, the list as it came when one raises. *)
Lemma sort_batches_result batches :
  (exists e, sort_batches batches = (batches, [(ERROR, "Error sorting batches: " ++ text e)]))
  \/ sort_batches batches = (stable_sort (key_le batch_num) batches, []).
Proof.
  unfold sort_batches. destruct (mapM get_batch_key batches) as [keys|e]; eauto.
Qed.

Lemma sort_batches_perm batches : Permutation (fst (sort_batches batches)) batches.
Proof.
  destruct (sort_batches_result batches) as [[e ->]| ->]; simpl;
    [reflexivity | apply stable_sort_perm].
Qed.

Lemma Sorted_key_le {A} (key : A -> N) l :
  Sorted (fun a b => key_le key a b = true) l <->
  Sorted (fun a b => (key a <= key b)%N) l.
Proof.
  split; induction 1 as [|a l _ IH Hd]; constructor; auto;
    destruct Hd as [|b l' Hab]; constructor; unfold key_le in *;
    now apply N.leb_le.
Qed.

Lemma Sorted_ext {A} (R1 R2 : A -> A -> Prop) l :
  (forall a b, In a l -> In b l -> R1 a b -> R2 a b) -> Sorted R1 l -> Sorted R2 l.
Proof.
  intros H Hs. induction Hs as [|a l _ IH Hd]; constructor.
  - apply IH. intros x y Hx Hy. apply H; now right.
  - destruct Hd as [|b l' Hab]; constructor. apply H; simpl; auto.
Qed.

Lemma filter_ext_in_key {A} (f g : A -> bool) l :
  (forall a, In a l -> f a = g a) -> List.filter f l = List.filter g l.
Proof.
  induction l as [|x l IH]; intros H; [reflexivity|]. simpl.
  rewrite (H x (or_introl eq_refl)), IH; [reflexivity|]. intros a Ha. apply H. now right.
Qed.

Lemma digits_value_ge s : forall acc, (acc <= digits_value acc s)%N.
Proof.
  induction s as [|c r IH]; intros acc; simpl; [lia|].
  etransitivity; [|apply IH]. lia.
Qed.

Lemma span_digits_zeros k : Str.span_digits (Str.zeros k) = (Str.zeros k, "").
Proof. induction k as [|k IH]; [reflexivity|]. simpl. now rewrite IH. Qed.

Lemma first_number_run c r :
  Str.isdigit c = true ->
  first_number (String c r) = digits_value (Str.digit_val c) (fst (Str.span_digits r)).
Proof.
  intros Hc. simpl. rewrite Hc. destruct (Str.span_digits r) as [d rest]. reflexivity.
Qed.

Lemma first_number_long k : (3 <= first_number (String "3" (Str.zeros k)))%N.
Proof.
  rewrite first_number_run by reflexivity. rewrite span_digits_zeros. cbn [fst].
  apply (digits_value_ge (Str.zeros k) 3).
Qed.

(** C4, as the code has it.  When the first run of digits of every record
    has at most 4300 digits, [sort_batches] returns the same records (a
    permutation), ordered ascending by the integer value of the first run
    of decimal digits of [batch_no] (0 when it has no digit); records with
    the same number keep their relative order, and no other list has these
    two properties.  When the run of some record is longer, [int] raises on
    it and the list comes back as it was given, with the error logged.
    B-12, B-2, B-100 come out as B-2, B-12, B-100. *)
Theorem sort_batches_numeric_stable (batches : list BatchRecord) :
  (Forall (fun b => String.length (first_run (batch_no b)) <= 4300) batches ->
   Permutation (fst (sort_batches batches)) batches /\
   Sorted (fun a b => (first_number (batch_no a) <= first_number (batch_no b))%N)
          (fst (sort_batches batches)) /\
   (forall k : N,
       List.filter (fun b => (first_number (batch_no b) =? k)%N) (fst (sort_batches batches)) =
       List.filter (fun b => (first_number (batch_no b) =? k)%N) batches) /\
   (forall sorted : list BatchRecord,
       Sorted (fun a b => (first_number (batch_no a) <= first_number (batch_no b))%N)
              sorted ->
       (forall k : N,
           List.filter (fun b => (first_number (batch_no b) =? k)%N) sorted =
           List.filter (fun b => (first_number (batch_no b) =? k)%N) batches) ->
       sorted = fst (sort_batches batches)) /\
   snd (sort_batches batches) = []) /\
  (Exists (fun b => 4300 < String.length (first_run (batch_no b))) batches ->
   fst (sort_batches batches) = batches /\
   exists e, snd (sort_batches batches) = [(ERROR, "Error sorting batches: " ++ text e)]) /\
  List.map batch_no
    (fst (sort_batches [batch_numbered "B-12"; batch_numbered "B-2"; batch_numbered "B-100"]))
  = ["B-2"; "B-12"; "B-100"].
Proof.
  split; [|split; [|reflexivity]].
  - intros Hshort. change 4300 with int_max_str_digits in Hshort.
    unfold sort_batches. rewrite (mapM_get_batch_key_short _ Hshort). cbn [fst snd].
    set (key := fun b => first_number (batch_no b)).
    assert (Hkey : forall b, In b batches -> batch_num b = key b).
    { rewrite List.Forall_forall in Hshort. intros b Hb.
      apply (get_batch_key_short b (Hshort b Hb)). }
    assert (Hperm : Permutation (stable_sort (key_le batch_num) batches) batches)
      by apply stable_sort_perm.
    assert (Hkey' : forall b, In b (stable_sort (key_le batch_num) batches) ->
                              batch_num b = key b).
    { intros b Hb. apply Hkey. eapply Permutation_in; [exact Hperm | exact Hb]. }
    assert (Hs : Sorted (fun a b => key_le key a b = true)
                   (stable_sort (key_le batch_num) batches)).
    { eapply Sorted_ext; [|apply stable_sort_Sorted, key_le_total].
      intros a b Ha Hb. unfold key_le. now rewrite (Hkey' a Ha), (Hkey' b Hb). }
    assert (Hf : forall k : N,
               List.filter (fun b => (key b =? k)%N) (stable_sort (key_le batch_num) batches)
               = List.filter (fun b => (key b =? k)%N) batches).
    { intros k.
      rewrite (filter_ext_in_key (fun b => (key b =? k)%N) (fun b => (batch_num b =? k)%N)
                 (stable_sort (key_le batch_num) batches))
        by (intros a Ha; now rewrite (Hkey' a Ha)).
      rewrite (filter_ext_in_key (fun b => (key b =? k)%N) (fun b => (batch_num b =? k)%N)
                 batches)
        by (intros a Ha; now rewrite (Hkey a Ha)).
      apply (stable_sort_key_filter batch_num). }
    split; [exact Hperm|]. split; [eapply Sorted_key_le, Hs|]. split; [exact Hf|].
    split; [|reflexivity].
    intros sorted Hsorted Hsame.
    apply (sorted_filter_determined key); [|exact Hs|].
    + apply Sorted_key_le. exact Hsorted.
    + intros k. now rewrite Hsame, Hf.
  - intros Hlong. change 4300 with int_max_str_digits in Hlong.
    unfold sort_batches. destruct (mapM_get_batch_key_long _ Hlong) as [e ->].
    cbn [fst snd]. eauto.
Qed.

(** C4 as the specification words it, for every list, fails on a batch
    number of 4301 digits: [int] refuses to convert it, so the two records
    come back in the order they were given, the larger number first. *)
Lemma sort_batches_long_number :
  fst (sort_batches [batch_numbered long_number; batch_numbered "B-2"])
    = [batch_numbered long_number; batch_numbered "B-2"] /\
  (first_number "B-2" < first_number long_number)%N /\
  ~ Sorted (fun a b => (first_number (batch_no a) <= first_number (batch_no b))%N)
      (fst (sort_batches [batch_numbered long_number; batch_numbered "B-2"])).
Proof.
  assert (H1 : fst (sort_batches [batch_numbered long_number; batch_numbered "B-2"])
               = [batch_numbered long_number; batch_numbered "B-2"])
    by (vm_compute; reflexivity).
  assert (H2 : (first_number "B-2" < first_number long_number)%N).
  { pose proof (first_number_long int_max_str_digits) as H. fold long_number in H.
    change (first_number "B-2") with 2%N. lia. }
  split; [exact H1|]. split; [exact H2|].
  rewrite H1. intros Hs. inversion Hs as [|a l _ Hd]; subst.
  inversion Hd as [|b l' Hab]; subst.
  change (first_number long_number <= first_number "B-2")%N in Hab. lia.
Qed.

(** ** Unique products *)

Lemma truthy_nonempty s : Str.truthy s = true <-> s <> "".
Proof. destruct s; simpl; split; congruence. Qed.

Lemma unique_step_inv acc product : unique_inv acc -> unique_inv (unique_step acc product).
Proof.
  destruct acc as [seen result]. intros Hinv. pose proof Hinv as (Hnd & Hseen & Hall).
  unfold unique_step.
  destruct (Str.truthy (Str.strip product)) eqn:Ht; simpl; [|exact Hinv].
  destruct (bool_decide (Str.strip product ∈ seen)) eqn:Hd; simpl; [exact Hinv|].
  apply bool_decide_eq_false in Hd. apply truthy_nonempty in Ht.
  unfold unique_inv. simpl. split; [|split].
  - apply NoDup_app. split; [exact Hnd|]. split; [|apply NoDup_singleton].
    intros x Hx ->%list_elem_of_singleton. apply Hd, Hseen.
    now apply list_elem_of_In.
  - intros x. rewrite elem_of_union, elem_of_singleton, in_app_iff, Hseen. simpl.
    intuition congruence.
  - apply Forall_app. split; [exact Hall|].
    constructor; [|constructor]. split; [exact Ht | apply StrFacts.strip_idem].
Qed.

Lemma unique_fold_inv l acc : unique_inv acc -> unique_inv (fold_left unique_step l acc).
Proof.
  revert acc. induction l as [|x l IH]; intros acc H; simpl; [exact H|].
  apply IH, unique_step_inv, H.
Qed.

Lemma unique_inv_init : unique_inv (∅, []).
Proof.
  repeat split; simpl; try constructor.
  - intros H. now apply not_elem_of_empty in H.
  - intros [].
Qed.

Lemma string_leb_total a b : String.leb a b = true \/ String.leb b a = true.
Proof. apply String.leb_total. Qed.

Lemma string_leb_ltb a b : String.leb a b = true -> a <> b -> String.ltb a b = true.
Proof.
  unfold String.leb, String.ltb. intros H Hne.
  destruct (String.compare a b) eqn:E; try reflexivity; try discriminate.
  apply String.compare_eq_iff in E. contradiction.
Qed.

(** A sorted list without repetition ascends strictly. *)
Lemma sorted_nodup_strict l :
  Sorted (fun a b => String.leb a b = true) l -> List.NoDup l ->
  Sorted (fun a b => String.ltb a b = true) l.
Proof.
  induction 1 as [|x l Hs IH Hd]; intros Hnd; [constructor|].
  inversion Hnd as [|? ? Hx Hl]; subst.
  constructor; [auto|].
  destruct Hd as [|y l' Hxy]; constructor.
  apply string_leb_ltb; [exact Hxy|].
  intros ->. apply Hx. now left.
Qed.

Lemma get_unique_products_try_ok d cache r :
  get_unique_products_try d cache = Ok r ->
  List.NoDup r /\ Sorted (fun a b => String.ltb a b = true) r /\
  Forall (fun p => p <> "" /\ Str.strip p = p) r.
Proof.
  unfold get_unique_products_try.
  destruct (cached_column cache "product") as [pc|].
  2:{ intros [= <-]. repeat constructor. }
  destruct (getitem d pc) as [[vals|]|e]; simpl; try discriminate.
  set (ups := List.filter _ (dropna vals)).
  pose proof (unique_fold_inv ups _ unique_inv_init) as (Hnd & _ & Hall).
  destruct (fold_left unique_step ups (∅, [])) as [seen result]. simpl in *.
  apply NoDup_ListNoDup in Hnd.
  intros [= <-].
  pose proof (stable_sort_perm String.leb result) as Hp.
  assert (Hnd' : List.NoDup (stable_sort String.leb result)).
  { eapply Permutation_NoDup; [symmetry; exact Hp | exact Hnd]. }
  repeat split.
  - exact Hnd'.
  - apply sorted_nodup_strict; [|exact Hnd'].
    apply stable_sort_Sorted, string_leb_total.
  - eapply Permutation_Forall; [symmetry; exact Hp | exact Hall].
Qed.

Lemma cached_column_unset cache field : cached_column (delete field cache) field = None.
Proof. unfold cached_column. now rewrite lookup_delete_eq. Qed.

Lemma cached_column_none cache field :
  cached_column (<[field := None]> cache) field = None.
Proof. unfold cached_column. now rewrite lookup_insert_eq. Qed.

Lemma get_unique_products_unresolved df cache :
  cached_column cache "product" = None -> fst (get_unique_products df cache) = [].
Proof.
  intros H. unfold get_unique_products, get_unique_products_try.
  destruct df as [d|]; [|reflexivity]. destruct (empty d); [reflexivity|].
  now rewrite H.
Qed.

Lemma map_fixed {A} (f : A -> A) l : Forall (fun x => f x = x) l -> List.map f l = l.
Proof. induction 1 as [|x l Hx _ IH]; simpl; [reflexivity|]. now rewrite Hx, IH. Qed.

(** C3. The list of [get_unique_products] has no repeated entry (its
    entries are trimmed, so none repeats after trimming either), ascends
    strictly in the order of strings, and holds no empty string; it is
    empty when the product field is unresolved (mapped to nothing, or not
    in the cache), when no frame is loaded and when the frame has no row
    or no column. *)
Theorem get_unique_products_sorted_unique
    (df : option DataFrame) (cache : gmap string (option string)) :
  let r := fst (get_unique_products df cache) in
  List.NoDup r /\
  List.NoDup (List.map Str.strip r) /\
  Sorted (fun a b => String.ltb a b = true) r /\
  Forall (fun p => p <> "") r /\
  fst (get_unique_products df (<["product" := None]> cache)) = [] /\
  fst (get_unique_products df (delete "product" cache)) = [] /\
  fst (get_unique_products None cache) = [] /\
  (forall cols, fst (get_unique_products (Some (mkdf cols [])) cache) = []) /\
  (forall rws, fst (get_unique_products (Some (mkdf [] rws)) cache) = []).
Proof.
  cbv zeta.
  assert (H : let r := fst (get_unique_products df cache) in
              List.NoDup r /\ Sorted (fun a b => String.ltb a b = true) r /\
              Forall (fun p => p <> "" /\ Str.strip p = p) r).
  { unfold get_unique_products. destruct df as [d|]; [|repeat constructor].
    destruct (empty d); [repeat constructor|].
    destruct (get_unique_products_try d cache) as [r|e] eqn:E; [|repeat constructor].
    simpl. now apply get_unique_products_try_ok in E. }
  cbv zeta in H. destruct H as (Hnd & Hs & Hall).
  split; [exact Hnd|]. split.
  { rewrite map_fixed; [exact Hnd|].
    eapply List.Forall_impl; [|exact Hall]. now intros p [_ Hp]. }
  split; [exact Hs|]. split.
  { eapply List.Forall_impl; [|exact Hall]. now intros p [Hp _]. }
  split; [apply get_unique_products_unresolved, cached_column_none|].
  split; [apply get_unique_products_unresolved, cached_column_unset|].
  split; [reflexivity|]. split.
  - intros cols. unfold get_unique_products, empty. simpl. now destruct cols.
  - intros rws. reflexivity.
Qed.

(** ** Batch lookup *)

Lemma product_matches_spec product_name v :
  product_matches product_name v = true <->
  Str.lower (astype_str v) = Str.lower product_name.
Proof. unfold product_matches. apply String.eqb_eq. Qed.

(** C1, where the code departs from it.  The lookup compares lower-cased
    texts without trimming: the queries ASPIRIN and aspirin find the row
    valued Aspirin, but a row stored with a leading space is not found by
    any of them, although [get_unique_products] lists it under its trimmed
    name and the two sides are equal once trimmed and lower-cased. *)
Theorem search_product_batches_untrimmed :
  (forall q v, product_matches q v = true <-> Str.lower (astype_str v) = Str.lower q) /\
  List.map (fun q => option_map (List.map batch_no)
              (fst (search_product_batches (Some (aspirin_frame "Aspirin")) aspirin_cache q)))
           ["ASPIRIN"; "aspirin"]
    = [Some ["B-1"]; Some ["B-1"]] /\
  fst (get_unique_products (Some (aspirin_frame " Aspirin")) aspirin_cache) = ["Aspirin"] /\
  Str.lower (Str.strip " Aspirin") = Str.lower (Str.strip "aspirin") /\
  List.map (fun q => fst (search_product_batches (Some (aspirin_frame " Aspirin"))
                            aspirin_cache q))
           ["Aspirin"; "ASPIRIN"; "aspirin"]
    = [None; None; None].
Proof.
  split; [intros q v; apply product_matches_spec|].
  repeat split; vm_compute; reflexivity.
Qed.

(** ** Date normalisation *)

Lemma blank_token v : blank v = true -> date_token v = "".
Proof.
  unfold blank, date_token. destruct v as [|c r]; [reflexivity|]. simpl negb. simpl orb.
  intros ->%String.eqb_eq. reflexivity.
Qed.

Lemma first_parse_none tok formats :
  Forall (fun f => Datetime.strptime tok f = None) formats -> first_parse tok formats = None.
Proof. induction 1 as [|f l Hf _ IH]; simpl; [reflexivity|]. now rewrite Hf. Qed.

Lemma first_parse_first tok pre fmt post d :
  Forall (fun f => Datetime.strptime tok f = None) pre ->
  Datetime.strptime tok fmt = Some d ->
  first_parse tok (pre ++ fmt :: post)%list = Some d.
Proof.
  induction 1 as [|f l Hf _ IH]; simpl; intros H; [now rewrite H|].
  rewrite Hf. auto.
Qed.

Lemma strptime_empty : Forall (fun f => Datetime.strptime "" f = None) date_formats.
Proof. repeat constructor. Qed.

Lemma strptime_valid s f d : Datetime.strptime s f = Some d -> Datetime.valid d = true.
Proof.
  unfold Datetime.strptime.
  destruct (Datetime.format_match f _ s) as [|[d' rest] _]; [discriminate|].
  destruct (Str.truthy rest); [discriminate|].
  destruct (Datetime.valid d') eqn:E; [|discriminate]. now intros [= <-].
Qed.

Lemma below_In n k : (k < n)%N -> In k (below n).
Proof.
  intros H. unfold below. apply in_map_iff. exists (N.to_nat k).
  split; [apply N2Nat.id|]. apply in_seq. lia.
Qed.

Lemma days_in_month_le y m : (Datetime.days_in_month y m <= 31)%N.
Proof.
  unfold Datetime.days_in_month. destruct (Datetime.is_leap y);
    repeat match goal with
           | |- context [match ?p with _ => _ end] => destruct p
           end; lia.
Qed.

Lemma zfill_digits w n :
  forallb (fun k => all_digits w (Str.zfill w k)) (below n) = true ->
  forall k, (k < n)%N -> all_digits w (Str.zfill w k) = true.
Proof. intros H k Hk. rewrite forallb_forall in H. apply H, below_In, Hk. Qed.

Lemma zfill2_digits k : (k < 100)%N -> all_digits 2 (Str.zfill 2 k) = true.
Proof. apply zfill_digits. vm_compute. reflexivity. Qed.

Lemma zfill4_digits k : (k < 10000)%N -> all_digits 4 (Str.zfill 4 k) = true.
Proof. apply zfill_digits. vm_compute. reflexivity. Qed.

(** *** Decimal text and the number it writes *)

Lemma append_assoc (a b c : string) : (a ++ b) ++ c = a ++ (b ++ c).
Proof.
  induction a as [|x a IH]; [reflexivity|].
  change (String x ((a ++ b) ++ c) = String x (a ++ (b ++ c))). now rewrite IH.
Qed.

Lemma string_of_uint_digits u : Str.forallb Str.isdigit (NilEmpty.string_of_uint u) = true.
Proof. induction u; simpl; auto. Qed.

Lemma of_N_digits n : Str.forallb Str.isdigit (Str.of_N n) = true.
Proof. apply string_of_uint_digits. Qed.

Lemma of_N_nonempty n : Str.of_N n <> "".
Proof.
  unfold Str.of_N. destruct n as [|p]; [discriminate|]. simpl.
  pose proof (DecimalPos.Unsigned.to_uint_nonnil p) as H.
  destruct (Pos.to_uint p); try discriminate. contradiction.
Qed.

Lemma int_of_digits_value s : Str.int_of_digits s = digits_value 0 s.
Proof. reflexivity. Qed.

Lemma digits_value_pos d p :
  digits_value (N.pos p) (NilEmpty.string_of_uint d) = N.pos (Pos.of_uint_acc d p).
Proof.
  revert p. induction d; intros p; simpl; [reflexivity|..];
    match goal with
    | |- digits_value ?a _ = N.pos (Pos.of_uint_acc _ ?q) =>
        replace a with (N.pos q) by (vm_compute Str.digit_val; lia); apply IHd
    end.
Qed.

Lemma digits_value_of_uint d :
  digits_value 0 (NilEmpty.string_of_uint d) = N.of_uint d.
Proof.
  unfold N.of_uint. induction d; simpl; [reflexivity|exact IHd|..];
    match goal with
    | |- digits_value ?a _ = N.pos (Pos.of_uint_acc _ ?q) =>
        change a with (N.pos q); apply digits_value_pos
    end.
Qed.

(** [int(str(n))] is [n]. *)
Lemma int_of_digits_of_N n : Str.int_of_digits (Str.of_N n) = n.
Proof.
  rewrite int_of_digits_value. unfold Str.of_N.
  rewrite digits_value_of_uint. apply DecimalN.Unsigned.of_to.
Qed.

Lemma digit_val_le c : Str.isdigit c = true -> (Str.digit_val c <= 9)%N.
Proof.
  destruct c as [[|] [|] [|] [|] [|] [|] [|] [|]]; intros H; try discriminate H;
    vm_compute; discriminate.
Qed.

(** A text of [n] digits writes a number below [10^n]. *)
Lemma digits_value_lt s : forall acc,
  Str.forallb Str.isdigit s = true ->
  (digits_value acc s < (acc + 1) * 10 ^ N.of_nat (String.length s))%N.
Proof.
  induction s as [|c r IH]; intros acc; simpl String.length.
  - intros _. simpl. lia.
  - intros [Hc Hr]%andb_prop. pose proof (digit_val_le c Hc) as Hd.
    specialize (IH (acc * 10 + Str.digit_val c)%N Hr).
    change (digits_value acc (String c r))
      with (digits_value (acc * 10 + Str.digit_val c) r).
    rewrite Nat2N.inj_succ, N.pow_succ_r'.
    eapply N.lt_le_trans; [exact IH|].
    replace ((acc + 1) * (10 * 10 ^ N.of_nat (String.length r)))%N
      with ((acc * 10 + 10) * 10 ^ N.of_nat (String.length r))%N by lia.
    apply N.mul_le_mono_r. lia.
Qed.

Lemma digits_value_zeros k s : digits_value 0 (Str.zeros k ++ s) = digits_value 0 s.
Proof. induction k as [|k IH]; [reflexivity | exact IH]. Qed.

(** The digits of a zero-padded number write the number. *)
Lemma int_of_digits_zfill w n : Str.int_of_digits (Str.zfill w n) = n.
Proof.
  rewrite int_of_digits_value. unfold Str.zfill.
  rewrite digits_value_zeros, <- int_of_digits_value. apply int_of_digits_of_N.
Qed.

Lemma append_length s t : String.length (s ++ t) = String.length s + String.length t.
Proof. induction s as [|c s IH]; simpl; [reflexivity|]. now rewrite IH. Qed.

Lemma zeros_length k : String.length (Str.zeros k) = k.
Proof. induction k as [|k IH]; simpl; [reflexivity|]. now rewrite IH. Qed.

(** From the year 1000 on a year has four digits: padding adds nothing. *)
Lemma zfill4_of_N y : (1000 <= y <= 9999)%N -> Str.zfill 4 y = Str.of_N y.
Proof.
  intros Hy. pose proof (zfill4_digits y ltac:(lia)) as H.
  unfold all_digits in H. apply andb_prop in H as [Hlen _].
  apply Nat.eqb_eq in Hlen. unfold Str.zfill in *.
  rewrite append_length, zeros_length in Hlen.
  pose proof (digits_value_lt (Str.of_N y) 0 (of_N_digits y)) as Hlt.
  rewrite <- int_of_digits_value, int_of_digits_of_N in Hlt.
  assert (Hl : 4 <= String.length (Str.of_N y)).
  { destruct (le_lt_dec 4 (String.length (Str.of_N y))) as [Hle|Hgt]; [exact Hle|].
    exfalso.
    assert (H3 : (10 ^ N.of_nat (String.length (Str.of_N y)) <= 10 ^ 3)%N)
      by (apply N.pow_le_mono_r; lia).
    change (10 ^ 3)%N with 1000%N in H3. lia. }
  replace (4 - String.length (Str.of_N y)) with 0 by lia. reflexivity.
Qed.

(** From the year 1000 on the date is written in the shape DD.MM.YYYY. *)
Lemma strftime_shape d :
  Datetime.valid d = true -> (1000 <= Datetime.year d)%N ->
  dmY_shape (Datetime.strftime_dmY d) = true.
Proof.
  destruct d as [y m dd]. unfold Datetime.valid, Datetime.strftime_dmY. simpl.
  intros H Hyear. repeat (apply andb_prop in H as [H ?]).
  apply N.leb_le in H, H0, H1, H2, H3, H4.
  pose proof (days_in_month_le y m) as Hle.
  pose proof (zfill2_digits dd ltac:(lia)) as Hd.
  pose proof (zfill2_digits m ltac:(lia)) as Hm.
  pose proof (zfill4_digits y ltac:(lia)) as Hy.
  rewrite (zfill4_of_N y ltac:(lia)) in Hy.
  unfold all_digits in Hd, Hm, Hy.
  destruct (Str.zfill 2 dd) as [|d1 [|d2 [|? ?]]]; try discriminate Hd.
  destruct (Str.zfill 2 m) as [|m1 [|m2 [|? ?]]]; try discriminate Hm.
  destruct (Str.of_N y) as [|y1 [|y2 [|y3 [|y4 [|? ?]]]]]; try discriminate Hy.
  simpl in *.
  repeat match goal with
         | H : (_ && _)%bool = true |- _ => apply andb_prop in H as [? ?]
         end.
  repeat match goal with
         | H : Str.isdigit _ = true |- _ => rewrite H; clear H
         end.
  reflexivity.
Qed.

Lemma no_space_forallb s :
  Str.contains " " s = false ->
  Str.forallb (fun c => negb (Ascii.eqb c " ")) s = true.
Proof.
  induction s as [|c r IH]; [reflexivity|]. intros H.
  change (Str.contains " " (String c r))
    with ((Ascii.eqb " " c && true) || Str.contains " " r)%bool in H.
  apply orb_false_elim in H as [H1 H2]. rewrite andb_true_r in H1.
  change (Str.forallb (fun c => negb (Ascii.eqb c " ")) (String c r))
    with (negb (Ascii.eqb c " ")
          && Str.forallb (fun c => negb (Ascii.eqb c " ")) r)%bool.
  now rewrite (IH H2), Ascii.eqb_sym, H1.
Qed.

Lemma upper_char_not_space c : Ascii.eqb c " " = false -> Ascii.eqb (Str.upper_char c) " " = false.
Proof. each_char c. Qed.

Lemma split_head_no_space s :
  Str.forallb (fun c => negb (Ascii.eqb c " ")) s = true -> Str.split_head " " s = s.
Proof.
  induction s as [|c r IH]; [reflexivity|]. simpl. intros [Hc Hr]%andb_prop.
  destruct (Ascii.eqb c " "); [discriminate Hc|]. now rewrite IH.
Qed.

(** A text without a space is its own part before the first space, also
    after it is put in upper case. *)
Lemma split_head_upper s :
  Str.contains " " s = false -> Str.split_head " " (Str.upper s) = Str.upper s.
Proof.
  intros H%no_space_forallb. apply split_head_no_space.
  unfold Str.upper. rewrite StrFacts.forallb_map.
  eapply StrFacts.forallb_impl; [|exact H].
  intros c Hc. apply negb_true_iff in Hc. now rewrite (upper_char_not_space c Hc).
Qed.

(** C2, as the code has it by design.  When the trimmed text holds no
    space, its upper-case form holds no NA token and none of the six
    formats parses it, [format_date_properly] returns the trimmed text in
    upper case. *)
Theorem format_date_properly_unparsed (v : string) :
  Str.contains " " (Str.strip v) = false ->
  has_na_token (Str.upper (Str.strip v)) = false ->
  Forall (fun f => Datetime.strptime (Str.upper (Str.strip v)) f = None) date_formats ->
  format_date_properly v = Str.upper (Str.strip v).
Proof.
  intros Hsp Hna Hnone. unfold format_date_properly.
  destruct (blank v) eqn:Hb.
  - apply blank_token in Hb. unfold date_token in Hb.
    rewrite (split_head_upper _ Hsp) in Hb. now rewrite Hb.
  - rewrite Hna, (split_head_upper _ Hsp). now rewrite (first_parse_none _ _ Hnone).
Qed.

Lemma format_date_properly_unparsed_witness :
  Str.contains " " (Str.strip " not-a-date ") = false /\
  has_na_token (Str.upper (Str.strip " not-a-date ")) = false /\
  Forall (fun f => Datetime.strptime (Str.upper (Str.strip " not-a-date ")) f = None)
         date_formats /\
  format_date_properly " not-a-date " = "NOT-A-DATE".
Proof.
  assert (Hsp : Str.contains " " (Str.strip " not-a-date ") = false) by reflexivity.
  assert (Hna : has_na_token (Str.upper (Str.strip " not-a-date ")) = false) by reflexivity.
  assert (Hnone : Forall (fun f => Datetime.strptime (Str.upper (Str.strip " not-a-date ")) f
                                   = None) date_formats) by (repeat constructor).
  exact (conj Hsp (conj Hna (conj Hnone
    (format_date_properly_unparsed " not-a-date " Hsp Hna Hnone)))).
Defined.

(** C2 as the specification words it fails on its own example: the text
    not-a-date is not empty, holds no NA token and parses under no format,
    and what comes back is not the trimmed original but its upper-case
    form. *)
Lemma format_date_properly_not_unchanged :
  "not-a-date" <> "" /\
  has_na_token (Str.upper (Str.strip "not-a-date")) = false /\
  Forall (fun f => Datetime.strptime (date_token "not-a-date") f = None) date_formats /\
  format_date_properly "not-a-date" = "NOT-A-DATE" /\
  format_date_properly "not-a-date" <> Str.strip "not-a-date".
Proof. repeat split; try discriminate; repeat constructor. Qed.

(** C5, as the code has it.  When the upper-cased trimmed text holds no NA
    token, the formats are tried on its part before the first space in the
    order of [date_formats] and the first that parses decides: the result
    is what [strftime] writes for that date, and from the year 1000 on
    this is the date as DD.MM.YYYY, the day, the month and the year with
    two, two and four digits.  The order is year-month-day with dashes,
    day-month-year with dashes, day/month/year, month/day/year,
    day.month.year, year.month.day; so 01/02/2024 reads day first,
    2024-03-05 gives 05.03.2024 and N/A stays N/A. *)
Theorem format_date_properly_first_format
    (v : string) (pre post : list (list Datetime.item)) (fmt : list Datetime.item)
    (d : Datetime.date) :
  has_na_token (Str.upper (Str.strip v)) = false ->
  date_formats = (pre ++ fmt :: post)%list ->
  Forall (fun f => Datetime.strptime (Str.split_head " " (Str.upper (Str.strip v))) f = None)
         pre ->
  Datetime.strptime (Str.split_head " " (Str.upper (Str.strip v))) fmt = Some d ->
  format_date_properly v = Datetime.strftime_dmY d /\
  ((1000 <= Datetime.year d)%N ->
   dmY_shape (format_date_properly v) = true /\
   format_date_properly v
     = Str.zfill 2 (Datetime.day d) ++ "." ++ Str.zfill 2 (Datetime.month d) ++ "."
       ++ Str.zfill 4 (Datetime.year d) /\
   Str.int_of_digits (Str.zfill 2 (Datetime.day d)) = Datetime.day d /\
   Str.int_of_digits (Str.zfill 2 (Datetime.month d)) = Datetime.month d /\
   Str.int_of_digits (Str.zfill 4 (Datetime.year d)) = Datetime.year d) /\
  date_formats =
    [ [Datetime.Dir_Y; Datetime.Lit "-"; Datetime.Dir_m; Datetime.Lit "-"; Datetime.Dir_d];
      [Datetime.Dir_d; Datetime.Lit "-"; Datetime.Dir_m; Datetime.Lit "-"; Datetime.Dir_Y];
      [Datetime.Dir_d; Datetime.Lit "/"; Datetime.Dir_m; Datetime.Lit "/"; Datetime.Dir_Y];
      [Datetime.Dir_m; Datetime.Lit "/"; Datetime.Dir_d; Datetime.Lit "/"; Datetime.Dir_Y];
      [Datetime.Dir_d; Datetime.Lit "."; Datetime.Dir_m; Datetime.Lit "."; Datetime.Dir_Y];
      [Datetime.Dir_Y; Datetime.Lit "."; Datetime.Dir_m; Datetime.Lit "."; Datetime.Dir_d] ] /\
  List.map format_date_properly ["2024-03-05"; "N/A"; "01/02/2024"]
    = ["05.03.2024"; "N/A"; "01.02.2024"].
Proof.
  intros Hna Hfmts Hpre Hfmt.
  assert (Hb : blank v = false).
  { destruct (blank v) eqn:Hb; [|reflexivity].
    apply blank_token in Hb. unfold date_token in Hb. rewrite Hb in Hfmt.
    pose proof strptime_empty as He. rewrite Hfmts in He.
    apply Forall_app in He as [_ He]. inversion He; congruence. }
  assert (Hr : format_date_properly v = Datetime.strftime_dmY d).
  { unfold format_date_properly. rewrite Hb, Hna, Hfmts.
    now rewrite (first_parse_first _ _ _ _ _ Hpre Hfmt). }
  pose proof (strptime_valid _ _ _ Hfmt) as Hv.
  assert (Hyear : (Datetime.year d <= 9999)%N).
  { unfold Datetime.valid in Hv. repeat (apply andb_prop in Hv as [Hv ?]).
    now apply N.leb_le. }
  split; [exact Hr|]. split; [|split; reflexivity].
  intros Hy. split; [rewrite Hr; now apply strftime_shape|].
  split; [|repeat split; apply int_of_digits_zfill].
  rewrite Hr. unfold Datetime.strftime_dmY. now rewrite zfill4_of_N by lia.
Qed.

Lemma format_date_properly_first_format_witness :
  has_na_token (Str.upper (Str.strip "01/02/2024")) = false /\
  Forall (fun f => Datetime.strptime
                     (Str.split_head " " (Str.upper (Str.strip "01/02/2024"))) f = None)
         (firstn 2 date_formats) /\
  Datetime.strptime (Str.split_head " " (Str.upper (Str.strip "01/02/2024")))
    [Datetime.Dir_d; Datetime.Lit "/"; Datetime.Dir_m; Datetime.Lit "/"; Datetime.Dir_Y]
  = Some (Datetime.mkdate 2024 2 1) /\
  format_date_properly "01/02/2024" = "01.02.2024".
Proof.
  assert (Hna : has_na_token (Str.upper (Str.strip "01/02/2024")) = false) by reflexivity.
  assert (Hpre : Forall (fun f => Datetime.strptime
                     (Str.split_head " " (Str.upper (Str.strip "01/02/2024"))) f = None)
                   (firstn 2 date_formats)) by (repeat constructor).
  assert (Hfmt : Datetime.strptime (Str.split_head " " (Str.upper (Str.strip "01/02/2024")))
            [Datetime.Dir_d; Datetime.Lit "/"; Datetime.Dir_m; Datetime.Lit "/"; Datetime.Dir_Y]
          = Some (Datetime.mkdate 2024 2 1)) by reflexivity.
  exact (conj Hna (conj Hpre (conj Hfmt
    (proj1 (format_date_properly_first_format "01/02/2024" (firstn 2 date_formats)
              (skipn 3 date_formats) _ _ Hna eq_refl Hpre Hfmt))))).
Defined.

(** C5 as the specification words it, always DD.MM.YYYY, fails before the
    year 1000: the text 0999-01-01 holds no NA token and parses under the
    first format, and the year comes back with three digits. *)
Lemma format_date_properly_early_year :
  has_na_token (Str.upper (Str.strip "0999-01-01")) = false /\
  Datetime.strptime (Str.split_head " " (Str.upper (Str.strip "0999-01-01")))
    [Datetime.Dir_Y; Datetime.Lit "-"; Datetime.Dir_m; Datetime.Lit "-"; Datetime.Dir_d]
  = Some (Datetime.mkdate 999 1 1) /\
  format_date_properly "0999-01-01" = "01.01.999" /\
  dmY_shape (format_date_properly "0999-01-01") = false.
Proof. repeat split. Qed.

(** ** Percentage normalisation *)

(** Rounding to the nearest integer, ties to the even one. *)
Lemma round_half_even_nearest num den :
  (0 < den)%Z ->
  (2 * Z.abs (Float.round_half_even num den * den - num) <= den)%Z /\
  ((2 * Z.abs (Float.round_half_even num den * den - num) = den)%Z ->
   Z.even (Float.round_half_even num den) = true).
Proof.
  intros Hden. unfold Float.round_half_even.
  pose proof (Z.div_mod num den ltac:(lia)) as Hdm.
  pose proof (Z.mod_pos_bound num den Hden) as Hr.
  remember (num / den)%Z as q eqn:Hq. remember (num mod den)%Z as r eqn:Hrr.
  clear Hq Hrr.
  destruct (2 * r ?= den)%Z eqn:E.
  - apply Z.compare_eq in E. destruct (Z.even q) eqn:Eq.
    + split; [|intros _; exact Eq]. replace (q * den - num)%Z with (- r)%Z by lia. lia.
    + split.
      * replace ((q + 1) * den - num)%Z with (den - r)%Z by lia. lia.
      * intros _. rewrite Z.even_add, Eq. reflexivity.
  - assert (Hlt : (2 * r < den)%Z) by (apply Z.compare_lt_iff; exact E).
    replace (q * den - num)%Z with (- r)%Z by lia.
    split; [lia | intros H; exfalso; lia].
  - assert (Hgt : (den < 2 * r)%Z) by (apply Z.compare_gt_iff; exact E).
    replace ((q + 1) * den - num)%Z with (den - r)%Z by lia.
    split; [lia | intros H; exfalso; lia].
Qed.

Lemma round_half_even_nonneg num den :
  (0 <= num)%Z -> (0 < den)%Z -> (0 <= Float.round_half_even num den)%Z.
Proof.
  intros Hn Hd. unfold Float.round_half_even.
  pose proof (Z.div_pos num den Hn Hd).
  destruct (2 * (num mod den) ?= den)%Z; [destruct (Z.even _)|..]; lia.
Qed.

(** A finite value that [float] returns has a sign and a magnitude
    [m * 2^e] with [0 <= m]. *)
Lemma of_ratio_nonneg neg num den neg' m e :
  (0 <= num)%Z -> (0 < den)%Z ->
  Float.of_ratio neg num den = Float.Fin neg' m e -> neg' = neg /\ (0 <= m)%Z.
Proof.
  intros Hn Hd. unfold Float.of_ratio.
  destruct (num =? 0)%Z; [intros [= <- <- <-]; split; [reflexivity | lia]|].
  set (p := Z.max _ _).
  destruct (p <? 0)%Z eqn:Ep.
  - rewrite (proj2 (Z.leb_gt 0 p)) by (apply Z.ltb_lt, Ep). simpl andb. cbv iota.
    intros [= <- <- <-]. split; [reflexivity|].
    apply round_half_even_nonneg; [|exact Hd].
    apply Z.mul_nonneg_nonneg; [exact Hn | apply Z.pow_nonneg; lia].
  - apply Z.ltb_ge in Ep.
    match goal with
    | |- (if ?c then _ else _) = _ -> _ => destruct c; [discriminate|]
    end.
    intros [= <- <- <-]. split; [reflexivity|].
    apply round_half_even_nonneg; [exact Hn|].
    apply Z.mul_pos_pos; [exact Hd | apply Z.pow_pos_nonneg; lia].
Qed.

Lemma of_string_finite s neg m e :
  Float.of_string s = Some (Float.Fin neg m e) -> (0 <= m)%Z.
Proof.
  unfold Float.of_string.
  destruct (Float.strip_underscores (Str.strip s)) as [t|]; [|discriminate].
  destruct (Float.parse_sign t) as [sg body].
  destruct (String.eqb (Str.lower body) "inf" || String.eqb (Str.lower body) "infinity")%bool;
    [discriminate|].
  destruct (String.eqb (Str.lower body) "nan"); [discriminate|].
  destruct (Float.parse_decimal body) as [[n k]|] eqn:Ep; [|discriminate].
  intros [= H]. unfold Float.of_decimal in H.
  assert (Hn : (0 <= n)%Z).
  { unfold Float.parse_decimal in Ep.
    destruct (Str.span_digits body) as [ip s2].
    destruct (match s2 with String "." r => Str.span_digits r | _ => (EmptyString, s2) end)
      as [fp s3].
    destruct (negb (Str.truthy (ip ++ fp))); [discriminate|].
    destruct s3 as [|c r]; [injection Ep as <- _; lia|].
    destruct (Float.is_e c); [|discriminate].
    destruct (Float.parse_sign r) as [eneg s4]. destruct (Str.span_digits s4) as [ed s5].
    destruct (Str.truthy ed && negb (Str.truthy s5))%bool; [|discriminate].
    injection Ep as <- _. lia. }
  destruct (0 <=? k)%Z eqn:Ek.
  - apply of_ratio_nonneg in H as [_ H]; [exact H | | lia].
    apply Z.mul_nonneg_nonneg; [exact Hn | apply Z.pow_nonneg; lia].
  - apply Z.leb_gt in Ek.
    apply of_ratio_nonneg in H as [_ H]; [exact H | exact Hn |].
    apply Z.pow_pos_nonneg; lia.
Qed.

(** [.2f] writes the hundredths nearest to the value. *)
Lemma format_2f_nearest neg m e :
  (0 <= m)%Z ->
  exists h : Z,
    (0 <= h)%Z /\ nearest_hundredths m e h /\
    Float.format_2f (Float.Fin neg m e) = two_decimal_text neg h.
Proof.
  intros Hm. unfold Float.format_2f, nearest_hundredths, two_decimal_text.
  destruct (e <? 0)%Z eqn:Ee.
  - apply Z.ltb_lt in Ee. rewrite (proj2 (Z.leb_gt 0 e) Ee).
    assert (Hp : (0 < 2 ^ (- e))%Z) by (apply Z.pow_pos_nonneg; lia).
    exists (Float.round_half_even (m * 100) (2 ^ (- e))).
    split; [apply round_half_even_nonneg; lia|]. split; [|reflexivity].
    apply round_half_even_nearest, Hp.
  - apply Z.ltb_ge in Ee. rewrite (proj2 (Z.leb_le 0 e) Ee).
    exists (m * 100 * 2 ^ e)%Z. split; [|split; [ring | reflexivity]].
    apply Z.mul_nonneg_nonneg; [lia | apply Z.pow_nonneg; lia].
Qed.

(** C6, as the code has it.  [format_percentage] gives the empty string
    for a blank input; the upper-cased trimmed text when it holds an NA
    token; otherwise, with percent signs and white space removed: the empty
    string when nothing is left or the text nan is left, the upper-cased
    trimmed text when what is left is not a float literal, and when it is
    one that denotes a finite number, that number with exactly two
    decimals: its sign, the digits of the hundredths nearest to its
    magnitude (the even one of two equally near) with a point before the
    last two, and the percent sign.  A literal that denotes an infinity
    (also by overflow) gives inf% or -inf%.  98.5% gives 98.50%, 97
    between spaces gives 97.00%, the empty string gives itself and NA gives
    NA. *)
Theorem format_percentage_cases (value : string) :
  let value_str := Str.upper (Str.strip value) in
  let clean_value := Re.sub_percent_space value_str in
  let out := format_percentage value in
  (blank value = true -> out = "") /\
  (blank value = false -> has_na_token value_str = true -> out = value_str) /\
  (blank value = false -> has_na_token value_str = false ->
     (clean_value = "" \/ clean_value = "nan" -> out = "") /\
     (clean_value <> "" -> clean_value <> "nan" -> Float.of_string clean_value = None ->
      out = value_str) /\
     (forall neg m e, Float.of_string clean_value = Some (Float.Fin neg m e) ->
        exists h : Z,
          (0 <= h)%Z /\ nearest_hundredths m e h /\
          out = two_decimal_text neg h ++ "%" /\ two_decimals out) /\
     (forall neg, Float.of_string clean_value = Some (Float.Inf neg) ->
        out = Float.sign_text neg ++ "inf%")) /\
  (forall (neg : bool) (h : Z), (0 <= h)%Z ->
     exists ip fp,
       two_decimal_text neg h = Float.sign_text neg ++ ip ++ "." ++ fp /\
       Str.forallb Str.isdigit ip = true /\ all_digits 2 fp = true /\
       (Z.of_N (Str.int_of_digits ip) * 100 + Z.of_N (Str.int_of_digits fp) = h)%Z) /\
  List.map format_percentage ["98.5%"; "  97  "; ""; "NA"] = ["98.50%"; "97.00%"; ""; "NA"].
Proof.
  cbv zeta. unfold format_percentage.
  split; [intros ->; reflexivity|].
  split; [intros -> ->; reflexivity|].
  split; [|split; [|reflexivity]].
  - intros -> ->.
    set (clean_value := Re.sub_percent_space (Str.upper (Str.strip value))).
    split; [|split; [|split]].
    + intros [-> | ->]; reflexivity.
    + intros Hne Hnan Hf.
      destruct clean_value as [|c r]; [congruence|]. simpl Str.truthy.
      replace (String.eqb (String c r) "nan") with false
        by (symmetry; now apply String.eqb_neq).
      simpl andb. cbv iota. now rewrite Hf.
    + intros neg m e Hf.
      assert (Hne : Str.truthy clean_value = true).
      { destruct clean_value; [discriminate Hf | reflexivity]. }
      assert (Hnan : String.eqb clean_value "nan" = false).
      { destruct (String.eqb clean_value "nan") eqn:E; [|reflexivity].
        apply String.eqb_eq in E. rewrite E in Hf. discriminate Hf. }
      rewrite Hne, Hnan, Hf. simpl andb. cbv iota.
      destruct (format_2f_nearest neg m e (of_string_finite _ _ _ _ Hf)) as (h & Hh & Hn & ->).
      exists h. split; [exact Hh|]. split; [exact Hn|]. split; [reflexivity|].
      unfold two_decimal_text. exists (Float.sign_text neg), (Str.of_N (Z.to_N (h / 100))),
        (Str.zfill 2 (Z.to_N (h mod 100))).
      split; [now rewrite !append_assoc|].
      split; [destruct neg; auto|].
      split; [apply of_N_nonempty|]. split; [apply of_N_digits|].
      apply zfill2_digits. pose proof (Z.mod_pos_bound h 100 ltac:(lia)). lia.
    + intros neg Hf.
      assert (Hne : Str.truthy clean_value = true).
      { destruct clean_value; [discriminate Hf | reflexivity]. }
      assert (Hnan : String.eqb clean_value "nan" = false).
      { destruct (String.eqb clean_value "nan") eqn:E; [|reflexivity].
        apply String.eqb_eq in E. rewrite E in Hf. discriminate Hf. }
      rewrite Hne, Hnan, Hf. simpl andb. cbv iota.
      unfold Float.format_2f. now rewrite append_assoc.
  - intros neg h Hh. unfold two_decimal_text.
    exists (Str.of_N (Z.to_N (h / 100))), (Str.zfill 2 (Z.to_N (h mod 100))).
    pose proof (Z.mod_pos_bound h 100 ltac:(lia)) as Hmod.
    pose proof (Z.div_pos h 100 Hh ltac:(lia)) as Hdiv.
    split; [reflexivity|]. split; [apply of_N_digits|].
    split; [apply zfill2_digits; lia|].
    rewrite int_of_digits_of_N, int_of_digits_zfill, !Z2N.id by lia.
    pose proof (Z.div_mod h 100 ltac:(lia)). lia.
Qed.

(** C6 as the specification words it fails on the text inf: it is not
    blank, holds no NA token and parses as a float, and the result is inf%
    with no decimal point in it. *)
Lemma format_percentage_infinity :
  blank "inf" = false /\
  has_na_token (Str.upper (Str.strip "inf")) = false /\
  Float.of_string (Re.sub_percent_space (Str.upper (Str.strip "inf")))
    = Some (Float.Inf false) /\
  format_percentage "inf" = "inf%" /\
  Str.contains "." (format_percentage "inf") = false.
Proof. repeat split. Qed.

(** ** Loading *)

Lemma cache_fields_frame mappings σ :
  exists cache,
    cache_fields mappings σ = (mkstate (config σ) (df σ) cache (logged σ), Ok tt).
Proof.
  revert σ. induction mappings as [|[field names] rest IH]; intros σ.
  - exists (column_cache σ). now destruct σ.
  - simpl. unfold mbind, M_bind, get_df, set_cached. simpl.
    destruct (IH (mkstate (config σ) (df σ)
                   (<[field := fst (find_column_name (df σ) names field true)]>
                      (column_cache σ)) (logged σ))) as [cache Hc].
    exists cache. exact Hc.
Qed.

Lemma find_sheet_named sheets name :
  name ∈ sheet_names sheets ->
  exists parsed, List.find (fun s => String.eqb (fst s) name) sheets = Some (name, parsed).
Proof.
  induction sheets as [|[n p] rest IH]; simpl.
  - intros H. now apply elem_of_nil in H.
  - intros H. destruct (String.eqb n name) eqn:E.
    + apply String.eqb_eq in E as ->. eauto.
    + apply elem_of_cons in H as [->|H]; [now rewrite String.eqb_refl in E | auto].
Qed.

Lemma path_exists_lookup fs path : path_exists fs path = true <-> is_Some (fs !! path).
Proof. unfold path_exists. apply bool_decide_eq_true. Qed.

Ltac run_load :=
  unfold load_excel_data, load_excel_data_try, cache_column_mappings, read_excel,
    set_df, set_sheet_name, log_line, get_config, get_df, lift, raise;
  unfold mbind, mret, M_bind, M_ret, result_bind, result_ret, path_exists, ExcelFile;
  simpl.

Ltac run_cache :=
  match goal with
  | |- context [cache_fields ?l ?s] =>
      let cache := fresh "cache" in
      let Hc := fresh "Hc" in
      destruct (cache_fields_frame l s) as [cache Hc]; rewrite Hc; simpl
  end.

(** What [load_excel_data] returns: true exactly when the file is a
    workbook whose selected sheet parses. *)
Lemma load_excel_data_result fs σ :
  fst (load_excel_data fs σ) =
    match fs !! excel_file (config σ) with
    | Some (Workbook sheets) =>
        match selected_sheet sheets (sheet_name (config σ)) with
        | Some (_, Ok _) => true
        | _ => false
        end
    | _ => false
    end.
Proof.
  run_load. unfold selected_sheet.
  destruct (fs !! excel_file (config σ)) as [[e|sheets]|] eqn:Efs; simpl;
    [reflexivity| |reflexivity].
  destruct (bool_decide (sheet_name (config σ) ∈ sheet_names sheets)) eqn:Hin; simpl.
  - rewrite Efs. simpl. apply bool_decide_eq_true in Hin.
    destruct (find_sheet_named _ _ Hin) as [parsed ->].
    destruct parsed as [d|e]; simpl; [|reflexivity]. run_cache. reflexivity.
  - destruct sheets as [|[n0 p] rest]; simpl; [reflexivity|].
    rewrite Efs. simpl. rewrite String.eqb_refl.
    destruct p as [d|e]; simpl; [|reflexivity]. run_cache. reflexivity.
Qed.

Lemma selected_sheet_none sheets name : selected_sheet sheets name = None -> sheets = [].
Proof.
  unfold selected_sheet. destruct (bool_decide _) eqn:Hin.
  - apply bool_decide_eq_true in Hin. destruct (find_sheet_named _ _ Hin) as [p ->].
    discriminate.
  - destruct sheets; [reflexivity | discriminate].
Qed.

(** The state a load with fallback to the first sheet leaves. *)
Lemma load_excel_data_fallback fs σ first d rest :
  fs !! excel_file (config σ) = Some (Workbook ((first, Ok d) :: rest)) ->
  sheet_name (config σ) ∉ first :: sheet_names rest ->
  fst (load_excel_data fs σ) = true /\
  df (snd (load_excel_data fs σ)) = Some (mkdf (clean_column_names (columns d)) (rows d)) /\
  sheet_name (config (snd (load_excel_data fs σ))) = first /\
  logged (snd (load_excel_data fs σ)) =
    app (logged σ)
      [(WARNING, "Sheet '" ++ sheet_name (config σ) ++ "' not found. Using first sheet.");
       (INFO, "Loaded " ++ Str.of_N (N.of_nat (length (rows d))) ++ " records")].
Proof.
  intros Efs Hin. run_load. rewrite Efs. simpl.
  rewrite bool_decide_eq_false_2 by exact Hin. simpl.
  rewrite Efs. simpl. rewrite String.eqb_refl. simpl. run_cache.
  repeat split. now rewrite <- app_assoc.
Qed.

(** C9.  [load_excel_data] always returns, and it returns false only when
    the source is absent or unreadable: the path names no file, the file
    cannot be opened as a workbook, the workbook has no sheet, or the sheet
    to read does not parse.  When no sheet has the requested name and the
    first sheet parses, the load succeeds on the first sheet and logs a
    warning and no error. *)
Theorem load_excel_data_fails_only_unreadable (fs : gmap string file) (σ : state) :
  let path := excel_file (config σ) in
  let name := sheet_name (config σ) in
  (fst (load_excel_data fs σ) = false <->
     fs !! path = None
     \/ (exists e, fs !! path = Some (Unreadable e))
     \/ fs !! path = Some (Workbook [])
     \/ (exists sheets n e, fs !! path = Some (Workbook sheets) /\
                            selected_sheet sheets name = Some (n, Raise e)))
  /\ (forall first d rest,
        fs !! path = Some (Workbook ((first, Ok d) :: rest)) ->
        name ∉ first :: sheet_names rest ->
        fst (load_excel_data fs σ) = true /\
        df (snd (load_excel_data fs σ))
          = Some (mkdf (clean_column_names (columns d)) (rows d)) /\
        sheet_name (config (snd (load_excel_data fs σ))) = first /\
        logged (snd (load_excel_data fs σ)) =
          app (logged σ)
            [(WARNING, "Sheet '" ++ name ++ "' not found. Using first sheet.");
             (INFO, "Loaded " ++ Str.of_N (N.of_nat (length (rows d))) ++ " records")]).
Proof.
  cbv zeta. split; [|apply load_excel_data_fallback].
  rewrite load_excel_data_result.
  destruct (fs !! excel_file (config σ)) as [[e|sheets]|] eqn:Efs.
  - split; [intros _; right; left; eauto | reflexivity].
  - destruct (selected_sheet sheets (sheet_name (config σ))) as [[n [d|e]]|] eqn:Es.
    + split; [discriminate|].
      intros [H|[[e H]|[H|(sh & n' & e & H & Hs)]]]; try discriminate.
      * injection H as ->. discriminate.
      * injection H as <-. congruence.
    + split; [|reflexivity]. intros _. right. right. right. eauto.
    + apply selected_sheet_none in Es as ->. split; [|reflexivity]. auto.
  - split; [auto | reflexivity].
Qed.

Lemma load_excel_data_config fs σ :
  config (snd (load_excel_data fs σ)) =
    mkconfig (excel_file (config σ)) (template_file (config σ))
      (loaded_sheet_name fs (config σ)) (output_folder (config σ))
      (column_mappings (config σ)).
Proof.
  destruct σ as [[ef tf sn ofd cm] d0 cc lg].
  run_load. unfold loaded_sheet_name. simpl.
  destruct (fs !! ef) as [[e|sheets]|] eqn:Efs; simpl; try reflexivity.
  destruct sheets as [|[n0 p] rest]; simpl.
  - reflexivity.
  - destruct (bool_decide (sn ∈ n0 :: sheet_names rest)) eqn:Hin; simpl.
    + rewrite Efs. simpl. apply bool_decide_eq_true in Hin.
      destruct (find_sheet_named ((n0, p) :: rest) sn Hin) as [parsed Hf].
      simpl in Hf. rewrite Hf.
      destruct parsed as [d|e]; simpl; [|reflexivity]. run_cache. reflexivity.
    + rewrite Efs. simpl. rewrite String.eqb_refl.
      destruct p as [d|e]; simpl; [|reflexivity]. run_cache. reflexivity.
Qed.

Lemma loaded_sheet_name_idem fs c :
  loaded_sheet_name fs
    (mkconfig (excel_file c) (template_file c) (loaded_sheet_name fs c) (output_folder c)
       (column_mappings c))
  = loaded_sheet_name fs c.
Proof.
  unfold loaded_sheet_name. simpl.
  destruct (fs !! excel_file c) as [[e|[|[first p] rest]]|]; try reflexivity.
  destruct (bool_decide (sheet_name c ∈ first :: sheet_names rest)) eqn:Hin.
  - now rewrite Hin.
  - rewrite bool_decide_eq_true_2; [reflexivity | apply elem_of_cons; now left].
Qed.

(** C10.  [load_excel_data] leaves [excel_file], [template_file],
    [output_folder] and [column_mappings] of the configuration as they
    were.  It writes [sheet_name] only on the fallback: when the file is a
    workbook with a first sheet and no sheet has the requested name, the
    stored name becomes the name of the first sheet, and otherwise it
    stays.  The new name is what [to_dict] reads afterwards, and another
    load of the same files keeps it. *)
Theorem load_excel_data_overwrites_sheet_name (fs : gmap string file) (σ : state) :
  let σ' := snd (load_excel_data fs σ) in
  excel_file (config σ') = excel_file (config σ) /\
  template_file (config σ') = template_file (config σ) /\
  output_folder (config σ') = output_folder (config σ) /\
  column_mappings (config σ') = column_mappings (config σ) /\
  sheet_name (config σ') =
    match fs !! excel_file (config σ) with
    | Some (Workbook ((first, _) :: rest)) =>
        if bool_decide (sheet_name (config σ) ∈ first :: sheet_names rest)
        then sheet_name (config σ) else first
    | _ => sheet_name (config σ)
    end /\
  to_dict (config σ') =
    (excel_file (config σ), template_file (config σ), sheet_name (config σ'),
     output_folder (config σ), column_mappings (config σ)) /\
  config (snd (load_excel_data fs σ')) = config σ'.
Proof.
  cbv zeta. rewrite !load_excel_data_config. simpl.
  repeat split. now rewrite loaded_sheet_name_idem.
Qed.

(** A workbook whose only sheet is named Sheet1, asked for 5_Arc_List. *)
Example load_excel_data_fallback_example :
  let fs : gmap string file :=
    {[ "data/b.xlsx" := Workbook [("Sheet1", Ok (mkdf ["Product Name"] [[Some "Zinc"]]))] ]} in
  let σ := mkstate (WebConfig_init (Some "data/b.xlsx") None "5_Arc_List") None ∅ [] in
  fst (load_excel_data fs σ) = true /\
  sheet_name (config (snd (load_excel_data fs σ))) = "Sheet1" /\
  df (snd (load_excel_data fs σ)) = Some (mkdf ["product_name"] [[Some "Zinc"]]) /\
  column_cache (snd (load_excel_data fs σ)) !! "product" = Some (Some "product_name") /\
  logged (snd (load_excel_data fs σ)) =
    [(WARNING, "Sheet '5_Arc_List' not found. Using first sheet.");
     (INFO, "Loaded 1 records")].
Proof. cbv zeta. repeat split; vm_compute; reflexivity. Qed.

(** * Further properties *)

(** ** Rows, labels and the formatted values *)

Lemma positions_ge c cols k i : In i (positions c cols k) -> k <= i.
Proof.
  revert k. induction cols as [|h t IH]; simpl; intros k; [tauto|].
  destruct (String.eqb h c); simpl; [intros [<-|H]|intros H]; try lia;
    apply IH in H; lia.
Qed.

Lemma positions_absent c cols k : ~ In c cols -> positions c cols k = [].
Proof.
  revert k. induction cols as [|h t IH]; simpl; intros k H; [reflexivity|].
  destruct (String.eqb h c) eqn:E.
  - apply String.eqb_eq in E. tauto.
  - apply IH. tauto.
Qed.

(** A label that occurs once has one position. *)
Lemma positions_unique c cols k :
  List.NoDup cols -> In c cols -> exists i, positions c cols k = [i].
Proof.
  intros Hnd. revert k. induction Hnd as [|h t Hh Hnd IH]; simpl; intros k; [tauto|].
  destruct (String.eqb h c) eqn:E.
  - apply String.eqb_eq in E as ->. intros _. exists k.
    now rewrite positions_absent.
  - apply String.eqb_neq in E. intros [H|H]; [contradiction|]. now apply IH.
Qed.

Lemma strip_empty : Str.strip "" = "".
Proof. reflexivity. Qed.

Lemma get_formatted_value_unique cache cols batch field :
  List.NoDup cols ->
  exists v, get_formatted_value cache cols batch field = Ok v /\ Str.strip v = v.
Proof.
  intros Hnd. unfold get_formatted_value.
  destruct (cached_column cache field) as [c|]; [|exists ""; auto].
  destruct (has_column c cols) eqn:Hc; simpl; [|exists ""; auto].
  apply has_column_In in Hc. unfold row_getitem.
  destruct (positions_unique c cols 0 Hnd Hc) as [i ->]. simpl.
  destruct (at_ batch i) as [v|]; [|exists ""; auto].
  destruct (String.eqb v ""); [exists ""; auto|].
  exists (Str.strip v). split; [reflexivity | apply StrFacts.strip_idem].
Qed.

Lemma mapM_result_cons {A B} (f : A -> result B) x l :
  mapM f (x :: l) =
    match f x with
    | Ok y => match mapM f l with
              | Ok ys => Ok (y :: ys)
              | Raise e => Raise e
              end
    | Raise e => Raise e
    end.
Proof. reflexivity. Qed.

Lemma mapM_result_length {A B} (f : A -> result B) l l' :
  mapM f l = Ok l' -> length l' = length l.
Proof.
  revert l'. induction l as [|x l IH]; intros l'.
  - now intros [= <-].
  - rewrite mapM_result_cons. destruct (f x) as [y|e]; [|discriminate].
    destruct (mapM f l) as [ys|e]; [|discriminate].
    intros [= <-]. simpl. f_equal. now apply IH.
Qed.

Lemma mapM_result_total {A B} (f : A -> result B) l :
  (forall x, exists y, f x = Ok y) -> exists l', mapM f l = Ok l'.
Proof.
  intros Hf. induction l as [|x l [ys IH]]; [now exists []|].
  destruct (Hf x) as [y Hy]. rewrite mapM_result_cons, Hy, IH.
  now exists (y :: ys).
Qed.

Lemma process_batch_data_unique cache cols rws :
  List.NoDup cols -> exists l, process_batch_data cache cols rws = Ok l.
Proof.
  intros Hnd. unfold process_batch_data. apply mapM_result_total. intros batch.
  unfold mbind, result_bind.
  repeat match goal with
         | |- context [get_formatted_value cache cols batch ?f] =>
             let v := fresh "v" in
             let H := fresh "H" in
             destruct (get_formatted_value_unique cache cols batch f Hnd) as (v & H & _);
             rewrite H
         end.
  eauto.
Qed.

Lemma select_rows_map (g : list cell -> bool) rs :
  select_rows rs (List.map g rs) = List.filter g rs.
Proof. induction rs as [|r rs IH]; simpl; [reflexivity|]. destruct (g r); now rewrite IH. Qed.

Lemma getitem_one d c vals :
  getitem d c = Ok (One vals) ->
  exists i, positions c (columns d) 0 = [i] /\ vals = List.map (fun r => at_ r i) (rows d).
Proof.
  unfold getitem. destruct (positions c (columns d) 0) as [|i [|j l]]; try discriminate.
  intros [= <-]. eauto.
Qed.

Lemma mapM_result_Forall2 {A B} (f : A -> result B) l l' :
  mapM f l = Ok l' -> Forall2 (fun x y => f x = Ok y) l l'.
Proof.
  revert l'. induction l as [|x l IH]; intros l'.
  - intros [= <-]. constructor.
  - rewrite mapM_result_cons. destruct (f x) as [y|e] eqn:Hy; [|discriminate].
    destruct (mapM f l) as [ys|e]; [|discriminate].
    intros [= <-]. constructor; auto.
Qed.

Lemma get_formatted_value_trimmed cache cols batch field v :
  get_formatted_value cache cols batch field = Ok v -> Str.strip v = v.
Proof.
  unfold get_formatted_value.
  destruct (cached_column cache field) as [c|]; [|now intros [= <-]].
  destruct (has_column c cols); simpl; [|now intros [= <-]].
  destruct (row_getitem cols batch c) as [[[x|]|]|e]; simpl; try discriminate.
  - destruct (String.eqb x ""); intros [= <-]; [reflexivity | apply StrFacts.strip_idem].
  - now intros [= <-].
Qed.

(** X1.  On a frame whose labels are pairwise distinct,
    [process_batch_data] does not raise: it returns one record for each
    row, in the order of the rows.  Whenever it returns, the batch number,
    the location and the remarks of every record are trimmed. *)
Theorem process_batch_data_unique_labels
    (cache : gmap string (option string)) (cols : list string) (rws : list (list cell)) :
  List.NoDup cols ->
  exists l,
    process_batch_data cache cols rws = Ok l /\ length l = length rws /\
    Forall (fun b => Str.strip (batch_no b) = batch_no b /\
                     Str.strip (location_rack_shelf b) = location_rack_shelf b /\
                     Str.strip (remarks b) = remarks b) l.
Proof.
  intros Hnd. destruct (process_batch_data_unique cache cols rws Hnd) as [l Hl].
  exists l. split; [exact Hl|]. split; [now apply mapM_result_length in Hl|].
  apply mapM_result_Forall2 in Hl.
  induction Hl as [|batch b rs bs Hb _ IH]; constructor; [|exact IH].
  unfold mbind, result_bind in Hb.
  repeat match type of Hb with
         | context [get_formatted_value cache cols batch ?f] =>
             let v := fresh "v" in
             let H := fresh "H" in
             destruct (get_formatted_value cache cols batch f) as [v|] eqn:H;
             [apply get_formatted_value_trimmed in H | discriminate Hb]
         end.
  injection Hb as <-. simpl. auto.
Qed.

Lemma process_batch_data_unique_labels_witness :
  List.NoDup (columns sample_frame) /\
  exists l,
    process_batch_data sample_cache (columns sample_frame) (rows sample_frame) = Ok l /\
    length l = length (rows sample_frame) /\
    Forall (fun b => Str.strip (batch_no b) = batch_no b /\
                     Str.strip (location_rack_shelf b) = location_rack_shelf b /\
                     Str.strip (remarks b) = remarks b) l.
Proof.
  assert (Hnd : List.NoDup (columns sample_frame)).
  { repeat constructor; simpl; intuition discriminate. }
  exact (conj Hnd (process_batch_data_unique_labels sample_cache (columns sample_frame)
                     (rows sample_frame) Hnd)).
Defined.

(** ** Batch lookup *)

Lemma product_cells_getitem d cache vals :
  product_cells d cache = Some vals ->
  exists pc, cached_column cache "product" = Some pc /\ getitem d pc = Ok (One vals).
Proof.
  unfold product_cells. destruct (cached_column cache "product") as [pc|]; [|discriminate].
  destruct (getitem d pc) as [[v|]|e] eqn:E; try discriminate. intros [= <-].
  exists pc. split; [reflexivity | exact E].
Qed.

Lemma sort_batches_length l : length (fst (sort_batches l)) = length l.
Proof. apply Permutation_length, sort_batches_perm. Qed.

Lemma search_product_batches_result
    (d : DataFrame) (cache : gmap string (option string)) (vals : list cell)
    (product_name : string) :
  empty d = false ->
  List.NoDup (columns d) ->
  product_cells d cache = Some vals ->
  match fst (search_product_batches (Some d) cache product_name) with
  | Some batches =>
      batches <> [] /\
      length batches = length (List.filter (product_matches product_name) vals)
  | None => List.filter (product_matches product_name) vals = []
  end.
Proof.
  intros Hne Hnd Hv. apply product_cells_getitem in Hv as (pc & Hpc & Hg).
  unfold search_product_batches, search_product_batches_try. rewrite Hne, Hpc, Hg. simpl.
  apply getitem_one in Hg as (i & _ & ->).
  rewrite List.map_map, select_rows_map.
  assert (Hf : forall g (rs : list (list cell)),
             List.filter g (List.map (fun r => at_ r i) rs)
             = List.map (fun r => at_ r i) (List.filter (fun r => g (at_ r i)) rs)).
  { intros g rs. induction rs as [|r rs IH]; simpl; [reflexivity|].
    destruct (g (at_ r i)); simpl; now rewrite IH. }
  rewrite Hf.
  destruct (List.filter _ (rows d)) as [|r rs] eqn:E; [reflexivity|].
  destruct (process_batch_data_unique cache (columns d) (r :: rs) Hnd) as [l Hl].
  rewrite Hl. pose proof (mapM_result_length _ _ _ Hl) as Hlen.
  pose proof (sort_batches_length l) as Hsl.
  cbn [mbind result_bind]. destruct (sort_batches l) as [sorted lg]. cbn [fst] in *.
  rewrite List.length_map, Hsl. split; [|exact Hlen].
  intros ->. simpl in *. lia.
Qed.

(** X2.  On a frame with rows and pairwise distinct labels whose product
    column is resolved, [search_product_batches] returns nothing exactly
    when no product cell matches the query; otherwise it returns a list
    that is not empty and has one record for each matching cell. *)
Theorem search_product_batches_count
    (d : DataFrame) (cache : gmap string (option string)) (vals : list cell)
    (product_name : string) :
  empty d = false ->
  List.NoDup (columns d) ->
  product_cells d cache = Some vals ->
  match fst (search_product_batches (Some d) cache product_name) with
  | Some batches =>
      batches <> [] /\
      length batches = length (List.filter (product_matches product_name) vals)
  | None => List.filter (product_matches product_name) vals = []
  end.
Proof. apply search_product_batches_result. Qed.

Lemma search_product_batches_count_witness :
  empty sample_frame = false /\
  List.NoDup (columns sample_frame) /\
  product_cells sample_frame sample_cache
    = Some [Some "Aspirin"; Some "Zinc"; Some "aspirin"; None; Some "Zinc"] /\
  match fst (search_product_batches (Some sample_frame) sample_cache "ZINC") with
  | Some batches =>
      batches <> [] /\
      length batches =
        length (List.filter (product_matches "ZINC")
                  [Some "Aspirin"; Some "Zinc"; Some "aspirin"; None; Some "Zinc"])
  | None =>
      List.filter (product_matches "ZINC")
        [Some "Aspirin"; Some "Zinc"; Some "aspirin"; None; Some "Zinc"] = []
  end.
Proof.
  assert (Hne : empty sample_frame = false) by reflexivity.
  assert (Hnd : List.NoDup (columns sample_frame)).
  { repeat constructor; simpl; intuition discriminate. }
  assert (Hv : product_cells sample_frame sample_cache
               = Some [Some "Aspirin"; Some "Zinc"; Some "aspirin"; None; Some "Zinc"])
    by (vm_compute; reflexivity).
  exact (conj Hne (conj Hnd (conj Hv
    (search_product_batches_count sample_frame sample_cache _ "ZINC" Hne Hnd Hv)))).
Defined.

(** X3.  The lookup is case-insensitive in the query: two queries with the
    same lower-case form give the same batches and the same log lines, on
    every frame and cache. *)
Theorem search_product_batches_query_case
    (df : option DataFrame) (cache : gmap string (option string)) (q1 q2 : string) :
  Str.lower q1 = Str.lower q2 ->
  search_product_batches df cache q1 = search_product_batches df cache q2.
Proof.
  intros Hq. unfold search_product_batches, search_product_batches_try.
  destruct df as [d|]; [|reflexivity]. destruct (empty d); [reflexivity|].
  destruct (cached_column cache "product") as [pc|]; [|reflexivity].
  destruct (getitem d pc) as [[vals|]|e]; simpl; try reflexivity.
  replace (List.map (product_matches q1) vals) with (List.map (product_matches q2) vals);
    [reflexivity|].
  apply List.map_ext. intros v. unfold product_matches. now rewrite Hq.
Qed.

Lemma search_product_batches_query_case_witness :
  Str.lower "ASPIRIN" = Str.lower "aSpIrIn" /\
  search_product_batches (Some sample_frame) sample_cache "ASPIRIN"
  = search_product_batches (Some sample_frame) sample_cache "aSpIrIn".
Proof.
  assert (Hq : Str.lower "ASPIRIN" = Str.lower "aSpIrIn") by reflexivity.
  exact (conj Hq (search_product_batches_query_case (Some sample_frame) sample_cache _ _ Hq)).
Defined.

(** ** Product listing *)

Lemma unique_step_mem acc v x :
  unique_inv acc ->
  (In x (snd (unique_step acc v)) <-> In x (snd acc) \/ (x <> "" /\ Str.strip v = x)).
Proof.
  destruct acc as [seen result]. intros (_ & Hseen & _). unfold unique_step. simpl in *.
  destruct (Str.truthy (Str.strip v)) eqn:Ht; simpl.
  - apply truthy_nonempty in Ht.
    destruct (bool_decide (Str.strip v ∈ seen)) eqn:Hd; simpl.
    + apply bool_decide_eq_true in Hd. apply Hseen in Hd.
      split; [auto|]. intros [H|[_ <-]]; auto.
    + rewrite in_app_iff. simpl. split.
      * intros [H|[<-|[]]]; auto.
      * intros [H|[_ <-]]; auto.
  - split; [auto|]. intros [H|[Hx <-]]; [exact H|].
    destruct (Str.strip v); [contradiction | discriminate].
Qed.

Lemma unique_fold_mem l acc x :
  unique_inv acc ->
  (In x (snd (fold_left unique_step l acc)) <->
   In x (snd acc) \/ (x <> "" /\ exists v, In v l /\ Str.strip v = x)).
Proof.
  revert acc. induction l as [|v l IH]; intros acc Hinv; simpl.
  - split; [auto|]. intros [H|(_ & v & [] & _)]. exact H.
  - rewrite (IH _ (unique_step_inv acc v Hinv)), (unique_step_mem acc v x Hinv).
    split.
    + intros [[H|[Hx Hv]]|(Hx & w & Hw & Hs)]; eauto 8.
    + intros [H|(Hx & w & [<-|Hw] & Hs)]; eauto 8.
Qed.

Lemma dropna_In v vals : In v (dropna vals) <-> In (Some v) vals.
Proof.
  unfold dropna. induction vals as [|[w|] vals IH]; simpl; [tauto| |].
  - rewrite IH. split; intros [H|H]; auto; [left; congruence | left; congruence].
  - rewrite IH. split; [auto|]. intros [H|H]; [discriminate | exact H].
Qed.

Lemma get_unique_products_In d cache vals x :
  empty d = false ->
  product_cells d cache = Some vals ->
  (In x (fst (get_unique_products (Some d) cache)) <->
   x <> "" /\ exists v, In (Some v) vals /\ Str.strip v = x).
Proof.
  intros Hne Hv. apply product_cells_getitem in Hv as (pc & Hpc & Hg).
  unfold get_unique_products, get_unique_products_try. rewrite Hne, Hpc, Hg. simpl.
  set (ups := List.filter _ (dropna vals)).
  pose proof (unique_fold_mem ups (∅, []) x unique_inv_init) as Hm.
  destruct (fold_left unique_step ups (∅, [])) as [seen result]. simpl in *.
  assert (Hp : In x (stable_sort String.leb result) <-> In x result).
  { split; apply Permutation_in; [|symmetry]; apply stable_sort_perm. }
  rewrite Hp, Hm. split.
  - intros [[]|(Hx & v & Hin & Hs)]. split; [exact Hx|]. exists v.
    apply filter_In in Hin as [Hin _]. apply dropna_In in Hin. auto.
  - intros (Hx & v & Hin & Hs). right. split; [exact Hx|]. exists v.
    split; [|exact Hs]. apply filter_In. split; [now apply dropna_In|].
    rewrite Hs. apply negb_true_iff. now apply String.eqb_neq.
Qed.

(** X4.  On a frame with rows whose product column is resolved,
    [get_unique_products] lists exactly the trimmed, non-empty texts of the
    product cells: a string is in the list if and only if it is not empty
    and is the trimmed text of some cell of the column. *)
Theorem get_unique_products_members
    (d : DataFrame) (cache : gmap string (option string)) (vals : list cell) (x : string) :
  empty d = false ->
  product_cells d cache = Some vals ->
  (In x (fst (get_unique_products (Some d) cache)) <->
   x <> "" /\ exists v, In (Some v) vals /\ Str.strip v = x).
Proof. apply get_unique_products_In. Qed.

Lemma get_unique_products_members_witness :
  empty sample_frame = false /\
  product_cells sample_frame sample_cache
    = Some [Some "Aspirin"; Some "Zinc"; Some "aspirin"; None; Some "Zinc"] /\
  (In "Zinc" (fst (get_unique_products (Some sample_frame) sample_cache)) <->
   "Zinc" <> "" /\
   exists v, In (Some v) [Some "Aspirin"; Some "Zinc"; Some "aspirin"; None; Some "Zinc"] /\
             Str.strip v = "Zinc").
Proof.
  assert (Hne : empty sample_frame = false) by reflexivity.
  assert (Hv : product_cells sample_frame sample_cache
               = Some [Some "Aspirin"; Some "Zinc"; Some "aspirin"; None; Some "Zinc"])
    by (vm_compute; reflexivity).
  exact (conj Hne (conj Hv
    (get_unique_products_members sample_frame sample_cache _ "Zinc" Hne Hv))).
Defined.

(** X5.  When the labels of the frame are pairwise distinct and every
    product cell is stored trimmed, the listing and the lookup agree: each
    product that [get_unique_products] lists is found by
    [search_product_batches], with at least one batch. *)
Theorem listed_products_are_found
    (d : DataFrame) (cache : gmap string (option string)) (vals : list cell) (x : string) :
  empty d = false ->
  List.NoDup (columns d) ->
  product_cells d cache = Some vals ->
  Forall (fun c => forall v, c = Some v -> Str.strip v = v) vals ->
  In x (fst (get_unique_products (Some d) cache)) ->
  exists batches,
    fst (search_product_batches (Some d) cache x) = Some batches /\ batches <> [].
Proof.
  intros Hne Hnd Hv Htrim Hx.
  apply (get_unique_products_In d cache vals x Hne Hv) in Hx as (_ & v & Hin & Hs).
  rewrite List.Forall_forall in Htrim. rewrite (Htrim _ Hin v eq_refl) in Hs. subst v.
  pose proof (search_product_batches_result d cache vals x Hne Hnd Hv) as H.
  destruct (fst (search_product_batches (Some d) cache x)) as [l|].
  - exists l. split; [reflexivity | apply H].
  - exfalso. assert (Hf : In (Some x) (List.filter (product_matches x) vals)).
    { apply filter_In. split; [exact Hin|]. apply product_matches_spec. reflexivity. }
    rewrite H in Hf. exact Hf.
Qed.

Lemma listed_products_are_found_witness :
  empty sample_frame = false /\
  List.NoDup (columns sample_frame) /\
  product_cells sample_frame sample_cache
    = Some [Some "Aspirin"; Some "Zinc"; Some "aspirin"; None; Some "Zinc"] /\
  Forall (fun c => forall v, c = Some v -> Str.strip v = v)
    [Some "Aspirin"; Some "Zinc"; Some "aspirin"; None; Some "Zinc"] /\
  In "Zinc" (fst (get_unique_products (Some sample_frame) sample_cache)) /\
  exists batches,
    fst (search_product_batches (Some sample_frame) sample_cache "Zinc") = Some batches /\
    batches <> [].
Proof.
  assert (Hne : empty sample_frame = false) by reflexivity.
  assert (Hnd : List.NoDup (columns sample_frame)).
  { repeat constructor; simpl; intuition discriminate. }
  assert (Hv : product_cells sample_frame sample_cache
               = Some [Some "Aspirin"; Some "Zinc"; Some "aspirin"; None; Some "Zinc"])
    by (vm_compute; reflexivity).
  assert (Ht : Forall (fun c => forall v, c = Some v -> Str.strip v = v)
                 [Some "Aspirin"; Some "Zinc"; Some "aspirin"; None; Some "Zinc"]).
  { repeat constructor; intros v [= <-]; reflexivity. }
  assert (Hx : In "Zinc" (fst (get_unique_products (Some sample_frame) sample_cache))).
  { vm_compute. auto. }
  exact (conj Hne (conj Hnd (conj Hv (conj Ht (conj Hx
    (listed_products_are_found sample_frame sample_cache _ "Zinc" Hne Hnd Hv Ht Hx)))))).
Defined.

(** ** Cleaned headers and column resolution *)

Lemma clean_char_header_char c : clean_char c = true -> header_char c = true.
Proof. each_char c. Qed.

Lemma startswith_forallb q p s :
  Str.startswith p s = true -> Str.forallb q s = true -> Str.forallb q p = true.
Proof.
  revert s. induction p as [|a p IH]; intros s; [reflexivity|].
  destruct s as [|b s]; simpl; [discriminate|].
  intros [->%Ascii.eqb_eq Hp]%andb_prop [Hb Hs]%andb_prop.
  rewrite Hb. simpl. eauto.
Qed.

(** Every character of a substring is a character of the string. *)
Lemma contains_forallb q p s :
  Str.contains p s = true -> Str.forallb q s = true -> Str.forallb q p = true.
Proof.
  induction s as [|b s IH]; simpl.
  - rewrite orb_false_r. intros H _. destruct p; [reflexivity | discriminate].
  - intros [H|H]%orb_prop Hq.
    + eapply startswith_forallb; [exact H | exact Hq].
    + apply andb_prop in Hq as [_ Hq]. auto.
Qed.

Lemma no_double_underscore s : Str.contains "__" (Re.sub_underscores s) = false.
Proof.
  induction s as [|c r IH]; [reflexivity|].
  rewrite StrFacts.sub_underscores_cons. destruct r as [|c' r']; [simpl; now rewrite andb_false_r|].
  destruct (Ascii.eqb c "_" && Ascii.eqb c' "_")%bool eqn:E; [exact IH|].
  pose proof (StrFacts.head_sub_underscores (String c' r')) as Hh.
  destruct (Re.sub_underscores (String c' r')) as [|a b] eqn:Hs; [discriminate|].
  simpl in Hh. injection Hh as ->.
  change (Str.contains "__" (String c (String c' b)))
    with ((Ascii.eqb "_" c && (Ascii.eqb "_" c' && true)
           || Str.contains "__" (String c' b))%bool).
  rewrite IH, orb_false_r, andb_true_r, (Ascii.eqb_sym "_" c), (Ascii.eqb_sym "_" c').
  exact E.
Qed.

(** X6.  On ASCII text, a cleaned header holds only lower-case letters,
    digits, underscores and white space other than the space; it has no
    two underscores in a row and no white space at either end; and
    [clean_column_names] returns as many labels as it is given. *)
Theorem clean_column_names_alphabet (cols : list string) :
  Forall (fun col => Str.forallb isascii col = true) cols ->
  Forall (fun col => Str.forallb header_char col = true /\
                     Str.contains "__" col = false /\
                     Str.strip col = col)
         (clean_column_names cols) /\
  length (clean_column_names cols) = length cols.
Proof.
  intros _. split; [|apply List.length_map].
  unfold clean_column_names. apply List.Forall_map, List.Forall_forall. intros col _.
  split; [|split].
  - eapply StrFacts.forallb_impl; [apply clean_char_header_char|].
    apply clean_column_name_chars.
  - apply no_double_underscore.
  - apply StrFacts.strip_fixed; apply clean_column_name_ends.
Qed.

Lemma clean_column_names_alphabet_witness :
  Forall (fun col => Str.forallb isascii col = true)
         ["Product Name"; " Batch  No. "; "Total_Batch__Yield (%)"] /\
  clean_column_names ["Product Name"; " Batch  No. "; "Total_Batch__Yield (%)"]
    = ["product_name"; "batch_no"; "total_batch_yield"] /\
  Forall (fun col => Str.forallb header_char col = true /\
                     Str.contains "__" col = false /\
                     Str.strip col = col)
         (clean_column_names ["Product Name"; " Batch  No. "; "Total_Batch__Yield (%)"]).
Proof.
  assert (H : Forall (fun col => Str.forallb isascii col = true)
                ["Product Name"; " Batch  No. "; "Total_Batch__Yield (%)"])
    by (repeat constructor).
  exact (conj H (conj eq_refl (proj1 (clean_column_names_alphabet _ H)))).
Defined.

Lemma find_column_name_label df names description silent c :
  fst (find_column_name df names description silent) = Some c ->
  exists d, df = Some d /\ empty d = false /\ In c (columns d).
Proof.
  unfold find_column_name. destruct df as [d|]; [|discriminate].
  destruct (empty d) eqn:Hne; [discriminate|].
  destruct (first_exact (columns d) names) as [name|] eqn:E1.
  - simpl. intros [= <-]. apply first_exact_some in E1 as (pre & post & _ & Hin & _).
    exists d. auto.
  - destruct (first_partial (columns d) names) as [[col name]|] eqn:E2; [|discriminate].
    simpl. intros [= <-]. apply first_partial_some in E2 as (pre & post & Hc & _).
    exists d. split; [reflexivity|]. split; [exact Hne|].
    rewrite Hc. apply in_or_app. right. now left.
Qed.

(** X7.  Whatever [find_column_name] returns is a column label of the
    frame it was given, and that frame has rows: resolution never makes up
    a name, also when it matches a candidate only as a substring. *)
Theorem find_column_name_returns_label
    (df : option DataFrame) (names : list string) (description : string) (silent : bool)
    (c : string) :
  fst (find_column_name df names description silent) = Some c ->
  exists d, df = Some d /\ empty d = false /\ In c (columns d).
Proof. apply find_column_name_label. Qed.

Lemma find_column_name_returns_label_witness :
  fst (find_column_name (Some sample_frame) ["product"; "name"] "product" false)
    = Some "product_name" /\
  exists d, Some sample_frame = Some d /\ empty d = false /\ In "product_name" (columns d).
Proof.
  assert (H : fst (find_column_name (Some sample_frame) ["product"; "name"] "product" false)
              = Some "product_name") by reflexivity.
  exact (conj H (find_column_name_returns_label _ _ _ _ _ H)).
Defined.

Lemma word_space_lower c :
  (Str.isword (Str.lower_char c) || Str.isspace (Str.lower_char c))%bool
  = (Str.isword c || Str.isspace c)%bool.
Proof. now rewrite StrFacts.lower_char_word, StrFacts.lower_char_space. Qed.

Lemma cleaned_label_word_space cols col :
  In col (clean_column_names cols) ->
  Str.forallb (fun c => (Str.isword c || Str.isspace c)%bool) col = true.
Proof.
  unfold clean_column_names. intros (c0 & <- & _)%in_map_iff.
  eapply StrFacts.forallb_impl; [|apply clean_column_name_chars].
  intros c. unfold clean_char. now intros [[H _]%andb_prop _]%andb_prop.
Qed.

Lemma first_exact_skip cols pre name post :
  has_column name cols = false ->
  first_exact cols (pre ++ name :: post)%list = first_exact cols (pre ++ post)%list.
Proof.
  intros H. induction pre as [|n pre IH]; simpl; [now rewrite H|].
  now destruct (has_column n cols).
Qed.

Lemma first_contained_skip col_lower pre name post :
  Str.contains (Str.lower name) col_lower = false ->
  first_contained col_lower (pre ++ name :: post)%list
  = first_contained col_lower (pre ++ post)%list.
Proof.
  intros H. induction pre as [|n pre IH]; simpl; [now rewrite H|].
  now destruct (Str.contains (Str.lower n) col_lower).
Qed.

Lemma first_partial_skip cols pre name post :
  Forall (fun col => Str.contains (Str.lower name) (Str.lower col) = false) cols ->
  first_partial cols (pre ++ name :: post)%list = first_partial cols (pre ++ post)%list.
Proof.
  induction 1 as [|col cols Hc _ IH]; simpl; [reflexivity|].
  rewrite (first_contained_skip _ _ _ _ Hc), IH. reflexivity.
Qed.

(** X8.  On ASCII text: on a frame as [load_excel_data] stores it, with
    the cleaned labels of ASCII headers, an ASCII candidate name that holds
    a character other than a word character or white space (a dot or a
    percent sign, say) never matches, neither exactly nor as a substring:
    resolution gives the same column with the candidate as without it. *)
Theorem find_column_name_dead_candidate
    (cols : list string) (rws : list (list cell)) (pre post : list string)
    (name description : string) (silent : bool) :
  Forall (fun col => Str.forallb isascii col = true) cols ->
  Forall (fun candidate => Str.forallb isascii candidate = true)
         (pre ++ name :: post)%list ->
  Str.forallb (fun c => (Str.isword c || Str.isspace c)%bool) name = false ->
  fst (find_column_name (Some (mkdf (clean_column_names cols) rws))
         (pre ++ name :: post)%list description silent)
  = fst (find_column_name (Some (mkdf (clean_column_names cols) rws))
           (pre ++ post)%list description silent).
Proof.
  intros _ _ Hbad. unfold find_column_name. simpl columns.
  destruct (empty _); [reflexivity|].
  assert (Hex : has_column name (clean_column_names cols) = false).
  { destruct (has_column name (clean_column_names cols)) eqn:E; [|reflexivity].
    apply has_column_In, cleaned_label_word_space in E. congruence. }
  assert (Hpart : Forall (fun col => Str.contains (Str.lower name) (Str.lower col) = false)
                    (clean_column_names cols)).
  { apply List.Forall_forall. intros col Hcol.
    destruct (Str.contains (Str.lower name) (Str.lower col)) eqn:E; [|reflexivity].
    apply (contains_forallb (fun c => (Str.isword c || Str.isspace c)%bool)) in E.
    - unfold Str.lower in E. rewrite StrFacts.forallb_map in E.
      erewrite (StrFacts.forallb_impl _ _ name) in Hbad; [discriminate| |exact E].
      intros c Hc. now rewrite <- word_space_lower.
    - unfold Str.lower. rewrite StrFacts.forallb_map.
      eapply StrFacts.forallb_impl; [|apply (cleaned_label_word_space cols col Hcol)].
      intros c Hc. now rewrite word_space_lower. }
  rewrite (first_exact_skip _ _ _ _ Hex), (first_partial_skip _ _ _ _ Hpart).
  destruct (first_exact _ _); [reflexivity|].
  destruct (first_partial _ _) as [[col n]|]; reflexivity.
Qed.

Lemma find_column_name_dead_candidate_witness :
  Forall (fun col => Str.forallb isascii col = true) ["Product"; "Batch No."] /\
  Forall (fun candidate => Str.forallb isascii candidate = true)
         (["batch_number"] ++ "batch_no." :: ["batch"])%list /\
  Str.forallb (fun c => (Str.isword c || Str.isspace c)%bool) "batch_no." = false /\
  fst (find_column_name (Some (mkdf (clean_column_names ["Product"; "Batch No."]) [[]]))
         (["batch_number"] ++ "batch_no." :: ["batch"])%list "batch_no" true)
  = fst (find_column_name (Some (mkdf (clean_column_names ["Product"; "Batch No."]) [[]]))
           (["batch_number"] ++ ["batch"])%list "batch_no" true).
Proof.
  assert (Hc : Forall (fun col => Str.forallb isascii col = true) ["Product"; "Batch No."])
    by (repeat constructor).
  assert (Hn : Forall (fun candidate => Str.forallb isascii candidate = true)
                 (["batch_number"] ++ "batch_no." :: ["batch"])%list)
    by (repeat constructor).
  assert (H : Str.forallb (fun c => (Str.isword c || Str.isspace c)%bool) "batch_no." = false)
    by reflexivity.
  exact (conj Hc (conj Hn (conj H
    (find_column_name_dead_candidate ["Product"; "Batch No."] [[]]
       ["batch_number"] ["batch"] "batch_no." "batch_no" true Hc Hn H)))).
Defined.

(** ** Loading *)

Lemma cache_fields_eq mappings σ :
  cache_fields mappings σ =
    (mkstate (config σ) (df σ) (cache_after (df σ) mappings (column_cache σ)) (logged σ),
     Ok tt).
Proof.
  revert σ. induction mappings as [|[field names] rest IH]; intros σ.
  - now destruct σ.
  - simpl. unfold mbind, M_bind, get_df, set_cached. simpl. now rewrite IH.
Qed.

Ltac run_cache_eq :=
  match goal with
  | |- context [cache_fields ?l ?s] => rewrite (cache_fields_eq l s); simpl
  end.

(** The frame and the cache after a load. *)
Lemma load_excel_data_data fs σ :
  (df (snd (load_excel_data fs σ)), column_cache (snd (load_excel_data fs σ))) =
    match fs !! excel_file (config σ) with
    | Some (Workbook sheets) =>
        match selected_sheet sheets (sheet_name (config σ)) with
        | Some (_, Ok d) =>
            (Some (cleaned_frame d),
             cache_after (Some (cleaned_frame d)) (column_mappings (config σ))
               (column_cache σ))
        | _ => (df σ, column_cache σ)
        end
    | _ => (df σ, column_cache σ)
    end.
Proof.
  run_load. unfold selected_sheet, cleaned_frame.
  destruct (fs !! excel_file (config σ)) as [[e|sheets]|] eqn:Efs; simpl;
    [reflexivity| |reflexivity].
  destruct (bool_decide (sheet_name (config σ) ∈ sheet_names sheets)) eqn:Hin; simpl.
  - rewrite Efs. simpl. apply bool_decide_eq_true in Hin.
    destruct (find_sheet_named _ _ Hin) as [parsed ->].
    destruct parsed as [d|e]; simpl; [|reflexivity]. run_cache_eq. reflexivity.
  - destruct sheets as [|[n0 p] rest]; simpl; [reflexivity|].
    rewrite Efs. simpl. rewrite String.eqb_refl.
    destruct p as [d|e]; simpl; [|reflexivity]. run_cache_eq. reflexivity.
Qed.

(** X9.  A load that fails leaves the instance with the frame and the
    column cache it had: the data of an earlier load stays in use. *)
Theorem load_excel_data_failure_keeps_data (fs : gmap string file) (σ : state) :
  fst (load_excel_data fs σ) = false ->
  df (snd (load_excel_data fs σ)) = df σ /\
  column_cache (snd (load_excel_data fs σ)) = column_cache σ.
Proof.
  rewrite load_excel_data_result. intros H.
  pose proof (load_excel_data_data fs σ) as Hd.
  destruct (fs !! excel_file (config σ)) as [[e|sheets]|]; try (now injection Hd).
  destruct (selected_sheet sheets (sheet_name (config σ))) as [[n [d|e]]|];
    try discriminate; now injection Hd.
Qed.

Lemma load_excel_data_failure_keeps_data_witness :
  fst (load_excel_data sample_fs
         (mkstate (WebConfig_init (Some "data/a.xlsx") None "Broken")
            (Some sample_frame) sample_cache [])) = false /\
  df (snd (load_excel_data sample_fs
             (mkstate (WebConfig_init (Some "data/a.xlsx") None "Broken")
                (Some sample_frame) sample_cache []))) = Some sample_frame /\
  column_cache (snd (load_excel_data sample_fs
                       (mkstate (WebConfig_init (Some "data/a.xlsx") None "Broken")
                          (Some sample_frame) sample_cache []))) = sample_cache.
Proof.
  assert (H : fst (load_excel_data sample_fs
                (mkstate (WebConfig_init (Some "data/a.xlsx") None "Broken")
                   (Some sample_frame) sample_cache [])) = false)
    by (vm_compute; reflexivity).
  exact (conj H (load_excel_data_failure_keeps_data sample_fs _ H)).
Defined.

Lemma cache_after_cons d field names rest m :
  cache_after d ((field, names) :: rest) m
  = cache_after d rest (<[field := fst (find_column_name d names field true)]> m).
Proof. reflexivity. Qed.

Lemma cache_after_other d l m k :
  ~ In k (List.map fst l) -> cache_after d l m !! k = m !! k.
Proof.
  revert m. induction l as [|[f ns] l IH]; intros m Hk; [reflexivity|].
  rewrite cache_after_cons, IH; [|simpl in Hk; tauto].
  apply lookup_insert_ne. simpl in Hk. tauto.
Qed.

Lemma cache_after_entry d l m k v :
  cache_after d l m !! k = Some v ->
  m !! k = Some v \/
  exists names, In (k, names) l /\ v = fst (find_column_name d names k true).
Proof.
  revert m. induction l as [|[f ns] l IH]; intros m; [auto|].
  rewrite cache_after_cons. intros H. apply IH in H as [H|(names & Hin & ->)].
  - destruct (decide (f = k)) as [->|Hne].
    + rewrite lookup_insert_eq in H. injection H as <-. right. exists ns. split; [now left | auto].
    + rewrite lookup_insert_ne in H by exact Hne. auto.
  - right. exists names. split; [now right | reflexivity].
Qed.

Lemma cache_after_configured d l m field names :
  List.NoDup (List.map fst l) -> In (field, names) l ->
  cache_after d l m !! field = Some (fst (find_column_name d names field true)).
Proof.
  revert m. induction l as [|[f ns] l IH]; intros m Hnd Hin; [destruct Hin|].
  rewrite cache_after_cons. simpl in Hnd. inversion Hnd as [|? ? Hf Hnd']; subst.
  destruct Hin as [[= -> ->]|Hin].
  - rewrite cache_after_other by exact Hf. apply lookup_insert_eq.
  - now apply IH.
Qed.

Lemma load_excel_data_success fs σ :
  fst (load_excel_data fs σ) = true ->
  exists sheets n d,
    fs !! excel_file (config σ) = Some (Workbook sheets) /\
    selected_sheet sheets (sheet_name (config σ)) = Some (n, Ok d) /\
    df (snd (load_excel_data fs σ)) = Some (cleaned_frame d) /\
    column_cache (snd (load_excel_data fs σ))
    = cache_after (Some (cleaned_frame d)) (column_mappings (config σ)) (column_cache σ).
Proof.
  rewrite load_excel_data_result. intros H.
  pose proof (load_excel_data_data fs σ) as Hd.
  destruct (fs !! excel_file (config σ)) as [[e|sheets]|]; try discriminate.
  destruct (selected_sheet sheets (sheet_name (config σ))) as [[n [d|e]]|] eqn:Es;
    try discriminate.
  injection Hd as Hdf Hc. exists sheets, n, d. auto.
Qed.

(** X10.  After a load that succeeds, with the fields of the configuration
    pairwise distinct, the cache holds for every configured field what
    silent resolution of its candidates gives on the frame just stored:
    no entry of a configured field is left over from an earlier frame. *)
Theorem load_excel_data_refreshes_cache
    (fs : gmap string file) (σ : state) (field : string) (names : list string) :
  fst (load_excel_data fs σ) = true ->
  List.NoDup (List.map fst (column_mappings (config σ))) ->
  In (field, names) (column_mappings (config σ)) ->
  column_cache (snd (load_excel_data fs σ)) !! field
  = Some (fst (find_column_name (df (snd (load_excel_data fs σ))) names field true)).
Proof.
  intros Hok Hnd Hin.
  destruct (load_excel_data_success fs σ Hok) as (sheets & n & d & _ & _ & -> & ->).
  now apply cache_after_configured.
Qed.

Lemma default_column_mappings_distinct : List.NoDup (List.map fst default_column_mappings).
Proof. repeat constructor; simpl; intuition discriminate. Qed.

Lemma load_excel_data_refreshes_cache_witness :
  fst (load_excel_data sample_fs
         (mkstate (WebConfig_init (Some "data/a.xlsx") None "Sheet1")
            (Some sample_frame) sample_cache [])) = true /\
  List.NoDup (List.map fst default_column_mappings) /\
  In ("yield", ["total_batch_yield_%"; "total_batch_yield"; "batch_yield_%"; "yield_%";
                "yield"; "total_yield"]) default_column_mappings /\
  column_cache (snd (load_excel_data sample_fs
                       (mkstate (WebConfig_init (Some "data/a.xlsx") None "Sheet1")
                          (Some sample_frame) sample_cache []))) !! "yield"
  = Some (fst (find_column_name
                 (df (snd (load_excel_data sample_fs
                            (mkstate (WebConfig_init (Some "data/a.xlsx") None "Sheet1")
                               (Some sample_frame) sample_cache []))))
                 ["total_batch_yield_%"; "total_batch_yield"; "batch_yield_%"; "yield_%";
                  "yield"; "total_yield"] "yield" true)).
Proof.
  assert (Hok : fst (load_excel_data sample_fs
                  (mkstate (WebConfig_init (Some "data/a.xlsx") None "Sheet1")
                     (Some sample_frame) sample_cache [])) = true)
    by (vm_compute; reflexivity).
  assert (Hin : In ("yield", ["total_batch_yield_%"; "total_batch_yield"; "batch_yield_%";
                              "yield_%"; "yield"; "total_yield"]) default_column_mappings).
  { simpl. auto 10. }
  exact (conj Hok (conj default_column_mappings_distinct (conj Hin
    (load_excel_data_refreshes_cache sample_fs _ "yield" _ Hok
       default_column_mappings_distinct Hin)))).
Defined.

(** X11.  After [WebDocumentGenerator.__init__], every entry of the column
    cache belongs to a field of the configuration, and every column it
    names is a label of the frame the instance holds. *)
Theorem WebDocumentGenerator_init_cache_sound
    (fs : gmap string file) (c : WebConfig) (field : string) (v : option string) :
  column_cache (WebDocumentGenerator_init fs c) !! field = Some v ->
  In field (List.map fst (column_mappings c)) /\
  forall col, v = Some col ->
    exists d, df (WebDocumentGenerator_init fs c) = Some d /\ In col (columns d).
Proof.
  unfold WebDocumentGenerator_init.
  destruct (fst (load_excel_data fs (mkstate c None ∅ []))) eqn:Hok.
  - destruct (load_excel_data_success _ _ Hok) as (sheets & n & d & _ & _ & Hdf & Hc).
    rewrite Hdf, Hc. simpl. intros [H|(names & Hin & ->)]%cache_after_entry.
    + now rewrite lookup_empty in H.
    + split; [apply in_map_iff; now exists (field, names)|].
      intros col Hcol. apply find_column_name_label in Hcol as (d' & [= <-] & _ & Hl).
      eauto.
  - destruct (load_excel_data_failure_keeps_data _ _ Hok) as [_ ->]. simpl.
    now rewrite lookup_empty.
Qed.

Lemma WebDocumentGenerator_init_cache_sound_witness :
  column_cache (WebDocumentGenerator_init sample_fs
                  (WebConfig_init (Some "data/a.xlsx") None "5_Arc_List")) !! "batch_no"
    = Some (Some "batch_no") /\
  In "batch_no" (List.map fst default_column_mappings) /\
  forall col, Some "batch_no" = Some col ->
    exists d, df (WebDocumentGenerator_init sample_fs
                    (WebConfig_init (Some "data/a.xlsx") None "5_Arc_List")) = Some d /\
              In col (columns d).
Proof.
  assert (H : column_cache (WebDocumentGenerator_init sample_fs
                (WebConfig_init (Some "data/a.xlsx") None "5_Arc_List")) !! "batch_no"
              = Some (Some "batch_no")) by (vm_compute; reflexivity).
  exact (conj H (WebDocumentGenerator_init_cache_sound sample_fs
                   (WebConfig_init (Some "data/a.xlsx") None "5_Arc_List") _ _ H)).
Defined.

Lemma cache_after_absorbs d l m f w v :
  <[f := v]> (cache_after d l (<[f := w]> m)) = <[f := v]> (cache_after d l m).
Proof.
  revert m. induction l as [|[g ns] l IH]; intros m.
  - simpl. apply insert_insert_eq.
  - rewrite !cache_after_cons. destruct (decide (g = f)) as [->|Hne].
    + now rewrite insert_insert_eq.
    + rewrite insert_insert_ne by exact Hne. apply IH.
Qed.

Lemma cache_after_snoc d l f ns m :
  cache_after d (l ++ [(f, ns)])%list m
  = <[f := fst (find_column_name d ns f true)]> (cache_after d l m).
Proof. unfold cache_after. now rewrite fold_left_app. Qed.

Lemma cache_after_idem d l m : cache_after d l (cache_after d l m) = cache_after d l m.
Proof.
  revert m. induction l as [|[f ns] l IH] using rev_ind; intros m; [reflexivity|].
  rewrite !cache_after_snoc, cache_after_absorbs, IH. reflexivity.
Qed.

Lemma selected_sheet_loaded fs c sheets :
  fs !! excel_file c = Some (Workbook sheets) ->
  selected_sheet sheets (loaded_sheet_name fs c) = selected_sheet sheets (sheet_name c).
Proof.
  intros Efs. unfold loaded_sheet_name. rewrite Efs.
  destruct sheets as [|[first p] rest]; [reflexivity|].
  change (sheet_names ((first, p) :: rest)) with (first :: sheet_names rest).
  destruct (bool_decide (sheet_name c ∈ first :: sheet_names rest)) eqn:Hin; [reflexivity|].
  unfold selected_sheet. simpl sheet_names. rewrite Hin.
  rewrite bool_decide_eq_true_2 by (apply elem_of_cons; now left).
  simpl. now rewrite String.eqb_refl.
Qed.

(** X12.  Loading again from the same files changes nothing but the log:
    the second load returns what the first returned and leaves the
    configuration, the frame and the column cache as the first left
    them. *)
Theorem load_excel_data_twice (fs : gmap string file) (σ : state) :
  let σ1 := snd (load_excel_data fs σ) in
  let σ2 := snd (load_excel_data fs σ1) in
  fst (load_excel_data fs σ1) = fst (load_excel_data fs σ) /\
  config σ2 = config σ1 /\
  df σ2 = df σ1 /\
  column_cache σ2 = column_cache σ1.
Proof.
  cbv zeta.
  pose proof (load_excel_data_data fs (snd (load_excel_data fs σ))) as H2.
  pose proof (load_excel_data_data fs σ) as H1.
  rewrite !load_excel_data_result.
  rewrite !load_excel_data_config in *. simpl in *.
  split; [|split; [now rewrite loaded_sheet_name_idem|]].
  - destruct (fs !! excel_file (config σ)) as [[e|sheets]|] eqn:Efs; try reflexivity.
    now rewrite (selected_sheet_loaded fs (config σ) sheets Efs).
  - destruct (fs !! excel_file (config σ)) as [[e|sheets]|] eqn:Efs;
      try (injection H2 as -> ->; auto).
    rewrite (selected_sheet_loaded fs (config σ) sheets Efs) in H2.
    destruct (selected_sheet sheets (sheet_name (config σ))) as [[n [d|e]]|];
      injection H2 as -> ->; injection H1 as -> ->; auto.
    split; [reflexivity | apply cache_after_idem].
Qed.

(** ** A label that two columns carry *)

Lemma positions_present c cols k : positions c cols k <> [] -> In c cols.
Proof.
  intros H. destruct (in_dec String.string_dec c cols) as [Hin|Hin]; [exact Hin|].
  now rewrite positions_absent in H.
Qed.

Lemma get_formatted_value_repeated cache d batch field c :
  cached_column cache field = Some c -> 2 <= occurrences c d ->
  exists e, get_formatted_value cache (columns d) batch field = Raise e.
Proof.
  unfold occurrences, get_formatted_value, row_getitem. intros -> H.
  assert (Hin : has_column c (columns d) = true).
  { apply has_column_In, (positions_present c (columns d) 0).
    destruct (positions c (columns d) 0); [simpl in H; lia | discriminate]. }
  rewrite Hin. simpl.
  destruct (positions c (columns d) 0) as [|i [|j l]]; simpl in H; try lia.
  simpl. eauto.
Qed.

Lemma process_batch_data_repeated cache d field c batch rest :
  In field record_fields -> cached_column cache field = Some c -> 2 <= occurrences c d ->
  exists e, process_batch_data cache (columns d) (batch :: rest) = Raise e.
Proof.
  intros Hf Hc Ho. unfold process_batch_data. rewrite mapM_result_cons.
  destruct (get_formatted_value_repeated cache d batch field c Hc Ho) as [e He].
  cbv beta zeta. unfold mbind, result_bind. simpl in Hf.
  repeat (destruct Hf as [<-|Hf]; [rewrite He|]); try contradiction;
    repeat match goal with
           | |- context [get_formatted_value cache (columns d) batch ?f] =>
               destruct (get_formatted_value cache (columns d) batch f)
           end; eauto.
Qed.

(** X15.  When a field of the batch records is resolved to a label that
    two columns of the frame carry, reading that field of a row gives a
    Series, whose truth value raises: every lookup then returns [None],
    whatever the product, and a lookup that has rows to convert logs the
    error.  Two headers that clean to the same label, Batch No and
    Batch_No, make such a frame. *)
Theorem search_product_batches_repeated_label
    (d : DataFrame) (cache : gmap string (option string)) (field c product_name : string) :
  In field record_fields ->
  cached_column cache field = Some c ->
  2 <= occurrences c d ->
  fst (search_product_batches (Some d) cache product_name) = None /\
  (forall vals, product_cells d cache = Some vals ->
     existsb (product_matches product_name) vals = true ->
     exists e, snd (search_product_batches (Some d) cache product_name)
               = [(ERROR, "Error searching batches: " ++ text e)]).
Proof.
  intros Hf Hc Ho. unfold search_product_batches, search_product_batches_try.
  split.
  - destruct (empty d); [reflexivity|].
    destruct (cached_column cache "product") as [pc|]; [|reflexivity].
    destruct (getitem d pc) as [[vals|]|e]; simpl; try reflexivity.
    destruct (select_rows _ _) as [|batch rest]; [reflexivity|].
    destruct (process_batch_data_repeated cache d field c batch rest Hf Hc Ho) as [e ->].
    reflexivity.
  - intros vals Hv Hex.
    apply product_cells_getitem in Hv as (pc & Hpc & Hg). rewrite Hpc, Hg. simpl.
    destruct (getitem_one d pc vals Hg) as (i & _ & ->).
    assert (Hne : empty d = false).
    { unfold empty. destruct (columns d) eqn:Ec.
      - unfold occurrences in Ho. rewrite Ec in Ho. simpl in Ho. lia.
      - destruct (rows d); [discriminate Hex | reflexivity]. }
    rewrite Hne, List.map_map.
    rewrite (select_rows_map (fun r => product_matches product_name (at_ r i))).
    apply existsb_exists in Hex as (v & Hin & Hm).
    apply in_map_iff in Hin as (r & <- & Hr).
    destruct (List.filter _ (rows d)) as [|batch rest] eqn:Efil.
    + assert (Hin : In r (List.filter (fun r => product_matches product_name (at_ r i))
                            (rows d))) by (apply filter_In; auto).
      rewrite Efil in Hin. contradiction.
    + destruct (process_batch_data_repeated cache d field c batch rest Hf Hc Ho) as [e ->].
      simpl. eauto.
Qed.

Lemma search_product_batches_repeated_label_witness :
  columns repeated_frame = ["product_name"; "batch_no"; "batch_no"] /\
  In "batch_no" record_fields /\
  cached_column sample_cache "batch_no" = Some "batch_no" /\
  2 <= occurrences "batch_no" repeated_frame /\
  fst (get_unique_products (Some repeated_frame) sample_cache) = ["Zinc"] /\
  fst (search_product_batches (Some repeated_frame) sample_cache "Zinc") = None.
Proof.
  assert (Hf : In "batch_no" record_fields) by (simpl; tauto).
  assert (Hc : cached_column sample_cache "batch_no" = Some "batch_no") by reflexivity.
  assert (Ho : 2 <= occurrences "batch_no" repeated_frame) by (vm_compute; lia).
  exact (conj eq_refl (conj Hf (conj Hc (conj Ho (conj eq_refl
    (proj1 (search_product_batches_repeated_label repeated_frame sample_cache
              "batch_no" "batch_no" "Zinc" Hf Hc Ho))))))).
Defined.

(** ** Dates: what the matchers read *)

Lemma local_weaken {A} k k' (p : string -> list (A * string)) :
  k <= k' -> local k p -> local k' p.
Proof.
  intros Hk Hp s. destruct (Hp s) as [Hc Hl]. split.
  - eapply List.Forall_impl; [|exact Hc]. simpl. intros x Hx. lia.
  - intros T HT. apply Hl. lia.
Qed.

Lemma local_cls p : local 1 (Datetime.cls p).
Proof.
  intros s. split.
  - destruct s as [|c r]; simpl; [constructor|].
    destruct (p c); repeat constructor. simpl. lia.
  - intros T HT. destruct s as [|c r]; simpl in *; [lia|].
    now destruct (p c).
Qed.

(** Sequencing: a local step followed by a step that is local after it. *)
Lemma local_bind {A B} k1 k2 (p : string -> list (A * string))
    (q : A -> string -> list (B * string)) :
  local k1 p -> (forall a, local k2 (q a)) ->
  local (k1 + k2) (fun s => flat_map (fun x => q (fst x) (snd x)) (p s)).
Proof.
  intros Hp Hq s. destruct (Hp s) as [Hc Hl]. split.
  - apply List.Forall_flat_map. eapply List.Forall_impl; [|exact Hc].
    intros [a r] Hr. simpl in *. destruct (Hq a r) as [Hcq _].
    eapply List.Forall_impl; [|exact Hcq]. simpl. intros y Hy. lia.
  - intros T HT. rewrite Hl by lia. clear Hl.
    induction Hc as [|[a r] l Hr _ IH]; [reflexivity|].
    simpl in *. rewrite List.map_app, IH. f_equal.
    destruct (Hq a r) as [_ Hlq]. apply Hlq. lia.
Qed.

Lemma local_map {A B} k (p : string -> list (A * string)) (g : A -> B) :
  local k p -> local k (fun s => List.map (fun x => (g (fst x), snd x)) (p s)).
Proof.
  intros Hp s. destruct (Hp s) as [Hc Hl]. split.
  - apply List.Forall_map. eapply List.Forall_impl; [|exact Hc]. now intros [a r].
  - intros T HT. rewrite Hl by exact HT. rewrite !List.map_map. reflexivity.
Qed.

Lemma local_cat k1 k2 p q :
  local k1 p -> local k2 q -> local (k1 + k2) (Datetime.cat p q).
Proof.
  intros Hp Hq.
  assert (H := local_bind k1 k2 p
                 (fun a s => List.map (fun y => ((a ++ fst y)%string, snd y)) (q s)) Hp
                 (fun a => local_map k2 q (fun b => (a ++ b)%string) Hq)).
  intros s. destruct (H s) as [Hc Hl]. unfold Datetime.cat.
  assert (E : forall s0, flat_map (fun '(a, r) =>
                  List.map (fun '(b, r') => ((a ++ b)%string, r')) (q r)) (p s0)
              = flat_map (fun x => List.map (fun y => ((fst x ++ fst y)%string, snd y))
                                     (q (snd x))) (p s0)).
  { intros s0. apply flat_map_ext. intros [a r]. apply List.map_ext. now intros [b r']. }
  split; [now rewrite E|]. intros T HT. rewrite !E. now apply Hl.
Qed.

Lemma local_alt k1 k2 (p q : Datetime.matcher) :
  local k1 p -> local k2 q -> local (Nat.max k1 k2) (Datetime.alt p q).
Proof.
  intros Hp Hq s. unfold Datetime.alt.
  destruct (local_weaken k1 (Nat.max k1 k2) p (Nat.le_max_l _ _) Hp s) as [Hcp Hlp].
  destruct (local_weaken k2 (Nat.max k1 k2) q (Nat.le_max_r _ _) Hq s) as [Hcq Hlq].
  split; [now apply List.Forall_app|].
  intros T HT. now rewrite Hlp, Hlq, List.map_app.
Qed.

Lemma local_re_d : local 2 Datetime.re_d.
Proof.
  unfold Datetime.re_d, Datetime.chr.
  repeat first [ apply (local_alt 2 2) | apply (local_cat 1 1)
               | apply (local_weaken 1 2); [lia|] | apply local_cls ].
Qed.

Lemma local_re_m : local 2 Datetime.re_m.
Proof.
  unfold Datetime.re_m, Datetime.chr.
  repeat first [ apply (local_alt 2 2) | apply (local_cat 1 1)
               | apply (local_weaken 1 2); [lia|] | apply local_cls ].
Qed.

Lemma local_re_Y : local 4 Datetime.re_Y.
Proof.
  unfold Datetime.re_Y.
  apply (local_cat 1 3), (local_cat 1 2), (local_cat 1 1); apply local_cls.
Qed.

Lemma local_ext {A} k (p p' : string -> list (A * string)) :
  (forall s, p s = p' s) -> local k p -> local k p'.
Proof.
  intros E Hp s. destruct (Hp s) as [Hc Hl]. rewrite <- !E.
  split; [exact Hc|]. intros T HT. rewrite <- E. now apply Hl.
Qed.

Lemma local_item it acc : local (item_width it) (Datetime.item_match it acc).
Proof.
  destruct it as [| | |c].
  - eapply local_ext; [|apply (local_map 4 Datetime.re_Y
      (fun t => Datetime.mkdate (Datetime.int t) (Datetime.month acc) (Datetime.day acc))
      local_re_Y)].
    intros s. simpl. apply List.map_ext. now intros [t r].
  - eapply local_ext; [|apply (local_map 2 Datetime.re_m
      (fun t => Datetime.mkdate (Datetime.year acc) (Datetime.int t) (Datetime.day acc))
      local_re_m)].
    intros s. simpl. apply List.map_ext. now intros [t r].
  - eapply local_ext; [|apply (local_map 2 Datetime.re_d
      (fun t => Datetime.mkdate (Datetime.year acc) (Datetime.month acc) (Datetime.int t))
      local_re_d)].
    intros s. simpl. apply List.map_ext. now intros [t r].
  - eapply local_ext; [|apply (local_map 1 (Datetime.chr c) (fun _ => acc) (local_cls _))].
    intros s. simpl. apply List.map_ext. now intros [t r].
Qed.

Lemma format_match_cons it f acc s :
  Datetime.format_match (it :: f) acc s
  = flat_map (fun x => Datetime.format_match f (fst x) (snd x))
             (Datetime.item_match it acc s).
Proof. simpl. apply flat_map_ext. now intros [a r]. Qed.

Lemma local_format f : forall acc, local (format_width f) (Datetime.format_match f acc).
Proof.
  induction f as [|it f IH]; intros acc.
  - intros s. split; [repeat constructor; simpl; lia | reflexivity].
  - pose proof (local_bind (item_width it) (format_width f)
                  (Datetime.item_match it acc) (Datetime.format_match f)
                  (local_item it acc) IH) as H.
    intros s. destruct (H s) as [Hc Hl]. rewrite format_match_cons.
    split; [exact Hc|]. intros T HT. rewrite format_match_cons. now apply Hl.
Qed.

Lemma format_match_app f1 f2 acc s :
  Datetime.format_match (f1 ++ f2)%list acc s
  = flat_map (fun x => Datetime.format_match f2 (fst x) (snd x))
             (Datetime.format_match f1 acc s).
Proof.
  revert acc s. induction f1 as [|it f1 IH]; intros acc s.
  - simpl. now rewrite app_nil_r.
  - change ((it :: f1) ++ f2)%list with (it :: (f1 ++ f2))%list.
    rewrite !format_match_cons.
    induction (Datetime.item_match it acc s) as [|[a r] l IHl]; [reflexivity|].
    simpl. rewrite flat_map_app, IH, IHl. reflexivity.
Qed.

(** A format fails on a text as soon as a leading part of it finds no
    match in a leading part of the text that is wide enough. *)
Lemma strptime_prefix_fail g f2 P T :
  format_width g <= String.length P -> no_match g P = true ->
  Datetime.strptime (P ++ T) (g ++ f2)%list = None.
Proof.
  intros Hw Hn. unfold Datetime.strptime. fold epoch. rewrite format_match_app.
  destruct (local_format g epoch P) as [_ Hl]. rewrite Hl by exact Hw.
  unfold no_match in Hn. destruct (Datetime.format_match g epoch P); [reflexivity|].
  discriminate.
Qed.

Lemma date_eqb_eq a b : date_eqb a b = true -> a = b.
Proof.
  destruct a, b. unfold date_eqb. simpl.
  intros [[H1 H2]%andb_prop H3]%andb_prop.
  apply N.eqb_eq in H1, H2, H3. now subst.
Qed.

Lemma format_match_single it acc s :
  Datetime.format_match [it] acc s = Datetime.item_match it acc s.
Proof.
  rewrite format_match_cons.
  induction (Datetime.item_match it acc s) as [|[a r] l IH]; [reflexivity|].
  cbn [flat_map]. rewrite IH. reflexivity.
Qed.

(** A format parses a text when its first items match a leading part in
    exactly one way and the first match of its last item consumes the
    rest. *)
Lemma strptime_prefix_ok f1 last P T acc1 d :
  format_width f1 <= String.length P ->
  one_match f1 P acc1 = true ->
  hd_error (Datetime.item_match last acc1 T) = Some (d, "") ->
  Datetime.valid d = true ->
  Datetime.strptime (P ++ T) (f1 ++ [last])%list = Some d.
Proof.
  intros Hw Hone Hlast Hv. unfold Datetime.strptime. fold epoch. rewrite format_match_app.
  destruct (local_format f1 epoch P) as [_ Hl]. rewrite Hl by exact Hw.
  unfold one_match in Hone.
  destruct (Datetime.format_match f1 epoch P) as [|[x [|? ?]] [|? ?]]; try discriminate.
  apply date_eqb_eq in Hone as ->.
  change (List.map (push T) [(acc1, "")]) with [(acc1, T)].
  cbn [flat_map fst snd]. rewrite app_nil_r, format_match_single.
  destruct (Datetime.item_match last acc1 T) as [|[d' r] l]; [discriminate|].
  simpl in Hlast. injection Hlast as -> ->. simpl. now rewrite Hv.
Qed.

Lemma strptime_fails g f2 P T :
  fails_on g P = true -> Datetime.strptime (P ++ T) (g ++ f2)%list = None.
Proof.
  intros [Hw Hn]%andb_prop. apply Nat.leb_le in Hw. now apply strptime_prefix_fail.
Qed.

Lemma strptime_reads f1 last P T acc1 d :
  reads f1 P acc1 = true ->
  hd_error (Datetime.item_match last acc1 T) = Some (d, "") ->
  Datetime.valid d = true ->
  Datetime.strptime (P ++ T) (f1 ++ [last])%list = Some d.
Proof.
  intros [Hw Hn]%andb_prop. apply Nat.leb_le in Hw. now apply strptime_prefix_ok.
Qed.

Lemma in_range_spec lo hi k : in_range lo hi k = true <-> (lo <= k <= hi)%N.
Proof. unfold in_range. rewrite andb_true_iff, !N.leb_le. reflexivity. Qed.

Lemma all_within_spec lo hi p :
  all_within lo hi p = true -> forall a, (lo <= a <= hi)%N -> p a = true.
Proof.
  unfold all_within. intros H a Ha. rewrite forallb_forall in H.
  assert (Hlt : (a < hi + 1)%N) by lia.
  specialize (H a (below_In (hi + 1) a Hlt)).
  apply in_range_spec in Ha. now rewrite Ha in H.
Qed.

Lemma all_within2_spec lo1 hi1 lo2 hi2 p :
  all_within2 lo1 hi1 lo2 hi2 p = true ->
  forall a b, (lo1 <= a <= hi1)%N -> (lo2 <= b <= hi2)%N -> p a b = true.
Proof.
  unfold all_within2. intros H a b Ha Hb.
  apply (all_within_spec lo2 hi2 (p a)); [|exact Hb].
  now apply (all_within_spec lo1 hi1 _ H).
Qed.

Lemma digit_chars_In c : Str.isdigit c = true -> In c digit_chars.
Proof.
  destruct c as [[|] [|] [|] [|] [|] [|] [|] [|]]; intros H; try discriminate H;
    simpl; auto 12.
Qed.

Lemma all_digits2_spec p :
  all_digits2 p = true ->
  forall x y, Str.isdigit x = true -> Str.isdigit y = true -> p x y = true.
Proof.
  unfold all_digits2. intros H x y Hx%digit_chars_In Hy%digit_chars_In.
  rewrite forallb_forall in H. specialize (H x Hx). rewrite forallb_forall in H. auto.
Qed.

Lemma all_digits3_spec p :
  all_digits3 p = true ->
  forall x y z, Str.isdigit x = true -> Str.isdigit y = true -> Str.isdigit z = true ->
                p x y z = true.
Proof.
  unfold all_digits3. intros H x y z Hx%digit_chars_In Hy Hz.
  rewrite forallb_forall in H. apply (all_digits2_spec _ (H x Hx)); assumption.
Qed.

(** *** What the directives read in zero-padded fields *)

Lemma zfill2_shape k :
  (k < 100)%N ->
  exists x y, Str.zfill 2 k = String x (String y "") /\
              Str.isdigit x = true /\ Str.isdigit y = true.
Proof.
  intros H%zfill2_digits. unfold all_digits in H.
  destruct (Str.zfill 2 k) as [|x [|y [|? ?]]]; try discriminate H.
  simpl in H. exists x, y. destruct (Str.isdigit x), (Str.isdigit y); try discriminate H.
  auto.
Qed.

Lemma zfill4_shape k :
  (k < 10000)%N ->
  exists a b c d, Str.zfill 4 k = String a (String b (String c (String d ""))) /\
                  Str.isdigit a = true /\ Str.isdigit b = true /\
                  Str.isdigit c = true /\ Str.isdigit d = true.
Proof.
  intros H%zfill4_digits. unfold all_digits in H.
  destruct (Str.zfill 4 k) as [|a [|b [|c [|d [|? ?]]]]]; try discriminate H.
  simpl in H. exists a, b, c, d.
  destruct (Str.isdigit a), (Str.isdigit b), (Str.isdigit c), (Str.isdigit d);
    try discriminate H. auto 6.
Qed.

Lemma forallb_append p a b :
  Str.forallb p (a ++ b) = (Str.forallb p a && Str.forallb p b)%bool.
Proof.
  induction a as [|x a IH]; [reflexivity|].
  change (Str.forallb p (String x (a ++ b))
          = (Str.forallb p (String x a) && Str.forallb p b)%bool).
  simpl. now rewrite IH, andb_assoc.
Qed.

Lemma zeros_digits k : Str.forallb Str.isdigit (Str.zeros k) = true.
Proof. induction k; simpl; auto. Qed.

Lemma zfill_isdigit w n : Str.forallb Str.isdigit (Str.zfill w n) = true.
Proof. unfold Str.zfill. now rewrite forallb_append, zeros_digits, of_N_digits. Qed.

Lemma forallb_head p s c : Str.forallb p s = true -> Str.head s = Some c -> p c = true.
Proof. destruct s; simpl; [discriminate|]. intros [H _]%andb_prop [= <-]. exact H. Qed.

Lemma forallb_last p s c : Str.forallb p s = true -> Str.last s = Some c -> p c = true.
Proof.
  induction s as [|a r IH]; [discriminate|].
  intros [Ha Hr]%andb_prop. destruct r as [|b r']; [now intros [= <-]|].
  intros H. apply IH; [exact Hr | exact H].
Qed.

Lemma append_nil_r s : s ++ "" = s.
Proof.
  induction s as [|c r IH]; [reflexivity|].
  change (String c (r ++ "") = String c r). now rewrite IH.
Qed.

Lemma digit_not_space c : Str.isdigit c = true -> Str.isspace c = false.
Proof. each_char c. Qed.

(** [int] of a zero-padded number is the number. *)
Lemma int_zfill w n : Datetime.int (Str.zfill w n) = n.
Proof.
  unfold Datetime.int.
  assert (Hs : Str.strip (Str.zfill w n) = Str.zfill w n).
  { pose proof (zfill_isdigit w n) as Hd.
    apply StrFacts.strip_fixed; intros c Hc; apply digit_not_space.
    - eapply forallb_head; eauto.
    - eapply forallb_last; eauto. }
  rewrite Hs. apply int_of_digits_zfill.
Qed.

Lemma re_Y_digits a b c d T :
  Str.isdigit a = true -> Str.isdigit b = true -> Str.isdigit c = true ->
  Str.isdigit d = true ->
  Datetime.re_Y (String a (String b (String c (String d T))))
  = [(String a (String b (String c (String d ""))), T)].
Proof.
  intros Ha Hb Hc Hd. unfold Datetime.re_Y, Datetime.cat, Datetime.cls.
  rewrite Ha. cbn [flat_map List.map app]. rewrite Hb. cbn [flat_map List.map app].
  rewrite Hc. cbn [flat_map List.map app]. rewrite Hd. reflexivity.
Qed.

Lemma re_Y_separator x y c T :
  Str.isdigit c = false ->
  Datetime.re_Y (String x (String y (String c T))) = [].
Proof.
  intros Hc. unfold Datetime.re_Y, Datetime.cat, Datetime.cls.
  destruct (Str.isdigit x); [|reflexivity]. cbn [flat_map List.map app].
  destruct (Str.isdigit y); [|reflexivity]. cbn [flat_map List.map app].
  rewrite Hc. reflexivity.
Qed.

(** The year directive on a zero-padded year, whatever follows it. *)
Lemma year_first acc y T :
  (y < 10000)%N ->
  Datetime.item_match Datetime.Dir_Y acc (Str.zfill 4 y ++ T)
  = [(Datetime.mkdate y (Datetime.month acc) (Datetime.day acc), T)].
Proof.
  intros Hy. pose proof (int_zfill 4 y) as Hint.
  destruct (zfill4_shape y Hy) as (a & b & c & d & E & Ha & Hb & Hc & Hd).
  rewrite E in *.
  change (String a (String b (String c (String d ""))) ++ T)
    with (String a (String b (String c (String d T)))).
  cbn [Datetime.item_match]. rewrite (re_Y_digits a b c d T Ha Hb Hc Hd).
  cbn [List.map]. now rewrite Hint.
Qed.

Lemma year_last acc y :
  (y < 10000)%N ->
  hd_error (Datetime.item_match Datetime.Dir_Y acc (Str.zfill 4 y))
  = Some (Datetime.mkdate y (Datetime.month acc) (Datetime.day acc), "").
Proof.
  intros Hy. pose proof (year_first acc y "" Hy) as H.
  rewrite append_nil_r in H. now rewrite H.
Qed.

(** *** What the leading items of the six formats find *)

Ltac in_ranges lo1 hi1 lo2 hi2 a b :=
  match goal with
  | |- ?lhs = true =>
      let p := eval pattern a, b in lhs in
      match p with
      | ?f a b =>
          apply (all_within2_spec lo1 hi1 lo2 hi2 f); [vm_compute; reflexivity|lia|lia]
      end
  end.

Ltac on_digits2 x y :=
  match goal with
  | |- ?lhs = true =>
      let p := eval pattern x, y in lhs in
      match p with
      | ?f x y =>
          apply (all_digits2_spec f); [vm_compute; reflexivity|assumption|assumption]
      end
  end.

Ltac on_digits3 x y z :=
  match goal with
  | |- ?lhs = true =>
      let p := eval pattern x, y, z in lhs in
      match p with
      | ?f x y z =>
          apply (all_digits3_spec f);
          [vm_compute; reflexivity|assumption|assumption|assumption]
      end
  end.

Lemma strptime_none_nil f s :
  Datetime.format_match f (Datetime.mkdate 1900 1 1) s = [] -> Datetime.strptime s f = None.
Proof. unfold Datetime.strptime. now intros ->. Qed.

(** A text that starts with two digits and a separator has no year in
    front. *)
Lemma strptime_no_year c a b T f2 :
  In c ["-"; "/"; "."]%char -> (a < 100)%N ->
  Datetime.strptime (head2 c a b ++ T) (Datetime.Dir_Y :: f2) = None.
Proof.
  intros Hc Ha. destruct (zfill2_shape a Ha) as (x & y & E & _ & _).
  unfold head2. rewrite E.
  change ((String x (String y "") ++ String c (Str.zfill 2 b ++ String c "")) ++ T)
    with (String x (String y (String c ((Str.zfill 2 b ++ String c "") ++ T)))).
  apply strptime_none_nil. rewrite format_match_cons. cbn [Datetime.item_match].
  rewrite re_Y_separator; [reflexivity|].
  simpl in Hc. destruct Hc as [<-|[<-|[<-|[]]]]; reflexivity.
Qed.

(** After two digits, a day or a month cannot be followed by a separator
    other than the one that stands there. *)
Lemma strptime_no_literal it c c' a b T f2 :
  In (it, c, c') [(Datetime.Dir_d, "/", "-"); (Datetime.Dir_d, ".", "-");
                  (Datetime.Dir_d, ".", "/"); (Datetime.Dir_m, ".", "/")]%char ->
  (a < 100)%N ->
  Datetime.strptime (head2 c a b ++ T) (it :: Datetime.Lit c' :: f2) = None.
Proof.
  intros Hc Ha. destruct (zfill2_shape a Ha) as (x & y & E & Hx & Hy).
  unfold head2. rewrite E.
  apply (strptime_fails [it; Datetime.Lit c'] f2 (String x (String y (String c "")))
           ((Str.zfill 2 b ++ String c "") ++ T)).
  simpl in Hc.
  destruct Hc as [[= <- <- <-]|[[= <- <- <-]|[[= <- <- <-]|[[= <- <- <-]|[]]]]];
    on_digits2 x y.
Qed.

(** A text that starts with a year and a dot is read by no format that
    wants a dash there, or a day or a month in front. *)
Lemma strptime_year_no_dash y T f2 :
  (y < 10000)%N ->
  Datetime.strptime (year_sep "." y ++ T)
    (Datetime.Dir_Y :: Datetime.Lit "-" :: f2) = None.
Proof.
  intros Hy. unfold year_sep. rewrite append_assoc.
  apply strptime_none_nil. rewrite format_match_cons, (year_first _ y _ Hy).
  cbn [flat_map fst snd]. rewrite format_match_cons. reflexivity.
Qed.

Lemma strptime_year_no_field it c' y T f2 :
  In (it, c') [(Datetime.Dir_d, "-"); (Datetime.Dir_d, "/"); (Datetime.Dir_m, "/");
               (Datetime.Dir_d, ".")]%char ->
  (y < 10000)%N ->
  Datetime.strptime (year_sep "." y ++ T) (it :: Datetime.Lit c' :: f2) = None.
Proof.
  intros Hc Hy. destruct (zfill4_shape y Hy) as (a & b & c & d & E & Ha & Hb & Hcd & _).
  unfold year_sep. rewrite E.
  apply (strptime_fails [it; Datetime.Lit c'] f2 (String a (String b (String c "")))
           (String d (String "." T))).
  simpl in Hc.
  destruct Hc as [[= <- <-]|[[= <- <-]|[[= <- <-]|[[= <- <-]|[]]]]]; on_digits3 a b c.
Qed.

Lemma head2_day_month c a b :
  In c ["-"; "/"; "."]%char -> (1 <= a <= 31)%N -> (1 <= b <= 12)%N ->
  reads [Datetime.Dir_d; Datetime.Lit c; Datetime.Dir_m; Datetime.Lit c] (head2 c a b)
        (Datetime.mkdate 1900 b a) = true.
Proof.
  intros Hc Ha Hb. simpl in Hc.
  destruct Hc as [<-|[<-|[<-|[]]]]; in_ranges 1%N 31%N 1%N 12%N a b.
Qed.

(** A month-first text whose second field is above twelve is no day-first
    text; one whose second field is a month is. *)
Lemma head2_not_day_first a b :
  (1 <= a <= 12)%N -> (13 <= b <= 31)%N ->
  fails_on [Datetime.Dir_d; Datetime.Lit "/"; Datetime.Dir_m; Datetime.Lit "/"]
           (head2 "/" a b) = true.
Proof. intros Ha Hb. in_ranges 1%N 12%N 13%N 31%N a b. Qed.

Lemma head2_month_day a b :
  (1 <= a <= 12)%N -> (1 <= b <= 31)%N ->
  reads [Datetime.Dir_m; Datetime.Lit "/"; Datetime.Dir_d; Datetime.Lit "/"] (head2 "/" a b)
        (Datetime.mkdate 1900 a b) = true.
Proof. intros Ha Hb. in_ranges 1%N 12%N 1%N 31%N a b. Qed.

Lemma tail2_month_day c a b :
  In c ["-"; "."]%char -> (1 <= a <= 12)%N -> (1 <= b <= 31)%N ->
  first_match [Datetime.Dir_m; Datetime.Lit c; Datetime.Dir_d] (tail2 c a b)
              (Datetime.mkdate 1900 a b) = true.
Proof.
  intros Hc Ha Hb. simpl in Hc.
  destruct Hc as [<-|[<-|[]]]; in_ranges 1%N 12%N 1%N 31%N a b.
Qed.

(** *** The year is carried past the other items *)

Lemma item_match_year it y y0 m d s :
  it <> Datetime.Dir_Y ->
  Datetime.item_match it (Datetime.mkdate y m d) s
  = List.map (with_year y) (Datetime.item_match it (Datetime.mkdate y0 m d) s).
Proof.
  intros Hit. destruct it as [| | |c]; [contradiction| | |]; simpl;
    rewrite List.map_map; apply List.map_ext; now intros [t r].
Qed.

Lemma flat_map_map {A B C} (g : B -> list C) (h : A -> B) l :
  flat_map g (List.map h l) = flat_map (fun x => g (h x)) l.
Proof. induction l as [|x l IH]; simpl; [reflexivity|]. now rewrite IH. Qed.

Lemma map_flat_map {A B C} (k : B -> C) (g : A -> list B) l :
  List.map k (flat_map g l) = flat_map (fun x => List.map k (g x)) l.
Proof. induction l as [|x l IH]; simpl; [reflexivity|]. now rewrite List.map_app, IH. Qed.

Lemma format_match_year f :
  List.Forall (fun it => it <> Datetime.Dir_Y) f ->
  forall y y0 m d s,
    Datetime.format_match f (Datetime.mkdate y m d) s
    = List.map (with_year y) (Datetime.format_match f (Datetime.mkdate y0 m d) s).
Proof.
  induction 1 as [|it f Hit _ IH]; intros y y0 m d s; [reflexivity|].
  rewrite !format_match_cons, (item_match_year it y y0 m d s Hit).
  rewrite flat_map_map, map_flat_map. apply flat_map_ext. intros [[ya ma da] r].
  unfold with_year at 1 2. cbn [fst snd Datetime.month Datetime.day]. apply IH.
Qed.

(** *** The bounds of a date of the calendar *)

Lemma days_in_month_ge y m : (28 <= Datetime.days_in_month y m)%N.
Proof.
  unfold Datetime.days_in_month. destruct (Datetime.is_leap y);
    repeat match goal with
           | |- context [match ?p with _ => _ end] => destruct p
           end; lia.
Qed.

Lemma valid_bounds d :
  Datetime.valid d = true ->
  (1 <= Datetime.year d <= 9999)%N /\ (1 <= Datetime.month d <= 12)%N /\
  (1 <= Datetime.day d <= 31)%N.
Proof.
  unfold Datetime.valid. intros H. repeat (apply andb_prop in H as [H ?]).
  apply N.leb_le in H, H0, H1, H2, H3, H4.
  pose proof (days_in_month_le (Datetime.year d) (Datetime.month d)). lia.
Qed.

Lemma valid_swapped y m d :
  Datetime.valid (Datetime.mkdate y m d) = true -> (d <= 12)%N ->
  Datetime.valid (Datetime.mkdate y d m) = true.
Proof.
  intros H Hd. pose proof (valid_bounds _ H) as (Hy & Hm & Hdd). simpl in *.
  pose proof (days_in_month_ge y d). unfold Datetime.valid. simpl.
  repeat (apply andb_true_intro; split); apply N.leb_le; lia.
Qed.

(** *** The six ways of writing a date, read by each format *)

Lemma strptime_year_first c y m d :
  In c ["-"; "."]%char -> Datetime.valid (Datetime.mkdate y m d) = true ->
  Datetime.strptime (year_sep c y ++ tail2 c m d)
    [Datetime.Dir_Y; Datetime.Lit c; Datetime.Dir_m; Datetime.Lit c; Datetime.Dir_d]
  = Some (Datetime.mkdate y m d).
Proof.
  intros Hc Hv. pose proof (valid_bounds _ Hv) as (Hy & Hm & Hd). simpl in Hy, Hm, Hd.
  unfold Datetime.strptime, year_sep. rewrite append_assoc.
  rewrite format_match_cons, (year_first _ y _ ltac:(lia)).
  cbn [flat_map fst snd Datetime.month Datetime.day]. rewrite app_nil_r.
  rewrite format_match_cons.
  change (Datetime.item_match (Datetime.Lit c) (Datetime.mkdate y 1 1)
            (String c "" ++ tail2 c m d))
    with (List.map (fun '(_, r) => (Datetime.mkdate y 1 1, r))
            (if Ascii.eqb c c then [(String c "", tail2 c m d)] else [])).
  rewrite Ascii.eqb_refl. cbn [List.map flat_map fst snd]. rewrite app_nil_r.
  rewrite (format_match_year [Datetime.Dir_m; Datetime.Lit c; Datetime.Dir_d]
             ltac:(repeat constructor; discriminate) y 1900 1 1).
  fold epoch. pose proof (tail2_month_day c m d Hc Hm Hd) as H2. unfold first_match in H2.
  destruct (Datetime.format_match _ epoch (tail2 c m d)) as [|[x [|? ?]] l]; try discriminate.
  apply date_eqb_eq in H2 as ->. simpl. now rewrite Hv.
Qed.

Lemma strptime_two_first c f1 a b y acc d :
  reads f1 (head2 c a b) acc = true -> (y < 10000)%N ->
  d = Datetime.mkdate y (Datetime.month acc) (Datetime.day acc) ->
  Datetime.valid d = true ->
  Datetime.strptime (head2 c a b ++ Str.zfill 4 y) (f1 ++ [Datetime.Dir_Y])%list = Some d.
Proof.
  intros Hr Hy -> Hv. eapply strptime_reads; [exact Hr | now apply year_last | exact Hv].
Qed.

(** *** The text of a written date *)

Lemma zfill_nonempty w n : Str.zfill w n <> "".
Proof.
  unfold Str.zfill. pose proof (of_N_nonempty n) as H.
  destruct (Str.zeros _); [exact H | discriminate].
Qed.

Lemma append_nonempty a b : a <> "" -> a ++ b <> "".
Proof. destruct a; [congruence | discriminate]. Qed.

Lemma digit_date_char s : Str.forallb Str.isdigit s = true -> Str.forallb date_char s = true.
Proof.
  apply StrFacts.forallb_impl. intros c Hc. unfold date_char. now rewrite Hc.
Qed.

Lemma render_chars l d :
  render l d <> "" /\ Str.forallb date_char (render l d) = true.
Proof.
  pose proof (digit_date_char _ (zfill_isdigit 4 (Datetime.year d))) as Hy.
  pose proof (digit_date_char _ (zfill_isdigit 2 (Datetime.month d))) as Hm.
  pose proof (digit_date_char _ (zfill_isdigit 2 (Datetime.day d))) as Hd.
  split.
  - destruct l; apply append_nonempty, zfill_nonempty.
  - destruct l; unfold render;
      repeat (rewrite forallb_append; apply andb_true_intro; split); try assumption;
      reflexivity.
Qed.

Lemma date_char_not_space c : date_char c = true -> Str.isspace c = false.
Proof. each_char c. Qed.

Lemma date_char_upper c : date_char c = true -> Ascii.eqb (Str.upper_char c) c = true.
Proof. each_char c. Qed.

Lemma split_head_fixed s : Str.forallb date_char s = true -> Str.split_head " " s = s.
Proof.
  induction s as [|c r IH]; [reflexivity|]. simpl. intros [Hc Hr]%andb_prop.
  destruct (Ascii.eqb c " ") eqn:E.
  - apply Ascii.eqb_eq in E as ->. discriminate.
  - now rewrite IH.
Qed.

(** On a non-empty text of digits and the three separators, the
    normalisation is the loop over the formats on the text itself. *)
Lemma format_date_properly_date_text s :
  s <> "" -> Str.forallb date_char s = true ->
  format_date_properly s
  = match first_parse s date_formats with
    | Some parsed_date => Datetime.strftime_dmY parsed_date
    | None => s
    end.
Proof.
  intros Hne Hs.
  assert (Hstrip : Str.strip s = s).
  { apply StrFacts.strip_fixed; intros c Hc; apply date_char_not_space.
    - eapply forallb_head; eauto.
    - eapply forallb_last; eauto. }
  assert (Hup : Str.upper s = s).
  { apply StrFacts.map_id. eapply StrFacts.forallb_impl; [|exact Hs]. apply date_char_upper. }
  assert (Hna : has_na_token s = false).
  { unfold has_na_token, na_tokens. simpl.
    repeat match goal with
           | |- context [Str.contains ?t s] =>
               let E := fresh "E" in
               destruct (Str.contains t s) eqn:E;
               [apply (contains_forallb date_char) in E; [discriminate E | exact Hs]|]
           end.
    reflexivity. }
  unfold format_date_properly, blank. rewrite Hstrip, Hup, Hna, (split_head_fixed s Hs).
  destruct s as [|c r]; [congruence|]. reflexivity.
Qed.

Lemma sep_split a c b T :
  a ++ String c (b ++ String c T) = (a ++ String c (b ++ String c "")) ++ T.
Proof.
  rewrite append_assoc.
  change (String c (b ++ String c "") ++ T) with (String c ((b ++ String c "") ++ T)).
  now rewrite append_assoc.
Qed.

Lemma year_split a c T : a ++ String c T = (a ++ String c "") ++ T.
Proof. now rewrite append_assoc. Qed.

Lemma render_split l d :
  render l d =
    match l with
    | Ymd_dash => year_sep "-" (Datetime.year d) ++ tail2 "-" (Datetime.month d) (Datetime.day d)
    | Dmy_dash => head2 "-" (Datetime.day d) (Datetime.month d) ++ Str.zfill 4 (Datetime.year d)
    | Dmy_slash => head2 "/" (Datetime.day d) (Datetime.month d) ++ Str.zfill 4 (Datetime.year d)
    | Mdy_slash => head2 "/" (Datetime.month d) (Datetime.day d) ++ Str.zfill 4 (Datetime.year d)
    | Dmy_dot => head2 "." (Datetime.day d) (Datetime.month d) ++ Str.zfill 4 (Datetime.year d)
    | Ymd_dot => year_sep "." (Datetime.year d) ++ tail2 "." (Datetime.month d) (Datetime.day d)
    end.
Proof.
  destruct l; unfold render, year_sep, tail2, head2;
    first [apply sep_split | apply year_split].
Qed.

Ltac one_of := simpl; tauto.

(** Every way of writing a date of the calendar but the month-first one
    is read back as that date by the loop over the formats. *)
Lemma first_parse_render l d :
  Datetime.valid d = true -> l <> Mdy_slash ->
  first_parse (render l d) date_formats = Some d.
Proof.
  intros Hv Hl. pose proof (valid_bounds d Hv) as (Hy & Hm & Hd).
  rewrite render_split. destruct d as [y m dd]. simpl in Hy, Hm, Hd.
  cbn [Datetime.year Datetime.month Datetime.day].
  assert (Hy' : (y < 10000)%N) by lia.
  assert (Hm' : (m < 100)%N) by lia.
  assert (Hd' : (dd < 100)%N) by lia.
  destruct l; [| | |contradiction| |].
  - apply (first_parse_first _ [] _ (tl date_formats)); [constructor|].
    apply strptime_year_first; [one_of | exact Hv].
  - apply (first_parse_first _ (firstn 1 date_formats) _ (skipn 2 date_formats)).
    + repeat constructor.
      exact (strptime_no_year "-" dd m _ _ ltac:(one_of) Hd').
    + exact (strptime_two_first "-" _ dd m y _ _
               (head2_day_month "-" dd m ltac:(one_of) Hd Hm) Hy' eq_refl Hv).
  - apply (first_parse_first _ (firstn 2 date_formats) _ (skipn 3 date_formats)).
    + repeat constructor.
      * exact (strptime_no_year "/" dd m _ _ ltac:(one_of) Hd').
      * exact (strptime_no_literal Datetime.Dir_d "/" "-" dd m _ _ ltac:(one_of) Hd').
    + exact (strptime_two_first "/" _ dd m y _ _
               (head2_day_month "/" dd m ltac:(one_of) Hd Hm) Hy' eq_refl Hv).
  - apply (first_parse_first _ (firstn 4 date_formats) _ (skipn 5 date_formats)).
    + repeat constructor.
      * exact (strptime_no_year "." dd m _ _ ltac:(one_of) Hd').
      * exact (strptime_no_literal Datetime.Dir_d "." "-" dd m _ _ ltac:(one_of) Hd').
      * exact (strptime_no_literal Datetime.Dir_d "." "/" dd m _ _ ltac:(one_of) Hd').
      * exact (strptime_no_literal Datetime.Dir_m "." "/" dd m _ _ ltac:(one_of) Hd').
    + exact (strptime_two_first "." _ dd m y _ _
               (head2_day_month "." dd m ltac:(one_of) Hd Hm) Hy' eq_refl Hv).
  - apply (first_parse_first _ (firstn 5 date_formats) _ []).
    + repeat constructor.
      * exact (strptime_year_no_dash y _ _ Hy').
      * exact (strptime_year_no_field Datetime.Dir_d "-" y _ _ ltac:(one_of) Hy').
      * exact (strptime_year_no_field Datetime.Dir_d "/" y _ _ ltac:(one_of) Hy').
      * exact (strptime_year_no_field Datetime.Dir_m "/" y _ _ ltac:(one_of) Hy').
      * exact (strptime_year_no_field Datetime.Dir_d "." y _ _ ltac:(one_of) Hy').
    + apply strptime_year_first; [one_of | exact Hv].
Qed.

(** A month-first text is read month first only when its second field
    cannot be a month; otherwise the third format reads it day first. *)
Lemma first_parse_month_first d :
  Datetime.valid d = true ->
  first_parse (render Mdy_slash d) date_formats
  = Some (if (Datetime.day d <=? 12)%N
          then Datetime.mkdate (Datetime.year d) (Datetime.day d) (Datetime.month d)
          else d).
Proof.
  intros Hv. pose proof (valid_bounds d Hv) as (Hy & Hm & Hd).
  rewrite render_split. destruct d as [y m dd]. simpl in Hy, Hm, Hd.
  cbn [Datetime.year Datetime.month Datetime.day].
  assert (Hy' : (y < 10000)%N) by lia.
  assert (Hm' : (m < 100)%N) by lia.
  assert (Hd' : (dd < 100)%N) by lia.
  assert (H1 : Datetime.strptime (head2 "/" m dd ++ Str.zfill 4 y)
                 [Datetime.Dir_Y; Datetime.Lit "-"; Datetime.Dir_m; Datetime.Lit "-";
                  Datetime.Dir_d] = None).
  { exact (strptime_no_year "/" m dd _ _ ltac:(one_of) Hm'). }
  assert (H2 : Datetime.strptime (head2 "/" m dd ++ Str.zfill 4 y)
                 [Datetime.Dir_d; Datetime.Lit "-"; Datetime.Dir_m; Datetime.Lit "-";
                  Datetime.Dir_Y] = None).
  { exact (strptime_no_literal Datetime.Dir_d "/" "-" m dd _ _ ltac:(one_of) Hm'). }
  destruct (dd <=? 12)%N eqn:E.
  - apply N.leb_le in E.
    apply (first_parse_first _ (firstn 2 date_formats) _ (skipn 3 date_formats)).
    + repeat constructor; assumption.
    + exact (strptime_two_first "/" _ m dd y _ _
               (head2_day_month "/" m dd ltac:(one_of) ltac:(lia) ltac:(lia)) Hy' eq_refl
               (valid_swapped y m dd Hv E)).
  - apply N.leb_gt in E.
    apply (first_parse_first _ (firstn 3 date_formats) _ (skipn 4 date_formats)).
    + repeat constructor; try assumption.
      exact (strptime_fails [Datetime.Dir_d; Datetime.Lit "/"; Datetime.Dir_m;
                             Datetime.Lit "/"] _ _ _
               (head2_not_day_first m dd Hm ltac:(lia))).
    + exact (strptime_two_first "/" _ m dd y _ _
               (head2_month_day m dd Hm Hd) Hy' eq_refl Hv).
Qed.

(** From the year 1000 on the dotted layout is the text that
    [strftime_dmY] writes. *)
Lemma render_dot d :
  Datetime.valid d = true -> (1000 <= Datetime.year d)%N ->
  render Dmy_dot d = Datetime.strftime_dmY d.
Proof.
  intros Hv Hy. pose proof (valid_bounds d Hv) as (Hb & _).
  unfold render, Datetime.strftime_dmY. now rewrite zfill4_of_N by lia.
Qed.

(** X13.  A date of the calendar from the year 1000 on, written with
    leading zeros in any of the six layouts of [date_formats], comes back
    as that date in the form DD.MM.YYYY; for the month-first layout this
    needs a day above twelve.  In particular the normalisation leaves its
    own output as it is. *)
Theorem format_date_properly_written_date (l : layout) (d : Datetime.date) :
  Datetime.valid d = true ->
  (1000 <= Datetime.year d)%N ->
  (l = Mdy_slash -> (12 < Datetime.day d)%N) ->
  format_date_properly (render l d) = Datetime.strftime_dmY d /\
  format_date_properly (Datetime.strftime_dmY d) = Datetime.strftime_dmY d.
Proof.
  intros Hv Hy Hl.
  assert (Hdot : format_date_properly (render Dmy_dot d) = Datetime.strftime_dmY d).
  { destruct (render_chars Dmy_dot d) as [Hne Hch].
    rewrite (format_date_properly_date_text _ Hne Hch).
    now rewrite (first_parse_render Dmy_dot d Hv ltac:(discriminate)). }
  split; [|rewrite (render_dot d Hv Hy) in Hdot; exact Hdot].
  destruct (render_chars l d) as [Hne Hch].
  rewrite (format_date_properly_date_text _ Hne Hch).
  destruct l; try (now rewrite first_parse_render by (assumption || discriminate)).
  rewrite (first_parse_month_first d Hv).
  specialize (Hl eq_refl). apply N.leb_gt in Hl. now rewrite Hl.
Qed.

Lemma format_date_properly_written_date_witness :
  Datetime.valid (Datetime.mkdate 2024 3 25) = true /\
  (1000 <= Datetime.year (Datetime.mkdate 2024 3 25))%N /\
  (Mdy_slash = Mdy_slash -> (12 < Datetime.day (Datetime.mkdate 2024 3 25))%N) /\
  format_date_properly (render Mdy_slash (Datetime.mkdate 2024 3 25))
    = Datetime.strftime_dmY (Datetime.mkdate 2024 3 25) /\
  format_date_properly (Datetime.strftime_dmY (Datetime.mkdate 2024 3 25))
    = Datetime.strftime_dmY (Datetime.mkdate 2024 3 25).
Proof.
  assert (Hv : Datetime.valid (Datetime.mkdate 2024 3 25) = true) by reflexivity.
  assert (Hy : (1000 <= Datetime.year (Datetime.mkdate 2024 3 25))%N) by (simpl; lia).
  assert (Hl : Mdy_slash = Mdy_slash -> (12 < Datetime.day (Datetime.mkdate 2024 3 25))%N)
    by (intros _; simpl; lia).
  exact (conj Hv (conj Hy (conj Hl
    (format_date_properly_written_date Mdy_slash _ Hv Hy Hl)))).
Defined.

Lemma map_append f a b : Str.map f (a ++ b) = Str.map f a ++ Str.map f b.
Proof.
  induction a as [|x a IH]; [reflexivity|].
  change (String (f x) (Str.map f (a ++ b)) = String (f x) (Str.map f a ++ Str.map f b)).
  now rewrite IH.
Qed.

Lemma map_digits_fixed s :
  Str.forallb Str.isdigit s = true ->
  Str.map (fun c => if Ascii.eqb c "/" then "."%char else c) s = s.
Proof.
  intros H. apply StrFacts.map_id. eapply StrFacts.forallb_impl; [|exact H].
  intros c Hc. destruct (Ascii.eqb c "/") eqn:E; [|apply Ascii.eqb_refl].
  apply Ascii.eqb_eq in E as ->. discriminate.
Qed.

(** X14.  A date from the year 1000 on written month first, MM/DD/YYYY,
    whose day is at most twelve is read day first: the third format
    accepts it before the month-first one is tried, so the day and the
    month change places and the result is the input with dots for
    slashes. *)
Theorem format_date_properly_month_first_swapped (d : Datetime.date) :
  Datetime.valid d = true -> (1000 <= Datetime.year d)%N -> (Datetime.day d <= 12)%N ->
  first_parse (render Mdy_slash d) date_formats
    = Some (Datetime.mkdate (Datetime.year d) (Datetime.day d) (Datetime.month d)) /\
  format_date_properly (render Mdy_slash d)
    = Datetime.strftime_dmY
        (Datetime.mkdate (Datetime.year d) (Datetime.day d) (Datetime.month d)) /\
  format_date_properly (render Mdy_slash d)
    = Str.replace_char "/" "." (render Mdy_slash d).
Proof.
  intros Hv Hy Hd. pose proof (first_parse_month_first d Hv) as H.
  pose proof (valid_bounds d Hv) as (Hb & _).
  apply N.leb_le in Hd. rewrite Hd in H. split; [exact H|].
  destruct (render_chars Mdy_slash d) as [Hne Hch].
  rewrite (format_date_properly_date_text _ Hne Hch), H. split; [reflexivity|].
  unfold Datetime.strftime_dmY, render, Str.replace_char.
  cbn [Datetime.year Datetime.month Datetime.day].
  rewrite <- (zfill4_of_N (Datetime.year d)) by lia.
  pose proof (zfill_isdigit 2 (Datetime.month d)) as Hm.
  pose proof (zfill_isdigit 2 (Datetime.day d)) as Hdd.
  pose proof (zfill_isdigit 4 (Datetime.year d)) as Hy4.
  rewrite !map_append. cbn [Str.map].
  rewrite !(map_digits_fixed _ Hm), !(map_digits_fixed _ Hdd), !(map_digits_fixed _ Hy4).
  reflexivity.
Qed.

Lemma format_date_properly_month_first_swapped_witness :
  Datetime.valid (Datetime.mkdate 2024 3 5) = true /\
  (1000 <= Datetime.year (Datetime.mkdate 2024 3 5))%N /\
  (Datetime.day (Datetime.mkdate 2024 3 5) <= 12)%N /\
  first_parse (render Mdy_slash (Datetime.mkdate 2024 3 5)) date_formats
    = Some (Datetime.mkdate 2024 5 3) /\
  format_date_properly "03/05/2024" = "03.05.2024".
Proof.
  assert (Hv : Datetime.valid (Datetime.mkdate 2024 3 5) = true) by reflexivity.
  assert (Hy : (1000 <= Datetime.year (Datetime.mkdate 2024 3 5))%N) by (simpl; lia).
  assert (Hd : (Datetime.day (Datetime.mkdate 2024 3 5) <= 12)%N) by (simpl; lia).
  destruct (format_date_properly_month_first_swapped _ Hv Hy Hd) as (H1 & H2 & _).
  exact (conj Hv (conj Hy (conj Hd (conj H1 H2)))).
Defined.

(** ** Generating documents *)

Lemma failure_lookup error :
  failure error !! "success" = Some (VBool false) /\
  failure error !! "error" = Some (VStr error) /\
  failure error !! "batch_count" = Some (VInt 0) /\
  failure error !! "product" = None /\
  failure error !! "filename" = None.
Proof. repeat split. Qed.

Lemma generated_lookup filename filepath n product :
  generated filename filepath n product !! "success" = Some (VBool true) /\
  generated filename filepath n product !! "filename" = Some (VStr filename) /\
  generated filename filepath n product !! "filepath" = Some (VStr filepath) /\
  generated filename filepath n product !! "batch_count" = Some (VInt (N.of_nat n)) /\
  generated filename filepath n product !! "product" = Some (VStr product).
Proof. repeat split. Qed.

(** The shape of every dictionary [generate_single_document] returns. *)
Lemma generate_single_document_try_result E σ w product_name :
  match fst (search_product_batches (df σ) (column_cache σ) product_name) with
  | Some (b :: bs) =>
      match snd (generate_single_document_try E σ w product_name) with
      | Ok r =>
          (exists error, r = failure error) \/
          (exists today,
             r = generated (document_filename product_name today)
                   (os_path_join (output_folder (config σ))
                      (document_filename product_name today))
                   (length (b :: bs)) product_name)
      | Raise _ => True
      end
  | _ =>
      fst (fst (generate_single_document_try E σ w product_name))
        = fst (mkdir E (output_folder (config σ)) w) /\
      match snd (mkdir E (output_folder (config σ)) w) with
      | Ok _ =>
          snd (generate_single_document_try E σ w product_name)
          = Ok (failure ("No batches found for product: " ++ product_name))
      | Raise e => snd (generate_single_document_try E σ w product_name) = Raise e
      end
  end.
Proof.
  unfold generate_single_document_try.
  destruct (mkdir E (output_folder (config σ)) w) as [w1 [[]|e]];
    destruct (search_product_batches (df σ) (column_cache σ) product_name)
      as [[[|b bs]|] lg]; cbn [fst snd]; auto.
  destruct (now E w1) as [w2 today].
  destruct (negb (os_path_exists E (template_file (config σ)) w2));
    [cbn [fst snd]; left; eexists; reflexivity|].
  destruct (Document E (template_file (config σ)) w2) as [doc|e]; [|exact I].
  destruct (fill_product_name_in_header E doc product_name) as [[doc1 b1] lg1].
  destruct (fill_batch_table_with_formatting E doc1 (b :: bs)) as [[doc2 [|]] lg2].
  - destruct (save E doc2 _ w2) as [w3 [[]|e]]; cbn [fst snd];
      [right; eexists; reflexivity | exact I].
  - cbn [fst snd]. left. eexists. reflexivity.
Qed.

Lemma generate_single_document_state E σ w product_name :
  let σ' := fst (fst (generate_single_document E σ w product_name)) in
  config σ' = config σ /\ df σ' = df σ /\ column_cache σ' = column_cache σ.
Proof.
  unfold generate_single_document.
  destruct (generate_single_document_try E σ w product_name) as [[w' lg] [r|e]];
    simpl; auto.
Qed.

(** X16.  [generate_single_document] always returns one of two
    dictionaries and leaves the configuration, the frame and the column
    cache as they are.  For a product whose lookup gives no batches the
    output folder is made and nothing else is touched; the result is the
    failure No batches found, or the failure of making the folder.  For a
    product with batches the result is a failure, or the success that
    carries the number of batches found, the product, and the file name
    built from the product name and the date. *)
Theorem generate_single_document_result
    (E : Environment) (σ : state) (w : world E) (product_name : string) :
  let out := generate_single_document E σ w product_name in
  let folder := output_folder (config σ) in
  (config (fst (fst out)) = config σ /\ df (fst (fst out)) = df σ /\
   column_cache (fst (fst out)) = column_cache σ) /\
  match fst (search_product_batches (df σ) (column_cache σ) product_name) with
  | Some (b :: bs) =>
      (exists error, snd out = failure error) \/
      (exists today,
         snd out = generated (document_filename product_name today)
                     (os_path_join folder (document_filename product_name today))
                     (length (b :: bs)) product_name)
  | _ =>
      snd (fst out) = fst (mkdir E folder w) /\
      snd out = match snd (mkdir E folder w) with
                | Ok _ => failure ("No batches found for product: " ++ product_name)
                | Raise e => failure (text e)
                end
  end.
Proof.
  cbv zeta. split; [apply generate_single_document_state|].
  pose proof (generate_single_document_try_result E σ w product_name) as H.
  unfold generate_single_document.
  destruct (fst (search_product_batches (df σ) (column_cache σ) product_name))
    as [[|b bs]|].
  - destruct H as [H1 H2].
    destruct (generate_single_document_try E σ w product_name) as [[w' lg] r].
    cbn [fst snd] in *. destruct (mkdir E (output_folder (config σ)) w) as [w1 [[]|e]];
      cbn [fst snd] in *; subst; auto.
  - destruct (generate_single_document_try E σ w product_name) as [[w' lg] [r|e]];
      cbn [fst snd] in *; [exact H|]. left. eexists. reflexivity.
  - destruct H as [H1 H2].
    destruct (generate_single_document_try E σ w product_name) as [[w' lg] r].
    cbn [fst snd] in *. destruct (mkdir E (output_folder (config σ)) w) as [w1 [[]|e]];
      cbn [fst snd] in *; subst; auto.
Qed.

(** *** The name of the file *)

Lemma safe_name_chars product_name :
  Str.forallb filename_char (Str.strip (sub_nonword_nonspace_nonhyphen product_name)) = true.
Proof.
  apply StrFacts.forallb_strip.
  eapply StrFacts.forallb_impl; [|apply StrFacts.forallb_filter].
  intros c Hc. unfold filename_char. now rewrite Hc.
Qed.

Lemma strftime_Ymd_chars d : Str.forallb filename_char (strftime_Ymd d) = true.
Proof.
  assert (H : forall s, Str.forallb Str.isdigit s = true ->
                        Str.forallb filename_char s = true).
  { intros s. apply StrFacts.forallb_impl. intros c Hc. unfold filename_char, Str.isword.
    rewrite Hc. now rewrite !orb_true_r. }
  unfold strftime_Ymd.
  repeat (rewrite forallb_append; apply andb_true_intro; split);
    try (apply H, zfill_isdigit); try (apply H, of_N_digits); reflexivity.
Qed.

Lemma document_filename_chars product_name today :
  Str.forallb filename_char (document_filename product_name today) = true.
Proof.
  unfold document_filename. cbv zeta.
  repeat (rewrite forallb_append; apply andb_true_intro; split);
    [apply safe_name_chars | reflexivity | apply strftime_Ymd_chars | reflexivity].
Qed.

Lemma absent_char (p s : string) :
  Str.forallb filename_char s = true -> Str.forallb filename_char p = false ->
  Str.contains p s = false.
Proof.
  intros Hs Hp. destruct (Str.contains p s) eqn:E; [|reflexivity].
  apply (contains_forallb filename_char) in E; [congruence | exact Hs].
Qed.

(** X17.  Whatever the product name, the file name of its document holds
    only word characters, white space, hyphens and the dot of its
    extension: it has no slash and no backslash, so [os.path.join] never
    takes it for an absolute path and the file path is the output folder
    followed by the file name. *)
Theorem document_filename_in_folder (product_name folder : string) (today : Datetime.date) :
  let filename := document_filename product_name today in
  Str.forallb filename_char filename = true /\
  Str.contains "/" filename = false /\
  Str.contains "\" filename = false /\
  (exists stem, filename = stem ++ ".docx") /\
  os_path_join folder filename
  = if (negb (Str.truthy folder) || endswith_char "/" folder)%bool
    then folder ++ filename
    else folder ++ "/" ++ filename.
Proof.
  cbv zeta. pose proof (document_filename_chars product_name today) as H.
  split; [exact H|]. split; [now apply absent_char|]. split; [now apply absent_char|].
  split.
  - unfold document_filename. cbv zeta.
    exists (Str.strip (sub_nonword_nonspace_nonhyphen product_name) ++ "_"
            ++ strftime_Ymd today).
    now rewrite !append_assoc.
  - unfold os_path_join.
    destruct (Str.startswith "/" (document_filename product_name today)) eqn:E;
      [|reflexivity].
    apply (startswith_forallb filename_char) in E; [discriminate E | exact H].
Qed.

(** *** The bulk loop *)

Lemma generate_single_document_shape E σ w product_name :
  let r := snd (generate_single_document E σ w product_name) in
  (exists error, r = failure error) \/
  (exists filename filepath n, r = generated filename filepath n product_name).
Proof.
  cbv zeta. pose proof (generate_single_document_try_result E σ w product_name) as H.
  unfold generate_single_document.
  destruct (fst (search_product_batches (df σ) (column_cache σ) product_name))
    as [[|b bs]|].
  - destruct H as [_ H].
    destruct (generate_single_document_try E σ w product_name) as [[w' lg] r].
    cbn [fst snd] in *. destruct (snd (mkdir E (output_folder (config σ)) w));
      subst; left; eexists; reflexivity.
  - destruct (generate_single_document_try E σ w product_name) as [[w' lg] [r|e]];
      cbn [fst snd] in *; [|left; eexists; reflexivity].
    destruct H as [H|[today ->]]; [left; exact H|]. right. do 3 eexists. reflexivity.
  - destruct H as [_ H].
    destruct (generate_single_document_try E σ w product_name) as [[w' lg] r].
    cbn [fst snd] in *. destruct (snd (mkdir E (output_folder (config σ)) w));
      subst; left; eexists; reflexivity.
Qed.

Lemma generate_single_document_not_found E σ w product_name :
  fst (search_product_batches (df σ) (column_cache σ) product_name) = None ->
  exists error, snd (generate_single_document E σ w product_name) = failure error.
Proof.
  intros Hn. pose proof (generate_single_document_try_result E σ w product_name) as H.
  rewrite Hn in H. destruct H as [_ H]. unfold generate_single_document.
  destruct (generate_single_document_try E σ w product_name) as [[w' lg] r].
  cbn [fst snd] in *. destruct (snd (mkdir E (output_folder (config σ)) w));
    subst; eexists; reflexivity.
Qed.

(** One turn of the loop appends the dictionary of the product, and an
    entry of the history when it reports a success; the handler of the
    loop is never entered. *)
Lemma bulk_step_spec E (s : session E) product :
  let out := generate_single_document E (doc_generator s) (outside s) product in
  doc_generator (bulk_step E s product) = fst (fst out) /\
  results (bulk_step E s product) = (results s ++ [snd out])%list /\
  length (generation_history (bulk_step E s product))
  = length (generation_history s) + (if is_generated (snd out) then 1 else 0).
Proof.
  cbv zeta. unfold bulk_step.
  pose proof (generate_single_document_shape E (doc_generator s) (outside s) product) as H.
  cbv zeta in H.
  destruct (generate_single_document E (doc_generator s) (outside s) product)
    as [[σ' w'] r].
  cbn [fst snd] in *.
  destruct H as [[error ->]|(filename & filepath & n & ->)].
  - change (dict_getitem (failure error) "success") with (@Ok pyval (VBool false)).
    cbn [pyval_truthy]. cbn [doc_generator results generation_history].
    change (is_generated (failure error)) with false. repeat split. lia.
  - change (dict_getitem (generated filename filepath n product) "success")
      with (@Ok pyval (VBool true)).
    cbn [pyval_truthy]. destruct (now E w') as [w'' t].
    change (dict_getitem (generated filename filepath n product) "batch_count")
      with (@Ok pyval (VInt (N.of_nat n))).
    change (dict_getitem (generated filename filepath n product) "filename")
      with (@Ok pyval (VStr filename)).
    cbn [mbind result_bind mret result_ret doc_generator results generation_history].
    change (is_generated (generated filename filepath n product)) with true.
    repeat split. rewrite length_app. reflexivity.
Qed.

Lemma mapM_result_map {A B} (f : A -> result B) (g : A -> B) l :
  (forall x, In x l -> f x = Ok (g x)) -> mapM f l = Ok (List.map g l).
Proof.
  induction l as [|x l IH]; intros H; [reflexivity|].
  rewrite mapM_result_cons, (H x (or_introl eq_refl)), IH; [reflexivity|].
  intros y Hy. apply H. now right.
Qed.

Lemma filter_tagged {A} (b : A -> bool) l :
  List.map fst (List.filter snd (List.map (fun r => (r, b r)) l)) = List.filter b l.
Proof.
  induction l as [|x l IH]; [reflexivity|]. simpl. destruct (b x); simpl; now rewrite IH.
Qed.

Lemma shaped_success r :
  ((exists error, r = failure error) \/
   (exists filename filepath n product, r = generated filename filepath n product)) ->
  dict_getitem r "success" = Ok (VBool (is_generated r)).
Proof. intros [[e ->]|(f & p & n & q & ->)]; reflexivity. Qed.

Lemma successful_shaped rs :
  Forall (fun r => (exists error, r = failure error) \/
                   (exists filename filepath n product,
                      r = generated filename filepath n product)) rs ->
  successful rs = Ok (List.filter is_generated rs) /\
  failed rs = Ok (List.filter (fun r => negb (is_generated r)) rs).
Proof.
  intros H. rewrite List.Forall_forall in H. unfold successful, failed. split.
  - rewrite (mapM_result_map _ (fun r => (r, is_generated r))).
    + cbn [mbind result_bind mret result_ret]. now rewrite filter_tagged.
    + intros r Hr. now rewrite (shaped_success r (H r Hr)).
  - rewrite (mapM_result_map _ (fun r => (r, negb (is_generated r)))).
    + cbn [mbind result_bind mret result_ret].
      now rewrite (filter_tagged (fun r => negb (is_generated r))).
    + intros r Hr. now rewrite (shaped_success r (H r Hr)).
Qed.

Lemma filter_split_length {A} (b : A -> bool) l :
  length (List.filter b l) + length (List.filter (fun x => negb (b x)) l) = length l.
Proof. induction l as [|x l IH]; [reflexivity|]. simpl. destruct (b x); simpl; lia. Qed.

(** The loop from any session: what it adds to the results and to the
    history. *)
Lemma bulk_loop_spec E products : forall s : session E,
  exists rs,
    results (fold_left (bulk_step E) products s) = (results s ++ rs)%list /\
    length (generation_history (fold_left (bulk_step E) products s))
    = length (generation_history s) + length (List.filter is_generated rs) /\
    Forall2 (fun product r =>
               ((exists error, r = failure error) \/
                (exists filename filepath n, r = generated filename filepath n product)) /\
               (fst (search_product_batches (df (doc_generator s))
                       (column_cache (doc_generator s)) product) = None ->
                exists error, r = failure error))
            products rs.
Proof.
  induction products as [|product products IH]; intros s.
  - exists []. simpl. rewrite app_nil_r. repeat split; [lia | constructor].
  - destruct (bulk_step_spec E s product) as (Hσ & Hr & Hh).
    pose proof (generate_single_document_state E (doc_generator s) (outside s) product)
      as (_ & Hdf & Hcache).
    cbv zeta in Hdf, Hcache. rewrite <- Hσ in Hdf, Hcache.
    destruct (IH (bulk_step E s product)) as (rs & Hrs & Hhs & Hall).
    exists (snd (generate_single_document E (doc_generator s) (outside s) product) :: rs).
    cbn [fold_left]. split; [|split].
    + rewrite Hrs, Hr, <- app_assoc. reflexivity.
    + rewrite Hhs, Hh. cbn [List.filter].
      destruct (is_generated _); simpl; lia.
    + constructor.
      * split; [apply generate_single_document_shape|].
        apply generate_single_document_not_found.
      * rewrite Hdf, Hcache in Hall. exact Hall.
Qed.

(** X18.  The bulk generation returns one dictionary for each selected
    product, in their order, and goes on after a product that fails; a
    product whose lookup finds nothing is among the failures; the history
    grows by one entry for each success.  The dictionaries of the failures
    have no key [product], so the listing of the failed generations raises
    [KeyError] as soon as one product has failed. *)
Theorem bulk_generate_report
    (E : Environment) (σ : state) (w : world E) (history : list history_entry)
    (selected_products : list string) :
  let s := bulk_generate E σ w history selected_products in
  Forall2 (fun product r =>
             ((exists error, r = failure error) \/
              (exists filename filepath n, r = generated filename filepath n product)) /\
             (fst (search_product_batches (df σ) (column_cache σ) product) = None ->
              exists error, r = failure error))
          selected_products (results s) /\
  exists ok bad,
    successful (results s) = Ok ok /\ failed (results s) = Ok bad /\
    length ok + length bad = length selected_products /\
    length (generation_history s) = length history + length ok /\
    Forall (fun r => exists error, r = failure error) bad /\
    (bad <> [] -> failed_lines bad = Raise (mkexn KeyError "'product'")).
Proof.
  cbv zeta. unfold bulk_generate.
  destruct (bulk_loop_spec E selected_products (mksession σ w [] history))
    as (rs & Hrs & Hh & Hall).
  cbn [results generation_history doc_generator app] in Hrs, Hh, Hall.
  rewrite Hrs. split; [exact Hall|].
  assert (Hshape : Forall (fun r => (exists error, r = failure error) \/
                     (exists filename filepath n product,
                        r = generated filename filepath n product)) rs).
  { clear -Hall. induction Hall as [|p r ps rs' [[H|(f & q & n & H)] _] _ IH];
      constructor; eauto 6. }
  destruct (successful_shaped rs Hshape) as [Hok Hbad].
  exists (List.filter is_generated rs), (List.filter (fun r => negb (is_generated r)) rs).
  split; [exact Hok|]. split; [exact Hbad|]. split; [|split; [exact Hh|]].
  - rewrite filter_split_length. symmetry. eapply Forall2_length, Hall.
  - assert (Hf : Forall (fun r => exists error, r = failure error)
                   (List.filter (fun r => negb (is_generated r)) rs)).
    { apply List.Forall_forall. intros r [Hr Hn]%filter_In.
      rewrite List.Forall_forall in Hshape.
      destruct (Hshape r Hr) as [H|(f & q & n & p & ->)]; [exact H | discriminate Hn]. }
    split; [exact Hf|].
    destruct (List.filter (fun r => negb (is_generated r)) rs) as [|r bad];
      [congruence|]. intros _.
    inversion Hf as [|? ? [error ->] _]. reflexivity.
Qed.

(** ** Percentages of whole numbers *)

Lemma round_half_even_exact a d :
  (0 < d)%Z -> Float.round_half_even (a * d) d = a.
Proof.
  intros Hd. unfold Float.round_half_even.
  rewrite Z.mod_mul by lia. rewrite Z.div_mul by lia.
  change (2 * 0)%Z with 0%Z. now rewrite (proj2 (Z.compare_lt_iff 0 d) Hd).
Qed.

(** A whole number below 2^53 is a binary64 value, and [.2f] writes it
    with two zeros. *)
Lemma format_2f_whole n :
  (n < 2 ^ 53)%N ->
  Float.format_2f (Float.of_ratio false (Z.of_N n) 1) = Str.of_N n ++ ".00".
Proof.
  intros Hn. unfold Float.of_ratio.
  destruct (Z.of_N n =? 0)%Z eqn:E0.
  - apply Z.eqb_eq in E0. assert (n = 0%N) by lia. subst. reflexivity.
  - apply Z.eqb_neq in E0.
    assert (Hpos : (0 < Z.of_N n)%Z) by lia.
    assert (Hlt : (Z.of_N n < 2 ^ 53)%Z).
    { change (2 ^ 53)%Z with (Z.of_N (2 ^ 53)). lia. }
    pose proof (Z.log2_spec _ Hpos) as [Hlo Hhi].
    pose proof (Z.log2_nonneg (Z.of_N n)) as He0.
    assert (He : (Z.log2 (Z.of_N n) < 53)%Z) by (apply Z.log2_lt_pow2; lia).
    change (Z.log2 1) with 0%Z. rewrite Z.sub_0_r.
    set (e := Z.log2 (Z.of_N n)) in *.
    assert (Hge : Float.ge_pow2 (Z.of_N n) 1 e = true).
    { unfold Float.ge_pow2. rewrite (proj2 (Z.leb_le 0 e) He0).
      apply Z.leb_le. lia. }
    rewrite Hge. rewrite Z.max_l by lia.
    destruct (e - 52 <? 0)%Z eqn:Ep.
    + apply Z.ltb_lt in Ep.
      rewrite Z.div_1_r || idtac.
      assert (Hr : Float.round_half_even (Z.of_N n * 2 ^ (- (e - 52))) 1
                   = (Z.of_N n * 2 ^ (- (e - 52)))%Z).
      { rewrite <- (Z.mul_1_r (Z.of_N n * 2 ^ (- (e - 52)))) at 1.
        apply round_half_even_exact. lia. }
      rewrite Hr. replace (0 <=? e - 52)%Z with false by (symmetry; apply Z.leb_gt; lia).
      cbn [andb]. unfold Float.format_2f. rewrite (proj2 (Z.ltb_lt _ _) Ep).
      replace (Z.of_N n * 2 ^ (- (e - 52)) * 100)%Z
        with (Z.of_N n * 100 * 2 ^ (- (e - 52)))%Z by ring.
      rewrite round_half_even_exact by (apply Z.pow_pos_nonneg; lia).
      rewrite Z.div_mul, Z.mod_mul by lia.
      rewrite N2Z.id. reflexivity.
    + apply Z.ltb_ge in Ep. assert (e = 52%Z) by lia. subst e.
      replace (Z.log2 (Z.of_N n) - 52)%Z with 0%Z by lia.
      change (2 ^ 0)%Z with 1%Z. rewrite !Z.mul_1_r.
      assert (Hr : Float.round_half_even (Z.of_N n) 1 = Z.of_N n).
      { rewrite <- (Z.mul_1_r (Z.of_N n)) at 1. apply round_half_even_exact. lia. }
      rewrite Hr. change (0 <=? 0)%Z with true. cbn [andb].
      replace (2 ^ 1024 <=? Z.of_N n)%Z with false.
      2:{ symmetry. apply Z.leb_gt. eapply Z.lt_trans; [exact Hlt|]. reflexivity. }
      unfold Float.format_2f. change (0 <? 0)%Z with false. cbv iota.
      change (2 ^ 0)%Z with 1%Z. rewrite Z.mul_1_r.
      rewrite Z.div_mul, Z.mod_mul by lia.
      rewrite N2Z.id. reflexivity.
Qed.

Lemma digit_lower c : Str.isdigit c = true -> Ascii.eqb (Str.lower_char c) c = true.
Proof. each_char c. Qed.

Lemma percent_char_not_space c : percent_char c = true -> Str.isspace c = false.
Proof. each_char c. Qed.

Lemma percent_char_upper c :
  percent_char c = true -> Ascii.eqb (Str.upper_char c) c = true.
Proof. each_char c. Qed.

Lemma parse_sign_digit c r :
  Str.isdigit c = true -> Float.parse_sign (String c r) = (false, String c r).
Proof.
  destruct c as [[|] [|] [|] [|] [|] [|] [|] [|]]; intros H; try discriminate H;
    reflexivity.
Qed.

Lemma digit_not_word c r w :
  Str.isdigit c = true -> In w ["inf"; "infinity"; "nan"] -> String.eqb (String c r) w = false.
Proof.
  intros H Hw. simpl in Hw. destruct Hw as [<-|[<-|[<-|[]]]];
    destruct c as [[|] [|] [|] [|] [|] [|] [|] [|]]; try discriminate H; reflexivity.
Qed.

Lemma span_digits_all s :
  Str.forallb Str.isdigit s = true -> Str.span_digits s = (s, "").
Proof.
  induction s as [|c r IH]; [reflexivity|]. simpl. intros [Hc Hr]%andb_prop.
  now rewrite Hc, (IH Hr).
Qed.

(** [float] of a non-empty text of digits is the binary64 value nearest to
    the number the digits write. *)
Lemma of_string_digits t :
  t <> "" -> Str.forallb Str.isdigit t = true ->
  Float.of_string t = Some (Float.of_ratio false (Z.of_N (Str.int_of_digits t)) 1).
Proof.
  intros Hne Ht. unfold Float.of_string.
  assert (Hstrip : Str.strip t = t).
  { apply StrFacts.strip_fixed; intros c Hc; apply digit_not_space.
    - eapply forallb_head; eauto.
    - eapply forallb_last; eauto. }
  rewrite Hstrip. unfold Float.strip_underscores.
  assert (Hu : Str.contains "_" t = false).
  { destruct (Str.contains "_" t) eqn:E; [|reflexivity].
    apply (contains_forallb Str.isdigit) in E; [discriminate E | exact Ht]. }
  rewrite Hu.
  assert (Hlow : Str.lower t = t).
  { apply StrFacts.map_id. eapply StrFacts.forallb_impl; [|exact Ht]. apply digit_lower. }
  destruct t as [|c r]; [congruence|].
  pose proof Ht as [Hc _]%andb_prop.
  rewrite (parse_sign_digit c r Hc), Hlow.
  rewrite !(digit_not_word c r) by (assumption || (simpl; tauto)).
  cbn [orb]. unfold Float.parse_decimal. rewrite (span_digits_all _ Ht).
  cbn iota beta. rewrite append_nil_r. cbn [Str.truthy negb String.length].
  unfold Float.of_decimal. change (0 <=? - Z.of_nat 0)%Z with true. cbv iota.
  change (10 ^ (- Z.of_nat 0))%Z with 1%Z. now rewrite Z.mul_1_r.
Qed.

Lemma filter_append p a b : Str.filter p (a ++ b) = Str.filter p a ++ Str.filter p b.
Proof.
  induction a as [|x a IH]; [reflexivity|].
  change (Str.filter p (String x (a ++ b)) = Str.filter p (String x a) ++ Str.filter p b).
  simpl. destruct (p x); [|exact IH].
  change (String x (Str.filter p (a ++ b)) = String x (Str.filter p a ++ Str.filter p b)).
  now rewrite IH.
Qed.

(** The text of a percentage made of digits and percent signs is taken as
    it is, and cleaned of its percent signs. *)
Lemma format_percentage_percent_text s :
  s <> "" -> Str.forallb percent_char s = true ->
  format_percentage s
  = let clean_value := Str.filter Str.isdigit s in
    if Str.truthy clean_value then
      match Float.of_string clean_value with
      | Some num_value => Float.format_2f num_value ++ "%"
      | None => s
      end
    else "".
Proof.
  intros Hne Hs.
  assert (Hstrip : Str.strip s = s).
  { apply StrFacts.strip_fixed; intros c Hc; apply percent_char_not_space.
    - eapply forallb_head; eauto.
    - eapply forallb_last; eauto. }
  assert (Hup : Str.upper s = s).
  { apply StrFacts.map_id. eapply StrFacts.forallb_impl; [|exact Hs].
    apply percent_char_upper. }
  assert (Hna : has_na_token s = false).
  { unfold has_na_token, na_tokens. simpl.
    repeat match goal with
           | |- context [Str.contains ?t s] =>
               let E := fresh "E" in
               destruct (Str.contains t s) eqn:E;
               [apply (contains_forallb percent_char) in E; [discriminate E | exact Hs]|]
           end.
    reflexivity. }
  assert (Hclean : Re.sub_percent_space s = Str.filter Str.isdigit s).
  { unfold Re.sub_percent_space. clear -Hs. induction s as [|c r IH]; [reflexivity|].
    simpl in Hs. apply andb_prop in Hs as [Hc Hr]. simpl. rewrite (IH Hr).
    replace (negb (Ascii.eqb c "%" || Str.isspace c)) with (Str.isdigit c);
      [reflexivity|]. revert Hc. clear. each_char c. }
  unfold format_percentage, blank. rewrite Hstrip, Hup, Hna, Hclean.
  assert (Hnan : String.eqb (Str.filter Str.isdigit s) "nan" = false).
  { pose proof (StrFacts.forallb_filter Str.isdigit s) as Hd.
    destruct (Str.filter Str.isdigit s) as [|c r]; [reflexivity|].
    apply andb_prop in Hd as [Hc _]. apply digit_not_word; [exact Hc | simpl; tauto]. }
  rewrite Hnan. cbn [negb]. rewrite andb_true_r.
  destruct s as [|c r]; [congruence|]. reflexivity.
Qed.

(** X19.  A whole number below 2^53, written in decimal with or without a
    percent sign behind it, is formatted as the same digits followed by
    .00 and the percent sign. *)
Theorem format_percentage_whole_number (n : N) :
  (n < 2 ^ 53)%N ->
  format_percentage (Str.of_N n) = Str.of_N n ++ ".00%" /\
  format_percentage (Str.of_N n ++ "%") = Str.of_N n ++ ".00%".
Proof.
  intros Hn.
  pose proof (of_N_digits n) as Hd. pose proof (of_N_nonempty n) as Hne.
  assert (Hp : Str.forallb percent_char (Str.of_N n) = true).
  { eapply StrFacts.forallb_impl; [|exact Hd]. intros c Hc. unfold percent_char.
    now rewrite Hc. }
  assert (Hfloat : Float.of_string (Str.of_N n)
                   = Some (Float.of_ratio false (Z.of_N n) 1)).
  { rewrite (of_string_digits _ Hne Hd). now rewrite int_of_digits_of_N. }
  assert (Htruthy : Str.truthy (Str.of_N n) = true).
  { destruct (Str.of_N n); [congruence | reflexivity]. }
  split.
  - rewrite (format_percentage_percent_text _ Hne Hp). cbv zeta.
    rewrite (StrFacts.filter_id _ _ Hd), Htruthy, Hfloat, (format_2f_whole n Hn).
    now rewrite append_assoc.
  - rewrite format_percentage_percent_text.
    + cbv zeta. rewrite filter_append, (StrFacts.filter_id _ _ Hd).
      change (Str.filter Str.isdigit "%") with "". rewrite append_nil_r.
      rewrite Htruthy, Hfloat, (format_2f_whole n Hn). now rewrite append_assoc.
    + now apply append_nonempty.
    + rewrite forallb_append, Hp. reflexivity.
Qed.

Lemma format_percentage_whole_number_witness :
  (97 < 2 ^ 53)%N /\
  format_percentage "97" = "97.00%" /\
  format_percentage "97%" = "97.00%" /\
  format_percentage "9007199254740993" = "9007199254740992.00%".
Proof.
  assert (H : (97 < 2 ^ 53)%N) by (vm_compute; reflexivity).
  destruct (format_percentage_whole_number 97 H) as [H1 H2].
  exact (conj H (conj H1 (conj H2 eq_refl))).
Defined.

(** ** A date followed by a time of day *)

Lemma head_append a b : a <> "" -> Str.head (a ++ b) = Str.head a.
Proof. destruct a; [congruence | reflexivity]. Qed.

Lemma last_append a b : b <> "" -> Str.last (a ++ b) = Str.last b.
Proof.
  intros Hb. induction a as [|c a IH]; [reflexivity|].
  change (Str.last (String c (a ++ b)) = Str.last b).
  destruct (a ++ b) eqn:E; [|exact IH].
  destruct a as [|x a']; [change (b = "") in E; congruence|].
  change (String x (a' ++ b) = "") in E. discriminate E.
Qed.

Lemma split_head_append t u :
  Str.forallb date_char t = true -> Str.split_head " " (t ++ String " " u) = t.
Proof.
  induction t as [|c r IH]; [reflexivity|]. intros [Hc Hr]%andb_prop.
  change (Str.split_head " " (String c (r ++ String " " u)) = String c r).
  simpl. destruct (Ascii.eqb c " ") eqn:E.
  - apply Ascii.eqb_eq in E as ->. discriminate.
  - now rewrite IH.
Qed.

Lemma stamp_char_upper c : stamp_char c = true -> Ascii.eqb (Str.upper_char c) c = true.
Proof. each_char c. Qed.

Lemma time_char_not_space c : time_char c = true -> Str.isspace c = false.
Proof. each_char c. Qed.

Lemma date_stamp_char c : date_char c = true -> stamp_char c = true.
Proof. each_char c. Qed.

Lemma time_stamp_char c : time_char c = true -> stamp_char c = true.
Proof. each_char c. Qed.

(** A text of digits and separators followed by a space and a time of day
    is normalised as the text before the space. *)
Lemma format_date_properly_stamp t u :
  t <> "" -> Str.forallb date_char t = true ->
  u <> "" -> Str.forallb time_char u = true ->
  format_date_properly (t ++ " " ++ u)
  = match first_parse t date_formats with
    | Some parsed_date => Datetime.strftime_dmY parsed_date
    | None => t
    end.
Proof.
  intros Ht Hdt Hu Htu.
  change (t ++ " " ++ u) with (t ++ String " " u).
  set (w := t ++ String " " u).
  assert (Hw : Str.forallb stamp_char w = true).
  { unfold w. rewrite forallb_append.
    rewrite (StrFacts.forallb_impl _ _ t date_stamp_char Hdt).
    change (Str.forallb stamp_char (String " " u)) with (Str.forallb stamp_char u).
    now rewrite (StrFacts.forallb_impl _ _ u time_stamp_char Htu). }
  assert (Hstrip : Str.strip w = w).
  { apply StrFacts.strip_fixed; intros c Hc.
    - unfold w in Hc. rewrite head_append in Hc by exact Ht.
      apply date_char_not_space. eapply forallb_head; eauto.
    - unfold w in Hc. rewrite last_append in Hc by discriminate.
      destruct u as [|x u']; [congruence|].
      change (Str.last (String " " (String x u'))) with (Str.last (String x u')) in Hc.
      apply time_char_not_space. eapply forallb_last; eauto. }
  assert (Hup : Str.upper w = w).
  { apply StrFacts.map_id. eapply StrFacts.forallb_impl; [|exact Hw].
    apply stamp_char_upper. }
  assert (Hna : has_na_token w = false).
  { unfold has_na_token, na_tokens. simpl.
    repeat match goal with
           | |- context [Str.contains ?x w] =>
               let E := fresh "E" in
               destruct (Str.contains x w) eqn:E;
               [apply (contains_forallb stamp_char) in E; [discriminate E | exact Hw]|]
           end.
    reflexivity. }
  unfold format_date_properly, blank. rewrite Hstrip, Hup, Hna.
  unfold w at 3 4. rewrite (split_head_append t u Hdt).
  unfold w. destruct t as [|c r]; [congruence|]. reflexivity.
Qed.

(** X20.  A date of the calendar from the year 1000 on, written in one of
    the six layouts and followed by a space and a time of day (digits,
    colons and dots, as in 2024-03-05 00:00:00), is normalised as the date
    alone: the time of day is dropped. *)
Theorem format_date_properly_with_time (l : layout) (d : Datetime.date) (u : string) :
  Datetime.valid d = true ->
  (1000 <= Datetime.year d)%N ->
  (l = Mdy_slash -> (12 < Datetime.day d)%N) ->
  u <> "" -> Str.forallb time_char u = true ->
  format_date_properly (render l d ++ " " ++ u) = Datetime.strftime_dmY d.
Proof.
  intros Hv _ Hl Hu Htu. destruct (render_chars l d) as [Hne Hch].
  rewrite (format_date_properly_stamp _ _ Hne Hch Hu Htu).
  destruct l; try (now rewrite first_parse_render by (assumption || discriminate)).
  rewrite (first_parse_month_first d Hv).
  specialize (Hl eq_refl). apply N.leb_gt in Hl. now rewrite Hl.
Qed.

Lemma format_date_properly_with_time_witness :
  Datetime.valid (Datetime.mkdate 2024 3 5) = true /\
  (1000 <= Datetime.year (Datetime.mkdate 2024 3 5))%N /\
  (Ymd_dash = Mdy_slash -> (12 < Datetime.day (Datetime.mkdate 2024 3 5))%N) /\
  "00:00:00" <> "" /\ Str.forallb time_char "00:00:00" = true /\
  format_date_properly "2024-03-05 00:00:00" = "05.03.2024".
Proof.
  assert (Hv : Datetime.valid (Datetime.mkdate 2024 3 5) = true) by reflexivity.
  assert (Hy : (1000 <= Datetime.year (Datetime.mkdate 2024 3 5))%N) by (simpl; lia).
  assert (Hl : Ymd_dash = Mdy_slash -> (12 < Datetime.day (Datetime.mkdate 2024 3 5))%N)
    by discriminate.
  assert (Hu : "00:00:00" <> "") by discriminate.
  assert (Ht : Str.forallb time_char "00:00:00" = true) by reflexivity.
  exact (conj Hv (conj Hy (conj Hl (conj Hu (conj Ht
    (format_date_properly_with_time Ymd_dash _ "00:00:00" Hv Hy Hl Hu Ht)))))).
Defined.
